(** * Authentication and session trust of petites-annonces-ci

    A shallow embedding of the token issuer ([AuthService.generateToken],
    [generateTokenPair]), the bearer-token middleware ([authenticateToken]
    with its revoked-token set and user cache), the account guard
    ([checkAccountLockout], [handleFailedLogin], [resetLoginAttempts]) and the
    flows of [AuthService] and [AuthController] that compose them; then the
    guards that follow the middleware, the phone validation and the
    duplicate detection of the validation middleware, and the buffers of the
    request analytics.

    Conventions.
    - A JavaScript string is the list of its UTF-16 code units.
    - A thrown [Error] is its message; messages are kept as the source spells
      them.
    - The clock ([Date.now()], milliseconds) is read once per operation and
      passed in; every random draw (UUID, cuid, salt) is an argument too.
    - The relational store is available: the failures modelled are the ones
      the service can cause itself (unique constraints, missing rows). *)

From Stdlib Require Import ZArith String Ascii.
From stdpp Require Import base decidable option list gmap strings pretty.

Local Open Scope Z_scope.

(* ------------------------------------------------------------------ *)
(** ** JavaScript strings *)

Module Js.

(** A string as its UTF-16 code units. *)
Abbreviation str := (list N).

(** The code units of an ASCII literal. *)
Definition lit (s : string) : str :=
  (fun a => N_of_ascii a) <$> list_ascii_of_string s.

(** [s.startsWith(p)] *)
Fixpoint startsWith (p s : str) : bool :=
  match p, s with
  | [], _ => true
  | _ :: _, [] => false
  | a :: p', b :: s' => if decide (a = b) then startsWith p' s' else false
  end.

(** [s.substring(n)] for [0 <= n] *)
Definition substring (n : nat) (s : str) : str := drop n s.

(** White space and line terminators, the class [\s] of a regular
    expression. *)
Definition isSpace (c : N) : bool :=
  ((9 <=? c) && (c <=? 13) || (c =? 32) || (c =? 160) || (c =? 5760)
   || (8192 <=? c) && (c <=? 8202) || (c =? 8232) || (c =? 8233)
   || (c =? 8239) || (c =? 8287) || (c =? 12288) || (c =? 65279))%N.

(** [s.replace(/\s+/g, '')] *)
Definition stripSpaces (s : str) : str :=
  List.filter (fun c => negb (isSpace c)) s.

(** [s.trim()] *)
Fixpoint trimStart (s : str) : str :=
  match s with
  | c :: s' => if isSpace c then trimStart s' else s
  | [] => []
  end.
Definition trim (s : str) : str := rev (trimStart (rev (trimStart s))).

(** Truthiness of a string: the empty string is falsy. *)
Definition truthy (s : str) : bool :=
  match s with [] => false | _ => true end.

(** [a || b] on optional values ([undefined] is falsy). *)
Definition or {A} (truthy_ : A -> bool) (a b : option A) : option A :=
  match a with
  | Some s => if truthy_ s then a else b
  | None => b
  end.

(** The value if it passes [if (x)], nothing otherwise. *)
Definition whenTruthy {A} (truthy_ : A -> bool) (a : option A) : option A :=
  a ≫= fun x => if truthy_ x then Some x else None.

(** The parts of [s] before and after the first [c], if [c] occurs. *)
Fixpoint splitFirst (c : N) (s : str) : option (str * str) :=
  match s with
  | [] => None
  | x :: s' =>
      if (x =? c)%N then Some ([], s')
      else '(a, b) ← splitFirst c s'; Some (x :: a, b)
  end.

(** [s.split(c)[0]] *)
Definition firstSegment (c : N) (s : str) : str :=
  match splitFirst c s with Some (a, _) => a | None => s end.

(** [hay.includes(needle)], also SQL's [LIKE '%needle%'] *)
Fixpoint includes (needle hay : str) : bool :=
  startsWith needle hay ||
  match hay with
  | [] => false
  | _ :: hay' => includes needle hay'
  end.

Definition inRange (lo hi c : N) : bool := ((lo <=? c) && (c <=? hi))%N.
Definition isDigit : N -> bool := inRange 48 57.
Definition isLower : N -> bool := inRange 97 122.
Definition isUpper : N -> bool := inRange 65 90.

(** [`${n}`] for an integer *)
Definition ofZ (n : Z) : str := lit (pretty n).

End Js.

(* ------------------------------------------------------------------ *)
(** ** The jsonwebtoken library, symbolically

    A token string is either not a JWS at all, or the serialisation of a set of
    claims signed (HS256) with a key. Verification with a key succeeds on the
    signature exactly when the token was signed with that key. *)

Module Jwt.

Inductive TokenType := access | refresh | verification | reset.

#[global] Instance TokenType_eq_dec : EqDecision TokenType.
Proof. solve_decision. Defined.

(** [TokenPayload] together with the registered claims that [jwt.sign] adds. *)
Record Claims := mkClaims {
  userId : Js.str;
  email : Js.str;
  type : TokenType;
  iat : Z;
  exp : Z;
  iss : Js.str;
  aud : Js.str;
  jti : Js.str
}.

#[global] Instance Claims_eq_dec : EqDecision Claims.
Proof. solve_decision. Defined.

Inductive Token :=
| Opaque (s : Js.str)
| Signed (key : Js.str) (c : Claims).

#[global] Instance Token_eq_dec : EqDecision Token.
Proof. solve_decision. Defined.

(** Truthiness of a token string: only the empty string is falsy. *)
Definition truthy (t : Token) : bool :=
  match t with Opaque [] => false | _ => true end.

Inductive VerifyError := TokenExpiredError | JsonWebTokenError.

Record SignOptions := mkSignOptions {
  expiresIn : Z;   (* seconds, after parsing '15m', '7d', ... *)
  issuer : Js.str;
  audience : Js.str;
  jwtid : Js.str
}.

Record VerifyOptions := mkVerifyOptions {
  v_issuer : Js.str;
  v_audience : Js.str
}.

(** [jwt.sign(payload, secret, options)] at clock reading [clock]
    (seconds since the epoch, [Math.floor(Date.now() / 1000)]). *)
Definition sign (clock : Z) (uid mail : Js.str) (ty : TokenType)
    (secret : Js.str) (o : SignOptions) : Token :=
  Signed secret
    {| userId := uid; email := mail; type := ty;
       iat := clock; exp := clock + expiresIn o;
       iss := issuer o; aud := audience o; jti := jwtid o |}.

(** [jwt.verify(token, secret, options)]: signature, then expiry, then
    audience and issuer when asked for. *)
Definition verify (clock : Z) (t : Token) (secret : Js.str)
    (o : option VerifyOptions) : VerifyError + Claims :=
  match t with
  | Opaque _ => inl JsonWebTokenError
  | Signed key c =>
      if negb (bool_decide (key = secret)) then inl JsonWebTokenError
      else if exp c <=? clock then inl TokenExpiredError
      else match o with
           | None => inr c
           | Some vo =>
               if negb (bool_decide (aud c = v_audience vo)) then inl JsonWebTokenError
               else if negb (bool_decide (iss c = v_issuer vo)) then inl JsonWebTokenError
               else inr c
           end
  end.

End Jwt.


(* ------------------------------------------------------------------ *)
(** ** Process environment and platform *)

(** [process.env]. *)
Record Env := mkEnv {
  JWT_SECRET : option Js.str;
  REFRESH_TOKEN_SECRET : option Js.str;
  NODE_ENV : option Js.str
}.

(** [process.env.X || 'fallback'] *)
Definition envOr (x : option Js.str) (fallback : string) : Js.str :=
  default [] (Js.or Js.truthy x (Some (Js.lit fallback))).

(** What the runtime and bcryptjs provide; nothing is assumed about them. *)
Class Platform := {
  toLowerCase : Js.str -> Js.str;
  toUpperCase : Js.str -> Js.str;
  (** [bcrypt.hash(data, rounds)], the salt drawn being the third argument *)
  bcrypt_hash : Js.str -> Z -> Js.str -> Js.str;
  (** [bcrypt.compare(data, encrypted)] *)
  bcrypt_compare : Js.str -> Js.str -> bool
}.

(* ------------------------------------------------------------------ *)
(** ** Data model (shared types and the Prisma schema) *)

Inductive UserStatus := ACTIVE | SUSPENDED | DELETED | PENDING_VERIFICATION.

#[global] Instance UserStatus_eq_dec : EqDecision UserStatus.
Proof. solve_decision. Defined.

(** The enum [UserStatus] of the shared types at run time. The service
    ([authService.ts], line 8) and the middleware ([authMiddleware.ts], in
    its import of the shared types) bring it in with
    [import type { ..., UserStatus, ... }]: an import of the type only, erased
    from the JavaScript that runs. No binding of that name exists there, and
    evaluating [UserStatus.X] throws [ReferenceError: UserStatus is not
    defined]. The value is the member when the name is bound, the message of
    the error otherwise. *)
Definition UserStatus_ (member : UserStatus) : string + UserStatus :=
  inl "UserStatus is not defined".

Module User.
Record t := mk {
  id : Js.str;
  email : Js.str;
  phone : Js.str;
  password : Js.str;
  firstName : Js.str;
  lastName : Js.str;
  avatar : option Js.str;
  isProfessional : bool;
  companyName : option Js.str;
  region : option Js.str;
  commune : option Js.str;
  emailVerified : bool;
  phoneVerified : bool;
  status : UserStatus;
  lastLoginAt : option Z;
  loginAttempts : Z;
  blockedUntil : option Z;
  createdAt : Z;
  updatedAt : Z
}.

Definition set_password (v : Js.str) (u : t) : t :=
  mk (id u) (email u) (phone u) v (firstName u) (lastName u) (avatar u)
     (isProfessional u) (companyName u) (region u) (commune u)
     (emailVerified u) (phoneVerified u) (status u) (lastLoginAt u)
     (loginAttempts u) (blockedUntil u) (createdAt u) (updatedAt u).
Definition set_emailVerified (v : bool) (u : t) : t :=
  mk (id u) (email u) (phone u) (password u) (firstName u) (lastName u) (avatar u)
     (isProfessional u) (companyName u) (region u) (commune u)
     v (phoneVerified u) (status u) (lastLoginAt u)
     (loginAttempts u) (blockedUntil u) (createdAt u) (updatedAt u).
Definition set_status (v : UserStatus) (u : t) : t :=
  mk (id u) (email u) (phone u) (password u) (firstName u) (lastName u) (avatar u)
     (isProfessional u) (companyName u) (region u) (commune u)
     (emailVerified u) (phoneVerified u) v (lastLoginAt u)
     (loginAttempts u) (blockedUntil u) (createdAt u) (updatedAt u).
Definition set_lastLoginAt (v : option Z) (u : t) : t :=
  mk (id u) (email u) (phone u) (password u) (firstName u) (lastName u) (avatar u)
     (isProfessional u) (companyName u) (region u) (commune u)
     (emailVerified u) (phoneVerified u) (status u) v
     (loginAttempts u) (blockedUntil u) (createdAt u) (updatedAt u).
Definition set_loginAttempts (v : Z) (u : t) : t :=
  mk (id u) (email u) (phone u) (password u) (firstName u) (lastName u) (avatar u)
     (isProfessional u) (companyName u) (region u) (commune u)
     (emailVerified u) (phoneVerified u) (status u) (lastLoginAt u)
     v (blockedUntil u) (createdAt u) (updatedAt u).
Definition set_blockedUntil (v : option Z) (u : t) : t :=
  mk (id u) (email u) (phone u) (password u) (firstName u) (lastName u) (avatar u)
     (isProfessional u) (companyName u) (region u) (commune u)
     (emailVerified u) (phoneVerified u) (status u) (lastLoginAt u)
     (loginAttempts u) v (createdAt u) (updatedAt u).
Definition set_updatedAt (v : Z) (u : t) : t :=
  mk (id u) (email u) (phone u) (password u) (firstName u) (lastName u) (avatar u)
     (isProfessional u) (companyName u) (region u) (commune u)
     (emailVerified u) (phoneVerified u) (status u) (lastLoginAt u)
     (loginAttempts u) (blockedUntil u) (createdAt u) v.
End User.

Module RefreshToken.
Record t := mk {
  id : Js.str;
  token : Jwt.Token;
  userId : Js.str;
  expiresAt : Z;
  createdAt : Z
}.
End RefreshToken.

Module LogActivite.
Record t := mk {
  userId : Js.str;
  action : string;
  entite : string;
  entiteId : Js.str
}.
End LogActivite.

(** What the notification collaborator is handed. *)
Inductive Notification :=
| VerificationEmail (email firstName : Js.str)
| PasswordResetEmail (email firstName : Js.str) (token : Jwt.Token).

(** The tables of the store, in insertion order, and the notifications
    handed over so far. *)
Record World := mkWorld {
  users : list User.t;
  refresh_tokens : list RefreshToken.t;
  logs_activite : list LogActivite.t;
  outbox : list Notification
}.

(** *** Objects sent to the client *)

Inductive Value :=
| VStr (s : Js.str)
| VBool (b : bool)
| VNum (n : Z)
| VDate (ms : Z)
| VNull.

#[global] Instance Value_eq_dec : EqDecision Value.
Proof. solve_decision. Defined.

Abbreviation Obj := (gmap string Value).

Definition vopt {A} (f : A -> Value) (o : option A) : Value :=
  match o with Some a => f a | None => VNull end.

Definition statusName (s : UserStatus) : string :=
  match s with
  | ACTIVE => "ACTIVE"
  | SUSPENDED => "SUSPENDED"
  | DELETED => "DELETED"
  | PENDING_VERIFICATION => "PENDING_VERIFICATION"
  end.

(** The row of a user as the object Prisma returns for it. *)
Definition userObject (u : User.t) : Obj :=
  list_to_map
    [ ("id", VStr (User.id u)); ("email", VStr (User.email u));
      ("phone", VStr (User.phone u)); ("password", VStr (User.password u));
      ("firstName", VStr (User.firstName u)); ("lastName", VStr (User.lastName u));
      ("avatar", vopt VStr (User.avatar u));
      ("isProfessional", VBool (User.isProfessional u));
      ("companyName", vopt VStr (User.companyName u));
      ("region", vopt VStr (User.region u)); ("commune", vopt VStr (User.commune u));
      ("emailVerified", VBool (User.emailVerified u));
      ("phoneVerified", VBool (User.phoneVerified u));
      ("status", VStr (Js.lit (statusName (User.status u))));
      ("lastLoginAt", vopt VDate (User.lastLoginAt u));
      ("loginAttempts", VNum (User.loginAttempts u));
      ("blockedUntil", vopt VDate (User.blockedUntil u));
      ("createdAt", VDate (User.createdAt u)); ("updatedAt", VDate (User.updatedAt u)) ].

(** Prisma's [select: { k: true, ... }] *)
Definition select (keys : list string) (o : Obj) : Obj :=
  filter (fun kv => kv.1 ∈ keys) o.

(* ------------------------------------------------------------------ *)
(** ** Effects: the store is threaded through, a throw keeps the writes
       made before it (no transaction is opened anywhere). *)

Inductive outcome (A : Type) : Type :=
| Ok (a : A)
| Throw (message : string)
| Pending.   (* has not returned within the fuel given to a loop *)
Arguments Ok {A} a.
Arguments Throw {A} message.
Arguments Pending {A}.

Definition M (A : Type) : Type := World -> outcome A * World.

#[global] Instance M_ret : MRet M := fun A a w => (Ok a, w).
#[global] Instance M_bind : MBind M := fun A B f m w =>
  match m w with
  | (Ok a, w') => f a w'
  | (Throw e, w') => (Throw e, w')
  | (Pending, w') => (Pending, w')
  end.

Definition throw {A} (message : string) : M A := fun w => (Throw message, w).
Definition pending {A} : M A := fun w => (Pending, w).

(** [try { m } catch (error) { h error }] *)
Definition tryCatch {A} (m : M A) (h : string -> M A) : M A := fun w =>
  match m w with
  | (Throw e, w') => h e w'
  | r => r
  end.

(** An expression that evaluates to a value or throws. *)
Definition evaluate {A} (x : string + A) : M A :=
  match x with
  | inr a => mret a
  | inl message => throw message
  end.

Definition gets {A} (f : World -> A) : M A := fun w => (Ok (f w), w).
Definition modify (f : World -> World) : M unit := fun w => (Ok tt, f w).

Definition with_users (f : list User.t -> list User.t) (w : World) : World :=
  mkWorld (f (users w)) (refresh_tokens w) (logs_activite w) (outbox w).
Definition with_refresh_tokens (f : list RefreshToken.t -> list RefreshToken.t)
    (w : World) : World :=
  mkWorld (users w) (f (refresh_tokens w)) (logs_activite w) (outbox w).
Definition with_logs (f : list LogActivite.t -> list LogActivite.t) (w : World) : World :=
  mkWorld (users w) (refresh_tokens w) (f (logs_activite w)) (outbox w).
Definition with_outbox (f : list Notification -> list Notification) (w : World) : World :=
  mkWorld (users w) (refresh_tokens w) (logs_activite w) (f (outbox w)).

(** The notification collaborator (its console stub never fails). *)
Definition notify (n : Notification) : M unit :=
  modify (with_outbox (fun o => o ++ [n])).

(* ------------------------------------------------------------------ *)
(** ** The Prisma client, on the tables of the migration
       (primary keys, unique indexes on users.email, users.phone and
       refresh_tokens.token, foreign keys to users.id). *)

Module Prisma.

Definition hasUser (uid : Js.str) (w : World) : bool :=
  bool_decide (uid ∈ User.id <$> users w).

Definition user_findFirst (where_ : User.t -> bool) : M (option User.t) :=
  gets (fun w => List.find where_ (users w)).

Definition user_findUnique_id (uid : Js.str) : M (option User.t) :=
  user_findFirst (fun u => bool_decide (User.id u = uid)).

Definition user_findUnique_email (mail : Js.str) : M (option User.t) :=
  user_findFirst (fun u => bool_decide (User.email u = mail)).

Definition user_count (where_ : User.t -> bool) : M nat :=
  gets (fun w => length (List.filter where_ (users w))).

Definition user_create (row : User.t) : M User.t := fun w =>
  if bool_decide (User.id row ∈ User.id <$> users w)
     || bool_decide (User.email row ∈ User.email <$> users w)
     || bool_decide (User.phone row ∈ User.phone <$> users w)
  then (Throw "Unique constraint failed", w)
  else (Ok row, with_users (fun us => us ++ [row]) w).

(** The store once the row of [uid] has taken [data]; [updatedAt] follows. *)
Definition updated (now : Z) (uid : Js.str) (data : User.t -> User.t) (w : World)
    : World :=
  with_users (fmap (fun u => if bool_decide (User.id u = uid)
                             then User.set_updatedAt now (data u) else u)) w.

(** [prisma.user.update({ where: { id }, data })] *)
Definition user_update (now : Z) (uid : Js.str) (data : User.t -> User.t) : M unit :=
  fun w =>
  if hasUser uid w
  then (Ok tt, updated now uid data w)
  else (Throw "Record to update not found.", w).

Definition refreshToken_create (row : RefreshToken.t) : M RefreshToken.t := fun w =>
  if bool_decide (RefreshToken.id row ∈ RefreshToken.id <$> refresh_tokens w)
     || bool_decide (RefreshToken.token row ∈ RefreshToken.token <$> refresh_tokens w)
  then (Throw "Unique constraint failed", w)
  else if negb (hasUser (RefreshToken.userId row) w)
  then (Throw "Foreign key constraint failed", w)
  else (Ok row, with_refresh_tokens (fun ts => ts ++ [row]) w).

(** [findUnique({ where: { token }, include: { user: true } })] *)
Definition refreshToken_findUnique (tok : Jwt.Token)
    : M (option (RefreshToken.t * option User.t)) :=
  gets (fun w =>
    r ← List.find (fun r => bool_decide (RefreshToken.token r = tok)) (refresh_tokens w);
    Some (r, List.find (fun u => bool_decide (User.id u = RefreshToken.userId r)) (users w))).

Definition refreshToken_delete (rid : Js.str) : M unit := fun w =>
  if bool_decide (rid ∈ RefreshToken.id <$> refresh_tokens w)
  then (Ok tt, with_refresh_tokens
          (List.filter (fun r => negb (bool_decide (RefreshToken.id r = rid)))) w)
  else (Throw "Record to delete does not exist.", w).

Definition refreshToken_deleteMany (where_ : RefreshToken.t -> bool) : M unit :=
  modify (with_refresh_tokens (List.filter (fun r => negb (where_ r)))).

(** [logs_activite.userId] is a plain column, without a foreign key. *)
Definition logActivite_create (row : LogActivite.t) : M unit :=
  modify (with_logs (fun l => l ++ [row])).

End Prisma.

(* ------------------------------------------------------------------ *)
(** ** services/authService.ts *)

Module AuthService.

Record RegisterData := mkRegisterData {
  firstName : Js.str;
  lastName : Js.str;
  email : Js.str;
  phone : Js.str;
  password : Js.str;
  isProfessional : option bool;
  companyName : option Js.str;
  region : option Js.str;
  commune : option Js.str
}.

Record LoginData := mkLoginData {
  identifier : Js.str;
  l_password : Js.str;
  rememberMe : option bool
}.

Record AuthTokens := mkAuthTokens {
  accessToken : Jwt.Token;
  refreshToken : Jwt.Token;
  expiresIn : Z
}.

Record AuthResult := mkAuthResult {
  user : Obj;
  tokens : AuthTokens
}.

(** A time span as [jwt.sign] accepts it: '15m', '24h', '7d'. *)
Inductive Span := Seconds (n : Z) | Minutes (n : Z) | Hours (n : Z) | Days (n : Z).

Definition seconds (s : Span) : Z :=
  match s with
  | Seconds n => n
  | Minutes n => n * 60
  | Hours n => n * 3600
  | Days n => n * 86400
  end.

Module JWT_CONFIG.
Definition ACCESS_TOKEN_EXPIRES := Minutes 15.
Definition REFRESH_TOKEN_EXPIRES := Days 7.
Definition VERIFICATION_TOKEN_EXPIRES := Hours 24.
Definition RESET_TOKEN_EXPIRES := Hours 1.
Definition SECRET (env : Env) : Js.str :=
  envOr (JWT_SECRET env) "your-super-secret-key-change-in-production".
Definition REFRESH_SECRET (env : Env) : Js.str :=
  envOr (REFRESH_TOKEN_SECRET env) "refresh-secret-key".
Definition ISSUER : Js.str := Js.lit "petites-annonces-ci".
Definition AUDIENCE : Js.str := Js.lit "petites-annonces-ci-users".
End JWT_CONFIG.

Module SECURITY_CONFIG.
Definition BCRYPT_ROUNDS : Z := 12.
Definition MAX_LOGIN_ATTEMPTS : Z := 5.
Definition LOCKOUT_TIME : Z := 15 * 60 * 1000.
Definition PASSWORD_MIN_LENGTH : nat := 6.
Definition PASSWORD_MAX_LENGTH : nat := 128.
End SECURITY_CONFIG.

(** The random draws of [generateTokenPair]: one UUID per token and the
    key of the row it stores. *)
Record PairDraw := mkPairDraw {
  accessJti : Js.str;
  refreshJti : Js.str;
  rowId : Js.str
}.

Definition plus225 : Js.str := Js.lit "+225".

Definition normalizePhoneNumber (phone : Js.str) : Js.str :=
  let normalized := Js.stripSpaces phone in
  if Js.startsWith (Js.lit "00225") normalized
  then plus225 ++ Js.substring 5 normalized
  else if Js.startsWith (Js.lit "225") normalized
  then plus225 ++ Js.substring 3 normalized
  else if negb (Js.startsWith plus225 normalized)
  then plus225 ++ normalized
  else normalized.

(** [/^[^\s@]+@[^\s@]+\.[^\s@]+$/.test(s)] *)
Definition emailRegex_test (s : Js.str) : bool :=
  let plain c := negb (Js.isSpace c) && negb (c =? 64)%N in
  match Js.splitFirst 64 s with
  | None => false
  | Some (local_, domain) =>
      Js.truthy local_ && forallb plain local_ && forallb plain domain
      && match domain with
         | [] => false
         | _ :: rest => existsb (fun c => (c =? 46)%N) (removelast rest)
         end
  end.

(** [/^(\+225|00225|225)?[0-9]{8,10}$/.test(s)] *)
Definition phoneRegex_test (s : Js.str) : bool :=
  let digits d := forallb Js.isDigit d
                  && bool_decide (8 <= length d)%nat && bool_decide (length d <= 10)%nat in
  digits s
  || Js.startsWith plus225 s && digits (drop 4 s)
  || Js.startsWith (Js.lit "00225") s && digits (drop 5 s)
  || Js.startsWith (Js.lit "225") s && digits (drop 3 s).

Section WithPlatform.
Context `{Platform} (env : Env).

Definition validatePassword (password : Js.str) : M unit :=
  if bool_decide (length password < SECURITY_CONFIG.PASSWORD_MIN_LENGTH)%nat
  then throw "Mot de passe trop court (min 6 caractères)"
  else if bool_decide (SECURITY_CONFIG.PASSWORD_MAX_LENGTH < length password)%nat
  then throw "Mot de passe trop long (max 128 caractères)"
  else if bool_decide (NODE_ENV env = Some (Js.lit "production"))
  then
    if negb (existsb Js.isLower password)
    then throw "Le mot de passe doit contenir au moins une minuscule"
    else if negb (existsb Js.isUpper password)
    then throw "Le mot de passe doit contenir au moins une majuscule"
    else if negb (existsb Js.isDigit password)
    then throw "Le mot de passe doit contenir au moins un chiffre"
    else mret tt
  else mret tt.

Definition validateRegistrationData (data : RegisterData) : M unit :=
  if negb (emailRegex_test (email data))
  then throw "Format d'email invalide"
  else if negb (phoneRegex_test (phone data))
  then throw "Numéro de téléphone ivoirien invalide"
  else
    validatePassword (password data);;
    if bool_decide (length (firstName data) < 2)%nat
       || bool_decide (length (lastName data) < 2)%nat
    then throw "Nom et prénom doivent contenir au moins 2 caractères"
    else mret tt.

Definition findUserByEmailOrPhone (email_ phone_ : Js.str) : M (option User.t) :=
  Prisma.user_findFirst (fun u =>
    bool_decide (User.email u = Js.trim (toLowerCase email_))
    || bool_decide (User.phone u = normalizePhoneNumber phone_)).

Definition generateToken (now : Z) (jwtid userId email_ : Js.str)
    (type : Jwt.TokenType) (expiresIn_ : Span) : Jwt.Token :=
  let secret := if bool_decide (type = Jwt.refresh)
                then JWT_CONFIG.REFRESH_SECRET env else JWT_CONFIG.SECRET env in
  Jwt.sign (now / 1000) userId email_ type secret
    {| Jwt.expiresIn := seconds expiresIn_;
       Jwt.issuer := JWT_CONFIG.ISSUER;
       Jwt.audience := JWT_CONFIG.AUDIENCE;
       Jwt.jwtid := jwtid |}.

(** [expiresAt.setDate(expiresAt.getDate() + days)], a day being 24 hours
    (no daylight-saving shift, as in Africa/Abidjan or UTC). *)
Definition addDays (now days : Z) : Z := now + days * 86400000.

Definition generateTokenPair (now : Z) (d : PairDraw) (userId email_ : Js.str)
    (rememberMe_ : bool) : M AuthTokens :=
  let accessToken_ :=
    generateToken now (accessJti d) userId email_ Jwt.access JWT_CONFIG.ACCESS_TOKEN_EXPIRES in
  let refreshTokenExpires :=
    if rememberMe_ then Days 30 else JWT_CONFIG.REFRESH_TOKEN_EXPIRES in
  let refreshToken_ :=
    generateToken now (refreshJti d) userId email_ Jwt.refresh refreshTokenExpires in
  let expiresAt := addDays now (if rememberMe_ then 30 else 7) in
  Prisma.refreshToken_create
    {| RefreshToken.id := rowId d; RefreshToken.token := refreshToken_;
       RefreshToken.userId := userId; RefreshToken.expiresAt := expiresAt;
       RefreshToken.createdAt := now |};;
  mret {| accessToken := accessToken_; refreshToken := refreshToken_;
          expiresIn := if rememberMe_ then 30 * 24 * 60 * 60 * 1000
                       else 7 * 24 * 60 * 60 * 1000 |}.

(** [firstName] and [lastName] are not empty when this is reached. *)
Definition generateDefaultAvatar (firstName_ lastName_ : Js.str) : Js.str :=
  let initials := toUpperCase (take 1 firstName_ ++ take 1 lastName_) in
  let colors := ["#FF6B6B"; "#4ECDC4"; "#45B7D1"; "#96CEB4"; "#FFEAA7"; "#DDA0DD"] in
  let colorIndex := ((default 0 (head firstName_) + default 0 (head lastName_))
                     mod 6)%N in
  Js.lit "https://ui-avatars.com/api/?name=" ++ initials
  ++ Js.lit "&background="
  ++ Js.substring 1 (Js.lit (default "" (colors !! N.to_nat colorIndex)))
  ++ Js.lit "&color=fff&size=200".

Definition slugExists (slug : Js.str) : M bool :=
  count ← Prisma.user_count (fun u =>
    Js.includes (Js.firstSegment 45 slug) (User.firstName u));
  mret (bool_decide (0 < count)%nat).

(** The [while (await this.slugExists(slug))] loop, [fuel] turns at most. *)
Fixpoint slugLoop (fuel : nat) (baseSlug slug : Js.str) (counter : Z) : M Js.str :=
  taken ← slugExists slug;
  if taken : bool
  then match fuel with
       | O => pending
       | S fuel' =>
           slugLoop fuel' baseSlug (baseSlug ++ Js.lit "-" ++ Js.ofZ counter) (counter + 1)
       end
  else mret slug.

Definition generateUniqueSlug (fuel : nat) (firstName_ lastName_ : Js.str) : M Js.str :=
  let baseSlug :=
    List.filter (fun c => Js.isLower c || Js.isDigit c || (c =? 45)%N)
      (toLowerCase firstName_ ++ Js.lit "-" ++ toLowerCase lastName_) in
  slugLoop fuel baseSlug baseSlug 1.

Definition logActivity (action : string) (userId : Js.str) : M unit :=
  tryCatch
    (Prisma.logActivite_create
       {| LogActivite.userId := userId; LogActivite.action := action;
          LogActivite.entite := "User"; LogActivite.entiteId := userId |})
    (fun _ => mret tt).

Definition sendVerificationEmail (email_ firstName_ : Js.str) : M unit :=
  notify (VerificationEmail email_ firstName_).

Definition sendPasswordResetEmail (email_ firstName_ : Js.str) (token : Jwt.Token)
    : M unit :=
  notify (PasswordResetEmail email_ firstName_ token).

(** [jwt.verify] as a call that throws. *)
Definition jwtVerify (now : Z) (token : Jwt.Token) (secret : Js.str) : M Jwt.Claims :=
  match Jwt.verify (now / 1000) token secret None with
  | inr payload => mret payload
  | inl Jwt.TokenExpiredError => throw "jwt expired"
  | inl Jwt.JsonWebTokenError => throw "invalid token"
  end.

(** [Math.ceil(a / b)] for integers [a] and [0 < b] *)
Definition ceilDiv (a b : Z) : Z := - ((- a) / b).

Definition lockoutMessage (remainingTime : Z) : string :=
  String.append "Compte temporairement bloqué. Réessayez dans "
    (String.append (pretty remainingTime) " minutes.").

Definition checkAccountLockout (now : Z) (userId : Js.str) : M unit :=
  user_ ← Prisma.user_findUnique_id userId;
  match user_ ≫= User.blockedUntil with
  | Some blockedUntil =>
      if now <? blockedUntil
      then throw (lockoutMessage (ceilDiv (blockedUntil - now) 60000))
      else mret tt
  | None => mret tt
  end.

(** The [updateData] object of [handleFailedLogin], as the change it makes. *)
Definition updateData (now attempts : Z) (u : User.t) : User.t :=
  let u' := User.set_loginAttempts attempts u in
  if SECURITY_CONFIG.MAX_LOGIN_ATTEMPTS <=? attempts
  then User.set_blockedUntil (Some (now + SECURITY_CONFIG.LOCKOUT_TIME)) u'
  else u'.

Definition handleFailedLogin (now : Z) (userId : Js.str) : M unit :=
  user_ ← Prisma.user_findUnique_id userId;
  let attempts := default 0 (User.loginAttempts <$> user_) + 1 in
  Prisma.user_update now userId (updateData now attempts).

Definition resetLoginAttempts (now : Z) (userId : Js.str) : M unit :=
  Prisma.user_update now userId (fun u =>
    User.set_blockedUntil None (User.set_loginAttempts 0 u)).

Definition badCredentials : string := "Email/téléphone ou mot de passe incorrect".

Record RegisterDraw := mkRegisterDraw {
  salt : Js.str;
  newUserId : Js.str;
  pair : PairDraw
}.

Definition register (fuel : nat) (now : Z) (d : RegisterDraw) (data : RegisterData)
    : M AuthResult :=
  tryCatch
    (validateRegistrationData data;;
     existingUser ← findUserByEmailOrPhone (email data) (phone data);
     match existingUser with
     | Some existing =>
         throw (if bool_decide (User.email existing = email data)
                then "Un compte avec cet email existe déjà"
                else "Un compte avec ce numéro existe déjà")
     | None =>
         let hashedPassword :=
           bcrypt_hash (password data) SECURITY_CONFIG.BCRYPT_ROUNDS (salt d) in
         profileSlug ← generateUniqueSlug fuel (firstName data) (lastName data);
         (* the argument of [create] is evaluated before the call: its
            [status] property reads [UserStatus] *)
         status_ ← evaluate (UserStatus_ PENDING_VERIFICATION);
         created ← Prisma.user_create
           {| User.id := newUserId d;
              User.firstName := Js.trim (firstName data);
              User.lastName := Js.trim (lastName data);
              User.email := Js.trim (toLowerCase (email data));
              User.phone := normalizePhoneNumber (phone data);
              User.password := hashedPassword;
              User.isProfessional := default false (isProfessional data);
              User.companyName := Js.trim <$> companyName data;
              User.region := Js.trim <$> region data;
              User.commune := Js.trim <$> commune data;
              User.status := status_;
              User.avatar :=
                Some (generateDefaultAvatar (firstName data) (lastName data));
              User.emailVerified := false;
              User.phoneVerified := false;
              User.lastLoginAt := None;
              User.loginAttempts := 0;
              User.blockedUntil := None;
              User.createdAt := now;
              User.updatedAt := now |};
         let user_ :=
           select ["id"; "email"; "phone"; "firstName"; "lastName"; "avatar";
                   "isProfessional"; "companyName"; "region"; "commune";
                   "emailVerified"; "phoneVerified"; "status"; "createdAt";
                   "updatedAt"] (userObject created) in
         tokens_ ← generateTokenPair now (pair d) (User.id created) (User.email created) false;
         sendVerificationEmail (User.email created) (User.firstName created);;
         logActivity "USER_REGISTERED" (User.id created);;
         mret {| user := user_; tokens := tokens_ |}
     end)
    throw.

Definition login (now : Z) (d : PairDraw) (data : LoginData) : M AuthResult :=
  tryCatch
    (found ← findUserByEmailOrPhone (identifier data) (identifier data);
     match found with
     | None => throw badCredentials
     | Some user_ =>
         checkAccountLockout now (User.id user_);;
         let isValidPassword := bcrypt_compare (l_password data) (User.password user_) in
         if negb isValidPassword
         then handleFailedLogin now (User.id user_);; throw badCredentials
         else
           suspended ← evaluate (UserStatus_ SUSPENDED);
           if bool_decide (User.status user_ = suspended)
           then throw "Votre compte est suspendu. Contactez le support."
           else
           deleted ← evaluate (UserStatus_ DELETED);
           if bool_decide (User.status user_ = deleted)
           then throw "Ce compte n'existe plus."
           else
           resetLoginAttempts now (User.id user_);;
           Prisma.user_update now (User.id user_) (User.set_lastLoginAt (Some now));;
           tokens_ ← generateTokenPair now d (User.id user_) (User.email user_)
                       (default false (rememberMe data));
           logActivity "USER_LOGIN" (User.id user_);;
           let userWithoutPassword := delete "password" (userObject user_) in
           mret {| user := userWithoutPassword; tokens := tokens_ |}
     end)
    throw.

Definition refreshTokens (now : Z) (d : PairDraw) (refreshToken_ : Jwt.Token)
    : M AuthTokens :=
  tryCatch
    (payload ← jwtVerify now refreshToken_ (JWT_CONFIG.REFRESH_SECRET env);
     if negb (bool_decide (Jwt.type payload = Jwt.refresh))
     then throw "Type de token invalide"
     else
       tokenRecord ← Prisma.refreshToken_findUnique refreshToken_;
       match tokenRecord with
       | None => throw "Refresh token invalide ou expiré"
       | Some (record, owner) =>
           if RefreshToken.expiresAt record <? now
           then throw "Refresh token invalide ou expiré"
           else
             match owner with
             | None => throw "Cannot read properties of null (reading 'email')"
             | Some owner_ =>
                 tokens_ ← generateTokenPair now d (RefreshToken.userId record)
                             (User.email owner_) false;
                 Prisma.refreshToken_delete (RefreshToken.id record);;
                 mret tokens_
             end
       end)
    (fun _ => throw "Token de rafraîchissement invalide").

Definition logout (userId : Js.str) (refreshToken_ : option Jwt.Token) : M unit :=
  tryCatch
    (match Js.whenTruthy Jwt.truthy refreshToken_ with
     | Some presented =>
         Prisma.refreshToken_deleteMany (fun r =>
           bool_decide (RefreshToken.userId r = userId)
           && bool_decide (RefreshToken.token r = presented))
     | None =>
         Prisma.refreshToken_deleteMany (fun r =>
           bool_decide (RefreshToken.userId r = userId))
     end;;
     logActivity "USER_LOGOUT" userId)
    (fun _ => throw "Erreur lors de la déconnexion").

Definition verifyEmail (now : Z) (token : Jwt.Token) : M unit :=
  tryCatch
    (payload ← jwtVerify now token (JWT_CONFIG.SECRET env);
     if negb (bool_decide (Jwt.type payload = Jwt.verification))
     then throw "Type de token invalide"
     else
       (* the [data] of the update is evaluated before the call *)
       active ← evaluate (UserStatus_ ACTIVE);
       Prisma.user_update now (Jwt.userId payload) (fun u =>
         User.set_status active (User.set_emailVerified true u));;
       logActivity "EMAIL_VERIFIED" (Jwt.userId payload))
    (fun _ => throw "Token de vérification invalide ou expiré").

Definition requestPasswordReset (now : Z) (jwtid email_ : Js.str) : M unit :=
  tryCatch
    (found ← Prisma.user_findUnique_email (Js.trim (toLowerCase email_));
     match found with
     | None => mret tt
     | Some user_ =>
         let resetToken :=
           generateToken now jwtid (User.id user_) (User.email user_) Jwt.reset
             JWT_CONFIG.RESET_TOKEN_EXPIRES in
         sendPasswordResetEmail (User.email user_) (User.firstName user_) resetToken;;
         logActivity "PASSWORD_RESET_REQUESTED" (User.id user_)
     end)
    (fun _ => throw "Erreur lors de la demande de réinitialisation").

Definition resetPassword (now : Z) (salt_ : Js.str) (token : Jwt.Token)
    (newPassword : Js.str) : M unit :=
  tryCatch
    (payload ← jwtVerify now token (JWT_CONFIG.SECRET env);
     if negb (bool_decide (Jwt.type payload = Jwt.reset))
     then throw "Type de token invalide"
     else
       validatePassword newPassword;;
       let hashedPassword :=
         bcrypt_hash newPassword SECURITY_CONFIG.BCRYPT_ROUNDS salt_ in
       Prisma.user_update now (Jwt.userId payload) (fun u =>
         User.set_blockedUntil None
           (User.set_loginAttempts 0 (User.set_password hashedPassword u)));;
       Prisma.refreshToken_deleteMany (fun r =>
         bool_decide (RefreshToken.userId r = Jwt.userId payload));;
       logActivity "PASSWORD_RESET_COMPLETED" (Jwt.userId payload))
    (fun _ => throw "Token de réinitialisation invalide ou expiré").

End WithPlatform.

End AuthService.

(* ------------------------------------------------------------------ *)
(** ** The uniform response envelope *)

Record ApiResponse (D : Type) := mkResponse {
  statusCode : Z;
  success : bool;
  message : string;
  data : option D;
  errors : list (string * string)   (* message, code *)
}.
Arguments mkResponse {D}.
Arguments statusCode {D}.
Arguments success {D}.
Arguments message {D}.
Arguments data {D}.
Arguments errors {D}.

Definition failure {D} (status : Z) (msg detail code : string) : ApiResponse D :=
  mkResponse status false msg None [(detail, code)].

(* ------------------------------------------------------------------ *)
(** ** middleware/authMiddleware.ts *)

Module AuthMiddleware.

Module JWT_CONFIG.
Definition SECRET (env : Env) : Js.str :=
  envOr (JWT_SECRET env) "your-super-secret-key-change-in-production".
Definition ISSUER : Js.str := Js.lit "petites-annonces-ci".
Definition AUDIENCE : Js.str := Js.lit "petites-annonces-ci-users".
End JWT_CONFIG.

(** A JavaScript [Set] of token strings, in insertion order. *)
Module TokenSet.
Definition t := list Jwt.Token.
Definition empty : t := [].
Definition has (s : t) (x : Jwt.Token) : bool := bool_decide (x ∈ s).
Definition add (x : Jwt.Token) (s : t) : t := if has s x then s else s ++ [x].
Definition size (s : t) : Z := Z.of_nat (length s).
Definition clear (s : t) : t := [].
End TokenSet.

Record CacheEntry := mkCacheEntry {
  user : Obj;
  timestamp : Z
}.

(** The two module-level caches. *)
Record State := mkState {
  revokedTokens : TokenSet.t;
  userCache : gmap Js.str CacheEntry
}.

Definition CACHE_DURATION : Z := 5 * 60 * 1000.

Inductive Authorization :=
| Bearer (token : Jwt.Token)      (* 'Bearer ' followed by the token *)
| OtherScheme (value : Js.str).   (* a header that does not start so *)

Record TokenInfo := mkTokenInfo {
  ti_jti : Js.str;
  ti_iat : Z;
  ti_exp : Z
}.

(** What the middleware does with the request: it answers it, or attaches
    [req.user] and [req.tokenInfo] and calls [next()]. *)
Inductive Verdict :=
| Respond (r : ApiResponse unit)
| Next (user_ : Obj) (tokenInfo : TokenInfo).

(** The answers, named by their error code. *)
Module Reply.
Definition MISSING_TOKEN : ApiResponse unit :=
  failure 401 "Token d'authentification requis"
    "Header Authorization avec Bearer token requis" "MISSING_TOKEN".
Definition REVOKED_TOKEN : ApiResponse unit :=
  failure 401 "Token révoqué" "Ce token a été révoqué, veuillez vous reconnecter"
    "REVOKED_TOKEN".
Definition EXPIRED_TOKEN : ApiResponse unit :=
  failure 401 "Token expiré" "Token expiré" "EXPIRED_TOKEN".
Definition MALFORMED_TOKEN : ApiResponse unit :=
  failure 401 "Format de token invalide" "Format de token invalide" "MALFORMED_TOKEN".
Definition WRONG_TOKEN_TYPE : ApiResponse unit :=
  failure 401 "Type de token invalide" "Seuls les access tokens sont acceptés"
    "WRONG_TOKEN_TYPE".
Definition USER_NOT_FOUND : ApiResponse unit :=
  failure 401 "Utilisateur non trouvé" "Ce compte n'existe plus" "USER_NOT_FOUND".
Definition ACCOUNT_SUSPENDED : ApiResponse unit :=
  failure 403 "Compte suspendu" "Votre compte a été suspendu. Contactez le support."
    "ACCOUNT_SUSPENDED".
Definition ACCOUNT_DELETED : ApiResponse unit :=
  failure 403 "Compte supprimé" "Ce compte a été supprimé" "ACCOUNT_DELETED".
Definition TOKEN_MISMATCH : ApiResponse unit :=
  failure 401 "Token incohérent"
    "Informations du token incohérentes, reconnectez-vous" "TOKEN_MISMATCH".
Definition AUTH_INTERNAL_ERROR : ApiResponse unit :=
  failure 500 "Erreur d'authentification" "Erreur interne, veuillez réessayer"
    "AUTH_INTERNAL_ERROR".
Definition AUTHENTICATION_REQUIRED : ApiResponse unit :=
  failure 401 "Authentification requise" "Vous devez être connecté"
    "AUTHENTICATION_REQUIRED".
Definition PROFESSIONAL_REQUIRED : ApiResponse unit :=
  failure 403 "Compte professionnel requis"
    "Cette action nécessite un compte professionnel" "PROFESSIONAL_REQUIRED".
Definition EMAIL_VERIFICATION_REQUIRED : ApiResponse unit :=
  failure 403 "Email non vérifié" "Veuillez vérifier votre email avant de continuer"
    "EMAIL_VERIFICATION_REQUIRED".
Definition PHONE_VERIFICATION_REQUIRED : ApiResponse unit :=
  failure 403 "Téléphone non vérifié" "Veuillez vérifier votre numéro de téléphone"
    "PHONE_VERIFICATION_REQUIRED".
End Reply.

Definition revoke (token : Jwt.Token) (uid : Js.str) (st : State) : State :=
  mkState (TokenSet.add token (revokedTokens st)) (delete uid (userCache st)).

Definition updateLastActivity (now : Z) (userId : Js.str) : M unit :=
  tryCatch (Prisma.user_update now userId (User.set_lastLoginAt (Some now)))
           (fun _ => mret tt).

Definition selected : list string :=
  ["id"; "email"; "phone"; "firstName"; "lastName"; "avatar"; "isProfessional";
   "companyName"; "region"; "commune"; "emailVerified"; "phoneVerified"; "status";
   "createdAt"; "updatedAt"; "lastLoginAt"].

Definition hasStatus (o : Obj) (s : UserStatus) : bool :=
  bool_decide (o !! "status" = Some (VStr (Js.lit (statusName s)))).

(** The checks made once the user object is at hand. They read
    [UserStatus]; what is thrown there is caught by the [catch] that encloses
    the whole middleware, which answers 500. *)
Definition checkUser (now : Z) (token : Jwt.Token) (payload : Jwt.Claims)
    (user_ : Obj) (st : State) (w : World) : Verdict * State * World :=
  match UserStatus_ SUSPENDED with
  | inl _ => (Respond Reply.AUTH_INTERNAL_ERROR, st, w)
  | inr suspended =>
  if hasStatus user_ suspended
  then (Respond Reply.ACCOUNT_SUSPENDED, st, w)
  else
  match UserStatus_ DELETED with
  | inl _ => (Respond Reply.AUTH_INTERNAL_ERROR, st, w)
  | inr deleted =>
  if hasStatus user_ deleted
  then (Respond Reply.ACCOUNT_DELETED, revoke token (Jwt.userId payload) st, w)
  else if negb (bool_decide (user_ !! "email" = Some (VStr (Jwt.email payload))))
  then (Respond Reply.TOKEN_MISMATCH, revoke token (Jwt.userId payload) st, w)
  else
    let w' := match user_ !! "id" with
              | Some (VStr uid) => (updateLastActivity now uid w).2
              | _ => w
              end in
    (Next user_ (mkTokenInfo (Jwt.jti payload) (Jwt.iat payload) (Jwt.exp payload)),
     st, w')
  end
  end.

Definition authenticateToken (env : Env) (now : Z) (authorization : option Authorization)
    (st : State) (w : World) : Verdict * State * World :=
  let token_ := match authorization with
                | Some (Bearer t) => if Jwt.truthy t then Some t else None
                | _ => None
                end in
  match token_ with
  | None =>
      (Respond Reply.MISSING_TOKEN, st, w)
  | Some token =>
      if TokenSet.has (revokedTokens st) token
      then (Respond Reply.REVOKED_TOKEN, st, w)
      else
        match Jwt.verify (now / 1000) token (JWT_CONFIG.SECRET env)
                (Some (Jwt.mkVerifyOptions JWT_CONFIG.ISSUER JWT_CONFIG.AUDIENCE)) with
        | inl Jwt.TokenExpiredError =>
            (Respond Reply.EXPIRED_TOKEN, st, w)
        | inl Jwt.JsonWebTokenError =>
            (Respond Reply.MALFORMED_TOKEN, st, w)
        | inr payload =>
            if negb (bool_decide (Jwt.type payload = Jwt.access))
            then (Respond Reply.WRONG_TOKEN_TYPE, st, w)
            else
              let reload :=
                match List.find (fun u => bool_decide (User.id u = Jwt.userId payload))
                        (users w) with
                | None =>
                    (Respond Reply.USER_NOT_FOUND,
                     revoke token (Jwt.userId payload) st, w)
                | Some row =>
                    let userData := mkCacheEntry (select selected (userObject row)) now in
                    checkUser now token payload (user userData)
                      (mkState (revokedTokens st)
                               (<[Jwt.userId payload := userData]> (userCache st))) w
                end in
              match userCache st !! Jwt.userId payload with
              | Some userData =>
                  if CACHE_DURATION <? now - timestamp userData
                  then reload
                  else checkUser now token payload (user userData) st w
              | None => reload
              end
        end
  end.

Definition revokeToken (token : Jwt.Token) (st : State) : State :=
  mkState (TokenSet.add token (revokedTokens st)) (userCache st).

Definition revokeAllUserTokens (userId : Js.str) (st : State) (w : World)
    : State * World :=
  (mkState (revokedTokens st) (delete userId (userCache st)),
   (Prisma.refreshToken_deleteMany
      (fun r => bool_decide (RefreshToken.userId r = userId)) w).2).

Definition clearUserCache (userId : option Js.str) (st : State) : State :=
  match Js.whenTruthy Js.truthy userId with
  | Some uid => mkState (revokedTokens st) (delete uid (userCache st))
  | None => mkState (revokedTokens st) ∅
  end.

Definition cleanupRevokedTokens (st : State) : State :=
  if bool_decide (10000 < TokenSet.size (revokedTokens st))
  then mkState (TokenSet.clear (revokedTokens st)) (userCache st)
  else st.

(** The hourly [setInterval] task. *)
Definition maintenance (now : Z) (st : State) : State :=
  let st' := cleanupRevokedTokens st in
  mkState (revokedTokens st')
    (filter (fun kv => negb (CACHE_DURATION * 2 <? now - timestamp kv.2)) (userCache st')).

(** *** The life of the two caches: what can happen to them, one event at
    a time. *)

Inductive Event :=
| Request (now : Z) (authorization : option Authorization)
| RevokeToken (token : Jwt.Token)
| RevokeAllUserTokens (userId : Js.str)
| ClearUserCache (userId : option Js.str)
| CleanupRevokedTokens
| Maintenance (now : Z).

Definition step (env : Env) (e : Event) (sw : State * World) : State * World :=
  match e with
  | Request now authorization =>
      let r := authenticateToken env now authorization sw.1 sw.2 in (r.1.2, r.2)
  | RevokeToken token => (revokeToken token sw.1, sw.2)
  | RevokeAllUserTokens userId => revokeAllUserTokens userId sw.1 sw.2
  | ClearUserCache userId => (clearUserCache userId sw.1, sw.2)
  | CleanupRevokedTokens => (cleanupRevokedTokens sw.1, sw.2)
  | Maintenance now => (maintenance now sw.1, sw.2)
  end.




(** *** Optional authentication and the guards on [req.user] *)

(** What [optionalAuth] does with the request: it goes on without a user, or
    hands the request to [authenticateToken]. *)
Inductive Admission :=
| Anonymous
| Judged (v : Verdict).

Definition optionalAuth (env : Env) (now : Z) (authorization : option Authorization)
    (st : State) (w : World) : Admission * State * World :=
  let token_ := match authorization with
                | Some (Bearer t) => if Jwt.truthy t then Some t else None
                | _ => None
                end in
  match token_ with
  | None => (Anonymous, st, w)
  | Some _ =>
      let r := authenticateToken env now authorization st w in
      (Judged r.1.1, r.1.2, r.2)
  end.

(** Truthiness of the property [key] of an object ([undefined] when the
    object has no such property). *)
Definition truthyAt (o : Obj) (key : string) : bool :=
  match o !! key with
  | Some (VBool b) => b
  | Some (VStr s) => Js.truthy s
  | Some (VNum n) => negb (n =? 0)
  | Some (VDate _) => true
  | Some VNull | None => false
  end.

(** A guard answers the request or calls [next()]. *)
Inductive Passage :=
| Refuse (r : ApiResponse unit)
| Pass.

Definition requireProfessional (user_ : option Obj) : Passage :=
  match user_ with
  | None => Refuse Reply.AUTHENTICATION_REQUIRED
  | Some u =>
      if negb (truthyAt u "isProfessional")
      then Refuse Reply.PROFESSIONAL_REQUIRED
      else Pass
  end.

Definition requireEmailVerified (user_ : option Obj) : Passage :=
  match user_ with
  | None => Refuse Reply.AUTHENTICATION_REQUIRED
  | Some u =>
      if negb (truthyAt u "emailVerified")
      then Refuse Reply.EMAIL_VERIFICATION_REQUIRED
      else Pass
  end.

Definition requirePhoneVerified (user_ : option Obj) : Passage :=
  match user_ with
  | None => Refuse Reply.AUTHENTICATION_REQUIRED
  | Some u =>
      if negb (truthyAt u "phoneVerified")
      then Refuse Reply.PHONE_VERIFICATION_REQUIRED
      else Pass
  end.

(** A guard placed after [authenticateToken] in a chain of middlewares: it
    runs once [next()] has been called, on the [req.user] attached. *)
Definition andThen (guard : option Obj -> Passage) (r : Verdict * State * World)
    : Verdict * State * World :=
  match r.1.1 with
  | Next user_ _ =>
      match guard (Some user_) with
      | Refuse answer => (Respond answer, r.1.2, r.2)
      | Pass => r
      end
  | Respond _ => r
  end.

Definition requireAuthAndEmailVerified (env : Env) (now : Z)
    (authorization : option Authorization) (st : State) (w : World)
    : Verdict * State * World :=
  andThen requireEmailVerified (authenticateToken env now authorization st w).

Definition requireAuthAndProfessional (env : Env) (now : Z)
    (authorization : option Authorization) (st : State) (w : World)
    : Verdict * State * World :=
  andThen requireProfessional (authenticateToken env now authorization st w).

Definition requireFullVerification (env : Env) (now : Z)
    (authorization : option Authorization) (st : State) (w : World)
    : Verdict * State * World :=
  andThen requirePhoneVerified
    (andThen requireEmailVerified (authenticateToken env now authorization st w)).

End AuthMiddleware.

(* ------------------------------------------------------------------ *)
(** ** controllers/authController.ts *)

Module AuthController.

(** What a handler does: the response, and the cookie it sets or clears. *)
Inductive Cookie := KeepCookie | ClearCookie.

Record LogoutRequest := mkLogoutRequest {
  req_user : option Obj;                      (* set by authenticateToken *)
  cookies_refreshToken : option Jwt.Token;
  body_refreshToken : option Jwt.Token;
  body_allDevices : option bool               (* documented on the route *)
}.

(** What a handler does to the [refreshToken] cookie: [res.cookie] with its
    [maxAge] and [secure] options, or [res.clearCookie]. *)
Inductive CookieEffect :=
| Untouched
| SetRefreshToken (value : Jwt.Token) (maxAge : Z) (secure : bool)
| Cleared.

Record RefreshRequest := mkRefreshRequest {
  rr_cookies_refreshToken : option Jwt.Token;
  rr_body_refreshToken : option Jwt.Token
}.

(** The JSON body of a login request. *)
Record LoginBody := mkLoginBody {
  lb_identifier : option Value;
  lb_password : option Value;
  lb_rememberMe : option Value
}.

(** [loginSchema.safeParse(req.body)] of the shared types: [identifier] and
    [password] are strings of one character at least, [rememberMe] is a
    boolean when it is given. *)
Definition loginSchema (body : LoginBody) : option AuthService.LoginData :=
  match lb_identifier body, lb_password body with
  | Some (VStr identifier), Some (VStr password) =>
      if Js.truthy identifier && Js.truthy password
      then match lb_rememberMe body with
           | None => Some (AuthService.mkLoginData identifier password None)
           | Some (VBool b) => Some (AuthService.mkLoginData identifier password (Some b))
           | Some _ => None
           end
      else None
  | _, _ => None
  end.

Inductive LoginAnswer :=
| InvalidBody   (* 400 'Données de connexion invalides', with the issues of the schema *)
| LoginReplied (r : ApiResponse AuthService.AuthResult) (cookie : CookieEffect).

(** [hay.includes(needle)] on the text of a message. A message is kept as
    the bytes of its UTF-8 form; a search for a well-formed needle finds the
    same occurrences there as on the code units. *)
Definition includes (needle hay : string) : bool :=
  Js.includes (Js.lit needle) (Js.lit hay).

(** The status the login handler gives to an error, from its message. *)
Definition loginStatusCode (errorMessage : string) : Z :=
  if includes "incorrect" errorMessage || includes "invalide" errorMessage
  then 401
  else if includes "suspendu" errorMessage || includes "bloqué" errorMessage
  then 403
  else 400.

(** A route answered by a middleware, or by the handler behind it. *)
Inductive Served (D : Type) :=
| ByMiddleware (r : ApiResponse unit)
| ByHandler (r : ApiResponse D).
Arguments ByMiddleware {D} r.
Arguments ByHandler {D} r.

Definition getCurrentUser (user_ : option Obj) : ApiResponse Obj :=
  match user_ with
  | None =>
      failure 401 "Utilisateur non authentifié" "Token d'authentification requis"
        "UNAUTHENTICATED"
  | Some u => mkResponse 200 true "Profil utilisateur récupéré" (Some u) []
  end.

(** [router.get('/me', authenticateToken, AuthController.getCurrentUser)] *)
Definition me (env : Env) (now : Z) (authorization : option AuthMiddleware.Authorization)
    (st : AuthMiddleware.State) (w : World)
    : Served Obj * AuthMiddleware.State * World :=
  match AuthMiddleware.authenticateToken env now authorization st w with
  | (AuthMiddleware.Respond r, st', w') => (ByMiddleware r, st', w')
  | (AuthMiddleware.Next user_ _, st', w') =>
      (ByHandler (getCurrentUser (Some user_)), st', w')
  end.

Section WithPlatform.
Context `{Platform} (env : Env).

Definition logout (req : LogoutRequest)
    : World -> (ApiResponse unit * Cookie) * World := fun w =>
  let userId := req_user req ≫= (fun o => o !! "id") in
  let refreshToken := Js.or Jwt.truthy (cookies_refreshToken req) (body_refreshToken req) in
  let done_ :=
    match userId with
    | Some (VStr uid) =>
        if Js.truthy uid then AuthService.logout uid refreshToken w else (Ok tt, w)
    | _ => (Ok tt, w)
    end in
  match done_ with
  | (Ok _, w') => (mkResponse 200 true "Déconnexion réussie" None [], ClearCookie, w')
  | (Throw e, w') =>
      (failure 500 "Erreur lors de la déconnexion" e "LOGOUT_ERROR", ClearCookie, w')
  | (Pending, w') =>
      (failure 500 "Erreur lors de la déconnexion" "Erreur inconnue" "LOGOUT_ERROR",
       ClearCookie, w')
  end.

Definition requestPasswordReset (now : Z) (jwtid email_ : Js.str)
    : World -> ApiResponse unit * World := fun w =>
  match AuthService.requestPasswordReset env now jwtid email_ w with
  | (Ok _, w') =>
      (mkResponse 200 true
         "Si un compte existe avec cet email, un lien de réinitialisation a été envoyé."
         None [], w')
  | (Throw e, w') =>
      (failure 500 "Erreur lors de la demande de réinitialisation" e
         "PASSWORD_RESET_REQUEST_ERROR", w')
  | (Pending, w') =>
      (failure 500 "Erreur lors de la demande de réinitialisation" "Erreur inconnue"
         "PASSWORD_RESET_REQUEST_ERROR", w')
  end.

(** A handler whose service call has not returned has not answered:
    [None]. *)
Definition login (now : Z) (d : AuthService.PairDraw) (body : LoginBody)
    : World -> option LoginAnswer * World := fun w =>
  match loginSchema body with
  | None => (Some InvalidBody, w)
  | Some data =>
      match AuthService.login env now d data w with
      | (Ok result, w') =>
          let maxAge := if default false (AuthService.rememberMe data)
                        then 30 * 24 * 60 * 60 * 1000
                        else 7 * 24 * 60 * 60 * 1000 in
          (Some (LoginReplied
                   (mkResponse 200 true "Connexion réussie" (Some result) [])
                   (SetRefreshToken (AuthService.refreshToken (AuthService.tokens result))
                      maxAge (bool_decide (NODE_ENV env = Some (Js.lit "production"))))),
           w')
      | (Throw errorMessage, w') =>
          (Some (LoginReplied
                   (failure (loginStatusCode errorMessage) errorMessage errorMessage
                      "LOGIN_ERROR")
                   Untouched),
           w')
      | (Pending, w') => (None, w')
      end
  end.

Definition refreshTokens (now : Z) (d : AuthService.PairDraw) (req : RefreshRequest)
    : World -> option (ApiResponse AuthService.AuthTokens * CookieEffect) * World :=
  fun w =>
  let refreshToken :=
    Js.or Jwt.truthy (rr_cookies_refreshToken req) (rr_body_refreshToken req) in
  match Js.whenTruthy Jwt.truthy refreshToken with
  | None =>
      (Some (failure 401 "Refresh token manquant" "Refresh token requis"
               "MISSING_REFRESH_TOKEN", Untouched), w)
  | Some presented =>
      match AuthService.refreshTokens env now d presented w with
      | (Ok tokens, w') =>
          (Some (mkResponse 200 true "Tokens rafraîchis avec succès" (Some tokens) [],
                 SetRefreshToken (AuthService.refreshToken tokens)
                   (7 * 24 * 60 * 60 * 1000)
                   (bool_decide (NODE_ENV env = Some (Js.lit "production")))), w')
      | (Throw _, w') =>
          (Some (failure 401 "Token de rafraîchissement invalide"
                   "Veuillez vous reconnecter" "INVALID_REFRESH_TOKEN", Cleared), w')
      | (Pending, w') => (None, w')
      end
  end.

End WithPlatform.

End AuthController.

(* ------------------------------------------------------------------ *)
(** ** middleware/validationMiddleware.ts *)

Module ValidationMiddleware.

(** [phone.replace(/[\s\-\(\)\.]/g, '')] *)
Definition cleaned (phone : Js.str) : Js.str :=
  List.filter
    (fun c => negb (Js.isSpace c || (c =? 45) || (c =? 40) || (c =? 41) || (c =? 46))%N)
    phone.

(** [/^[0-9]{8,10}$/.test(s)] *)
Definition digits8to10 (s : Js.str) : bool :=
  forallb Js.isDigit s && bool_decide (8 <= length s)%nat
  && bool_decide (length s <= 10)%nat.

Definition validateIvoirianPhone (phone : Js.str) : bool :=
  let cleaned_ := cleaned phone in
  let patterns : list (Js.str -> bool) :=
    [ (fun s => Js.startsWith (Js.lit "+225") s && digits8to10 (drop 4 s));
      (fun s => Js.startsWith (Js.lit "00225") s && digits8to10 (drop 5 s));
      (fun s => Js.startsWith (Js.lit "225") s && digits8to10 (drop 3 s));
      digits8to10 ] in
  existsb (fun pattern => pattern cleaned_) patterns.

(** The [transform] of the [telephone] field of [registerSchema]; the
    [telephone] and [whatsapp] fields of [createAnnonceSchema] repeat it. *)
Definition telephone_transform (val : Js.str) : Js.str :=
  let cleaned_ := cleaned val in
  if Js.startsWith (Js.lit "+225") cleaned_ then cleaned_
  else if Js.startsWith (Js.lit "00225") cleaned_ then Js.lit "+225" ++ drop 5 cleaned_
  else if Js.startsWith (Js.lit "225") cleaned_ then Js.lit "+225" ++ drop 3 cleaned_
  else Js.lit "+225" ++ cleaned_.

(** *** [detectDuplicateContent]: the map of one instance of the middleware *)

Record HashEntry := mkHashEntry {
  timestamp : Z;
  count : Z
}.

Definition WINDOW_TIME : Z := 15 * 60 * 1000.
Definition MAX_DUPLICATES : Z := 3.

Inductive Outcome :=
| Next
| Duplicate (published : Z).
    (* 429 DUPLICATE_CONTENT, 'Contenu identique publié ${published} fois en 15 minutes' *)

Definition detectDuplicateContent (now : Z) (contentHash : option string)
    (recentHashes : gmap string HashEntry) : Outcome * gmap string HashEntry :=
  match contentHash with
  | None => (Next, recentHashes)
  | Some hash =>
      if bool_decide (hash = EmptyString)
      then (Next, recentHashes)
      else
        let existing := recentHashes !! hash in
        let swept :=
          filter (fun kv => negb (WINDOW_TIME <? now - timestamp kv.2)) recentHashes in
        match existing with
        | Some entry =>
            if MAX_DUPLICATES <=? count entry
            then (Duplicate (count entry), swept)
            else
              (* [existing.count++; existing.timestamp = now] change the object
                 fetched before the sweep; the map shows the change only if the
                 sweep has left that object in it. *)
              (Next,
               match swept !! hash with
               | Some _ => <[hash := mkHashEntry now (count entry + 1)]> swept
               | None => swept
               end)
        | None => (Next, <[hash := mkHashEntry now 1]> swept)
        end
  end.

End ValidationMiddleware.

(* ------------------------------------------------------------------ *)
(** ** middleware/loggingMiddleware.ts: the buffers of [RequestAnalytics] *)

Module RequestAnalytics.

Section Buffers.

(** The buffers hold [RequestMetrics] and [SecurityEvent] objects; the two
    methods below store them without reading them. *)
Context (RequestMetrics SecurityEvent : Type).

Record t := mk {
  metrics : gmap Js.str (list RequestMetrics);
  securityEvents : list SecurityEvent
}.

Definition MAX_METRICS_PER_ROUTE : nat := 100.
Definition MAX_SECURITY_EVENTS : nat := 1000.

(** [push] at the end, then [shift] when the array has grown past its bound. *)
Definition addMetric (route : Js.str) (metric : RequestMetrics) (a : t) : t :=
  let routeMetrics := default [] (metrics a !! route) ++ [metric] in
  {| metrics :=
       <[route := if bool_decide (MAX_METRICS_PER_ROUTE < length routeMetrics)%nat
                  then tail routeMetrics else routeMetrics]> (metrics a);
     securityEvents := securityEvents a |}.

Definition addSecurityEvent (event : SecurityEvent) (a : t) : t :=
  let events := securityEvents a ++ [event] in
  {| metrics := metrics a;
     securityEvents :=
       if bool_decide (MAX_SECURITY_EVENTS < length events)%nat
       then tail events else events |}.

End Buffers.

Arguments mk {RequestMetrics SecurityEvent}.
Arguments metrics {RequestMetrics SecurityEvent}.
Arguments securityEvents {RequestMetrics SecurityEvent}.
Arguments addMetric {RequestMetrics SecurityEvent}.
Arguments addSecurityEvent {RequestMetrics SecurityEvent}.

End RequestAnalytics.

(* ------------------------------------------------------------------ *)
(** ** Where each purpose of token is verified

    access tokens by [authenticateToken], refresh tokens by
    [AuthService.refreshTokens], verification tokens by [verifyEmail], reset
    tokens by [resetPassword]: the [jwt.verify] call of each. *)

Definition verifyAs (env : Env) (purpose : Jwt.TokenType) (now : Z) (token : Jwt.Token)
    : Jwt.VerifyError + Jwt.Claims :=
  match purpose with
  | Jwt.access =>
      Jwt.verify (now / 1000) token (AuthMiddleware.JWT_CONFIG.SECRET env)
        (Some (Jwt.mkVerifyOptions AuthMiddleware.JWT_CONFIG.ISSUER
                 AuthMiddleware.JWT_CONFIG.AUDIENCE))
  | Jwt.refresh =>
      Jwt.verify (now / 1000) token (AuthService.JWT_CONFIG.REFRESH_SECRET env) None
  | Jwt.verification | Jwt.reset =>
      Jwt.verify (now / 1000) token (AuthService.JWT_CONFIG.SECRET env) None
  end.

(* ------------------------------------------------------------------ *)
(** ** What the schema guarantees of every state of the store *)

Record integrity (w : World) : Prop := {
  users_pkey : NoDup (User.id <$> users w);
  users_email_key : NoDup (User.email <$> users w);
  users_phone_key : NoDup (User.phone <$> users w);
  refresh_tokens_pkey : NoDup (RefreshToken.id <$> refresh_tokens w);
  refresh_tokens_token_key : NoDup (RefreshToken.token <$> refresh_tokens w);
  refresh_tokens_userId_fkey :
    forall r, r ∈ refresh_tokens w -> RefreshToken.userId r ∈ User.id <$> users w
}.

#[global] Instance integrity_dec (w : World) : Decision (integrity w).
Proof.
  refine (cast_if (decide (NoDup (User.id <$> users w)
                           /\ NoDup (User.email <$> users w)
                           /\ NoDup (User.phone <$> users w)
                           /\ NoDup (RefreshToken.id <$> refresh_tokens w)
                           /\ NoDup (RefreshToken.token <$> refresh_tokens w)
                           /\ Forall (fun r => RefreshToken.userId r ∈ User.id <$> users w)
                                 (refresh_tokens w)))).
  - destruct a as (? & ? & ? & ? & ? & Hfk). split; try done.
    by apply Forall_forall.
  - intros [? ? ? ? ? Hfk]. apply n. repeat split; try done.
    by apply Forall_forall.
Defined.

(** The lockout of this row is still running at [now]. *)
Definition lockedAt (now : Z) (u : User.t) : bool :=
  match User.blockedUntil u with
  | Some blockedUntil => now <? blockedUntil
  | None => false
  end.


(** One login attempt on an identifier, and a series of them. *)
Record Attempt := mkAttempt {
  at_now : Z;
  at_password : Js.str;
  at_draw : AuthService.PairDraw
}.

Definition attemptLogin `{Platform} (env : Env) (ident : Js.str) (w : World) (a : Attempt)
    : outcome AuthService.AuthResult * World :=
  AuthService.login env (at_now a) (at_draw a)
    (AuthService.mkLoginData ident (at_password a) None) w.

Definition afterAttempts `{Platform} (env : Env) (ident : Js.str) (w : World)
    (attempts : list Attempt) : World :=
  foldl (fun w a => (attemptLogin env ident w a).2) w attempts.

(** A stored refresh token carries this [jti] already. *)
Definition jtiOf (t : Jwt.Token) : option Js.str :=
  match t with
  | Jwt.Signed _ claims => Some (Jwt.jti claims)
  | Jwt.Opaque _ => None
  end.

Definition jtiStored (j : Js.str) (w : World) : Prop :=
  Some j ∈ (fun r => jtiOf (RefreshToken.token r)) <$> refresh_tokens w.

(** The draws of [generateTokenPair] collide with nothing stored. *)
Definition freshDraw (d : AuthService.PairDraw) (w : World) : Prop :=
  (AuthService.rowId d ∉ RefreshToken.id <$> refresh_tokens w)
  /\ ~ jtiStored (AuthService.refreshJti d) w.

#[global] Instance freshDraw_dec (d : AuthService.PairDraw) (w : World) :
  Decision (freshDraw d w).
Proof. unfold freshDraw, jtiStored. apply _. Defined.

(* ------------------------------------------------------------------ *)
(** ** The life of the whole: calls of the service and events of the
       middleware, in any order *)

Inductive Call :=
| Register (fuel : nat) (now : Z) (d : AuthService.RegisterDraw)
    (data : AuthService.RegisterData)
| Login (now : Z) (d : AuthService.PairDraw) (data : AuthService.LoginData)
| RefreshTokens (now : Z) (d : AuthService.PairDraw) (refreshToken : Jwt.Token)
| Logout (userId : Js.str) (refreshToken : option Jwt.Token)
| VerifyEmail (now : Z) (token : Jwt.Token)
| RequestPasswordReset (now : Z) (jwtid email : Js.str)
| ResetPassword (now : Z) (salt : Js.str) (token : Jwt.Token) (newPassword : Js.str).

(** The store after a call, whatever it answered. *)
Definition perform `{Platform} (env : Env) (c : Call) (w : World) : World :=
  match c with
  | Register fuel now d data => (AuthService.register env fuel now d data w).2
  | Login now d data => (AuthService.login env now d data w).2
  | RefreshTokens now d refreshToken => (AuthService.refreshTokens env now d refreshToken w).2
  | Logout userId refreshToken => (AuthService.logout userId refreshToken w).2
  | VerifyEmail now token => (AuthService.verifyEmail env now token w).2
  | RequestPasswordReset now jwtid email =>
      (AuthService.requestPasswordReset env now jwtid email w).2
  | ResetPassword now salt token newPassword =>
      (AuthService.resetPassword env now salt token newPassword w).2
  end.

Inductive Happening :=
| Service (c : Call)
| Middleware (e : AuthMiddleware.Event).

Definition happen `{Platform} (env : Env) (h : Happening)
    (sw : AuthMiddleware.State * World) : AuthMiddleware.State * World :=
  match h with
  | Service c => (sw.1, perform env c sw.2)
  | Middleware e => AuthMiddleware.step env e sw
  end.

Definition history `{Platform} (env : Env) (hs : list Happening)
    (sw : AuthMiddleware.State * World) : AuthMiddleware.State * World :=
  foldl (fun sw h => happen env h sw) sw hs.

(* ------------------------------------------------------------------ *)
(** ** What is kept along the way *)

(** The computation [m] keeps the property [P] of the store, whatever it
    answers. *)
Definition keeps {A} (P : World -> Prop) (m : M A) : Prop :=
  forall w, P w -> P (m w).2.


(** Every user object that the cache holds satisfies [R]. *)
Definition cacheHolds (R : Obj -> Prop) (st : AuthMiddleware.State) : Prop :=
  map_Forall (fun _ entry => R (AuthMiddleware.user entry)) (AuthMiddleware.userCache st).

(* ------------------------------------------------------------------ *)
(** ** Sample data: one account, two devices, a platform that computes *)

Module Sample.
Import AuthService.

Definition asciiLower (s : Js.str) : Js.str :=
  (fun c => if Js.isUpper c then (c + 32)%N else c) <$> s.
Definition asciiUpper (s : Js.str) : Js.str :=
  (fun c => if Js.isLower c then (c - 32)%N else c) <$> s.

(** ASCII case mapping, and a stand-in for bcrypt that keeps the password
    after the salt. *)
Definition platform : Platform :=
  {| toLowerCase := asciiLower;
     toUpperCase := asciiUpper;
     bcrypt_hash := fun data _ salt_ => salt_ ++ Js.lit "$" ++ data;
     bcrypt_compare := fun data encrypted =>
       match Js.splitFirst 36 encrypted with
       | Some (_, kept) => bool_decide (kept = data)
       | None => false
       end |}.

Definition env : Env := mkEnv None None None.

Definition empty : World := mkWorld [] [] [] [].

Definition awa : RegisterData :=
  {| firstName := Js.lit "Awa"; lastName := Js.lit "Kone";
     email := Js.lit "a@example.ci"; phone := Js.lit "+2250700000001";
     password := Js.lit "Secret1"; isProfessional := None;
     companyName := None; region := None; commune := None |}.

(** A second person, whose first name is contained in Awa's. *)
Definition wa : RegisterData :=
  {| firstName := Js.lit "Wa"; lastName := Js.lit "Diallo";
     email := Js.lit "w@example.ci"; phone := Js.lit "+2250700000002";
     password := Js.lit "Secret2"; isProfessional := None;
     companyName := None; region := None; commune := None |}.

Definition draw (n : Z) : PairDraw :=
  {| accessJti := Js.lit "access-" ++ Js.ofZ n;
     refreshJti := Js.lit "refresh-" ++ Js.ofZ n;
     rowId := Js.lit "row-" ++ Js.ofZ n |}.

(** Awa's registration, on an empty store. *)
Definition registration : outcome AuthResult * World :=
  @register platform env 1 1000 (mkRegisterDraw (Js.lit "salt") (Js.lit "u1") (draw 1))
    awa empty.

(** The rows below are written as data, as a seed of the tables would
    insert them. *)
Definition awaRow : User.t :=
  {| User.id := Js.lit "u1"; User.email := Js.lit "a@example.ci";
     User.phone := Js.lit "+2250700000001";
     User.password := Js.lit "salt$Secret1";
     User.firstName := Js.lit "Awa"; User.lastName := Js.lit "Kone";
     User.avatar := Some (@generateDefaultAvatar platform (Js.lit "Awa") (Js.lit "Kone"));
     User.isProfessional := false; User.companyName := None;
     User.region := None; User.commune := None;
     User.emailVerified := false; User.phoneVerified := false;
     User.status := PENDING_VERIFICATION; User.lastLoginAt := None;
     User.loginAttempts := 0; User.blockedUntil := None;
     User.createdAt := 1000; User.updatedAt := 1000 |}.

Definition credentials (password_ : string) : LoginData :=
  mkLoginData (Js.lit "a@example.ci") (Js.lit password_) None.

(** A refresh token of Awa for her phone, and one for a laptop. *)
Definition phoneToken : Jwt.Token :=
  generateToken env 1000 (refreshJti (draw 1)) (Js.lit "u1") (Js.lit "a@example.ci")
    Jwt.refresh JWT_CONFIG.REFRESH_TOKEN_EXPIRES.

Definition phoneClaims : Jwt.Claims :=
  Jwt.mkClaims (Js.lit "u1") (Js.lit "a@example.ci") Jwt.refresh 1 604801
    JWT_CONFIG.ISSUER JWT_CONFIG.AUDIENCE (refreshJti (draw 1)).

Definition phoneRecord : RefreshToken.t :=
  RefreshToken.mk (rowId (draw 1)) phoneToken (Js.lit "u1") (addDays 1000 7) 1000.

Definition laptopToken : Jwt.Token :=
  generateToken env 2000 (refreshJti (draw 2)) (Js.lit "u1") (Js.lit "a@example.ci")
    Jwt.refresh JWT_CONFIG.REFRESH_TOKEN_EXPIRES.

Definition laptopRecord : RefreshToken.t :=
  RefreshToken.mk (rowId (draw 2)) laptopToken (Js.lit "u1") (addDays 2000 7) 2000.

(** The store with Awa's account and the session of her phone. *)
Definition home : World :=
  mkWorld [awaRow] [phoneRecord]
    [LogActivite.mk (Js.lit "u1") "USER_REGISTERED" "User" (Js.lit "u1")]
    [VerificationEmail (Js.lit "a@example.ci") (Js.lit "Awa")].

(** The same with a second session, on the laptop. *)
Definition twoDevices : World :=
  mkWorld
    [User.set_updatedAt 2000 (User.set_lastLoginAt (Some 2000) awaRow)]
    [phoneRecord; laptopRecord]
    [LogActivite.mk (Js.lit "u1") "USER_REGISTERED" "User" (Js.lit "u1");
     LogActivite.mk (Js.lit "u1") "USER_LOGIN" "User" (Js.lit "u1")]
    [VerificationEmail (Js.lit "a@example.ci") (Js.lit "Awa")].

(** An active account that has mistyped its password three times. *)
Definition veteranRow : User.t :=
  User.set_loginAttempts 3 (User.set_status ACTIVE (User.set_emailVerified true awaRow)).

Definition veteran : World := mkWorld [veteranRow] [] [] [].

(** Five wrong passwords, one a second. *)
Definition wrong (n : Z) : Attempt :=
  mkAttempt (3000 + 1000 * n) (Js.lit "guess") (draw (10 + n)).

Definition locked : World :=
  @afterAttempts platform env (Js.lit "a@example.ci") home (wrong <$> [1; 2; 3; 4; 5]).

Definition lockedRow : User.t :=
  User.set_updatedAt 8000
    (User.set_blockedUntil (Some 908000) (User.set_loginAttempts 5 awaRow)).

(** An access token whose identity is not in the store. *)
Definition ghostToken : Jwt.Token :=
  generateToken env 1000 (Js.lit "access-0") (Js.lit "ghost") (Js.lit "g@example.ci")
    Jwt.access JWT_CONFIG.ACCESS_TOKEN_EXPIRES.



Definition bearer (token : Jwt.Token) : option AuthMiddleware.Authorization :=
  Some (AuthMiddleware.Bearer token).


(** The link of the verification email and the link of a password reset,
    had they been signed at registration; Awa's access token of the phone. *)
Definition verificationToken : Jwt.Token :=
  generateToken env 1000 (Js.lit "verify-1") (Js.lit "u1") (Js.lit "a@example.ci")
    Jwt.verification JWT_CONFIG.VERIFICATION_TOKEN_EXPIRES.

Definition resetToken : Jwt.Token :=
  generateToken env 1000 (Js.lit "reset-1") (Js.lit "u1") (Js.lit "a@example.ci")
    Jwt.reset JWT_CONFIG.RESET_TOKEN_EXPIRES.

Definition accessToken_ : Jwt.Token :=
  generateToken env 1000 (accessJti (draw 1)) (Js.lit "u1")
    (Js.lit "a@example.ci") Jwt.access JWT_CONFIG.ACCESS_TOKEN_EXPIRES.

(** The claims a signed token carries. *)
Definition claimsOf (t : Jwt.Token) : Jwt.Claims :=
  match t with
  | Jwt.Signed _ claims => claims
  | Jwt.Opaque _ => Jwt.mkClaims [] [] Jwt.access 0 0 [] [] []
  end.

(** Awa's account suspended by hand, three seconds after registration. *)
Definition suspended : World :=
  Prisma.updated 3000 (Js.lit "u1") (User.set_status SUSPENDED) home.

Definition suspendedRow : User.t :=
  User.set_updatedAt 3000 (User.set_status SUSPENDED awaRow).

(** The caches once the phone has made a request, two seconds after
    registration. *)
Definition warm : AuthMiddleware.State :=
  (AuthMiddleware.authenticateToken env 2000 (bearer accessToken_)
     (AuthMiddleware.mkState AuthMiddleware.TokenSet.empty ∅) home).1.2.

End Sample.

(* ================================================================== *)
(** * Properties *)

(** ** Strings *)

Section Strings.

Lemma startsWith_app (p s : Js.str) : Js.startsWith p (p ++ s) = true.
Proof.
  induction p as [|a p IH]; simpl; [done|].
  by rewrite decide_True.
Qed.

Lemma startsWith_inv (p s : Js.str) :
  Js.startsWith p s = true -> s = p ++ drop (length p) s.
Proof.
  revert s; induction p as [|a p IH]; intros [|b s]; simpl; try done.
  case_decide; [subst b|done].
  intros Hs. f_equal. by apply IH.
Qed.

Lemma stripSpaces_idem (s : Js.str) :
  Js.stripSpaces (Js.stripSpaces s) = Js.stripSpaces s.
Proof.
  unfold Js.stripSpaces.
  induction s as [|c s IH]; simpl; [done|].
  destruct (Js.isSpace c) eqn:Hc; simpl; [done|].
  by rewrite Hc, IH.
Qed.

Lemma stripSpaces_drop (n : nat) (s : Js.str) :
  Js.stripSpaces (drop n (Js.stripSpaces s)) = drop n (Js.stripSpaces s).
Proof.
  unfold Js.stripSpaces.
  apply forallb_filter_id, forallb_forall.
  intros c Hc. apply list_elem_of_In, subseteq_drop, list_elem_of_In in Hc.
  apply filter_In in Hc. tauto.
Qed.

End Strings.

(** ** Phone numbers *)

Section Phone.
Import AuthService.

Lemma stripSpaces_plus225 (s : Js.str) :
  Js.stripSpaces (plus225 ++ s) = plus225 ++ Js.stripSpaces s.
Proof. reflexivity. Qed.

(** What [normalizePhoneNumber] returns: '+225' followed by a string free of
    white space. *)
Lemma normalizePhoneNumber_shape (phone : Js.str) :
  exists rest, normalizePhoneNumber phone = plus225 ++ rest
               /\ Js.stripSpaces rest = rest.
Proof.
  unfold normalizePhoneNumber.
  destruct (Js.startsWith (Js.lit "00225") _) eqn:H1.
  { eexists; split; [done|]. apply stripSpaces_drop. }
  destruct (Js.startsWith (Js.lit "225") _) eqn:H2.
  { eexists; split; [done|]. apply stripSpaces_drop. }
  destruct (Js.startsWith plus225 _) eqn:H3; simpl.
  - apply startsWith_inv in H3.
    exists (drop (length plus225) (Js.stripSpaces phone)).
    split; [done|]. apply stripSpaces_drop.
  - eexists; split; [done|]. apply stripSpaces_idem.
Qed.

(** C9. For every input string, [normalizePhoneNumber] returns a string that
    begins with '+225', and normalising its output again changes nothing.
    The output holds no white space and depends on the input only through
    the input without its white space; when that begins with '00225', '225'
    or '+225' the output is '+225' followed by what comes after the prefix,
    character for character, and otherwise it is '+225' followed by the whole
    of it. The lookup [findUserByEmailOrPhone], which is also the duplicate
    check of the registration, compares the stored phone with the normalised
    one: looking up a number and looking up its normal form, or any other
    spelling with the same normal form, give the same answer. *)
Theorem C9_normalizePhoneNumber_projection (phone : Js.str) :
  Js.startsWith plus225 (normalizePhoneNumber phone) = true
  /\ normalizePhoneNumber (normalizePhoneNumber phone) = normalizePhoneNumber phone
  /\ Js.stripSpaces (normalizePhoneNumber phone) = normalizePhoneNumber phone
  /\ (forall other, Js.stripSpaces other = Js.stripSpaces phone ->
                    normalizePhoneNumber other = normalizePhoneNumber phone)
  /\ (forall rest, Js.stripSpaces phone = Js.lit "00225" ++ rest ->
                   normalizePhoneNumber phone = plus225 ++ rest)
  /\ (forall rest, Js.stripSpaces phone = Js.lit "225" ++ rest ->
                   normalizePhoneNumber phone = plus225 ++ rest)
  /\ (forall rest, Js.stripSpaces phone = plus225 ++ rest ->
                   normalizePhoneNumber phone = plus225 ++ rest)
  /\ (Js.startsWith (Js.lit "00225") (Js.stripSpaces phone) = false ->
      Js.startsWith (Js.lit "225") (Js.stripSpaces phone) = false ->
      Js.startsWith plus225 (Js.stripSpaces phone) = false ->
      normalizePhoneNumber phone = plus225 ++ Js.stripSpaces phone)
  /\ (forall (P : Platform) (mail other : Js.str) (w : World),
        normalizePhoneNumber other = normalizePhoneNumber phone ->
        findUserByEmailOrPhone mail other w = findUserByEmailOrPhone mail phone w
        /\ findUserByEmailOrPhone mail (normalizePhoneNumber phone) w
           = findUserByEmailOrPhone mail phone w).
Proof.
  destruct (normalizePhoneNumber_shape phone) as (rest & Hshape & Hrest).
  assert (normalizePhoneNumber (normalizePhoneNumber phone) = normalizePhoneNumber phone)
    as Hidem.
  { rewrite Hshape. unfold normalizePhoneNumber at 1.
    rewrite stripSpaces_plus225, Hrest. reflexivity. }
  split; [rewrite Hshape; apply startsWith_app|].
  split; [exact Hidem|].
  split; [by rewrite Hshape, stripSpaces_plus225, Hrest|].
  split; [intros other Hother; unfold normalizePhoneNumber; by rewrite Hother|].
  split; [intros r Hr; unfold normalizePhoneNumber; by rewrite Hr|].
  split; [intros r Hr; unfold normalizePhoneNumber; by rewrite Hr|].
  split; [intros r Hr; unfold normalizePhoneNumber; by rewrite Hr|].
  split; [intros H1 H2 H3; unfold normalizePhoneNumber; by rewrite H1, H2, H3|].
  intros P mail other w Hother. unfold findUserByEmailOrPhone.
  by rewrite Hother, Hidem.
Qed.

End Phone.

(** ** Tokens *)

Section Tokens.
Import AuthService.

Lemma verify_sign_own_key (clock clock' : Z) (uid mail : Js.str) (ty : Jwt.TokenType)
    (secret : Js.str) (o : Jwt.SignOptions) :
  Jwt.verify clock' (Jwt.sign clock uid mail ty secret o) secret None
  = if clock + Jwt.expiresIn o <=? clock' then inl Jwt.TokenExpiredError
    else inr (Jwt.mkClaims uid mail ty clock (clock + Jwt.expiresIn o)
                (Jwt.issuer o) (Jwt.audience o) (Jwt.jwtid o)).
Proof.
  unfold Jwt.verify, Jwt.sign; simpl.
  by rewrite bool_decide_eq_true_2.
Qed.

(** The middleware asks for the issuer and audience the service signs with. *)
Lemma verify_sign_middleware (env : Env) (clock clock' : Z) (uid mail : Js.str)
    (ty : Jwt.TokenType) (ttl : Z) (jwtid : Js.str) :
  Jwt.verify clock'
    (Jwt.sign clock uid mail ty (AuthMiddleware.JWT_CONFIG.SECRET env)
       (Jwt.mkSignOptions ttl JWT_CONFIG.ISSUER JWT_CONFIG.AUDIENCE jwtid))
    (AuthMiddleware.JWT_CONFIG.SECRET env)
    (Some (Jwt.mkVerifyOptions AuthMiddleware.JWT_CONFIG.ISSUER
             AuthMiddleware.JWT_CONFIG.AUDIENCE))
  = if clock + ttl <=? clock' then inl Jwt.TokenExpiredError
    else inr (Jwt.mkClaims uid mail ty clock (clock + ttl)
                JWT_CONFIG.ISSUER JWT_CONFIG.AUDIENCE jwtid).
Proof.
  unfold Jwt.verify, Jwt.sign; simpl.
  by rewrite bool_decide_eq_true_2.
Qed.

(** The verifier of each purpose applied to a freshly issued token. *)
Lemma verifyAs_generateToken (env : Env) (now now' : Z) (jwtid uid mail : Js.str)
    (ty : Jwt.TokenType) (ttl : Span) :
  verifyAs env ty now' (generateToken env now jwtid uid mail ty ttl)
  = if now / 1000 + seconds ttl <=? now' / 1000 then inl Jwt.TokenExpiredError
    else inr (Jwt.mkClaims uid mail ty (now / 1000) (now / 1000 + seconds ttl)
                JWT_CONFIG.ISSUER JWT_CONFIG.AUDIENCE jwtid).
Proof.
  unfold verifyAs, generateToken.
  destruct ty;
    rewrite ?bool_decide_eq_true_2, ?bool_decide_eq_false_2 by done;
    first [apply verify_sign_middleware | apply verify_sign_own_key].
Qed.

(** C6. A token issued for an identity, a purpose and a positive ttl verifies
    to that identity and purpose as long as fewer than ttl seconds have gone
    by on the token clock (whole seconds since the epoch, as [iat] and [exp]
    are counted), and is reported expired from then on. *)
Theorem C6_token_round_trip (env : Env) (now now' : Z) (jwtid uid mail : Js.str)
    (purpose : Jwt.TokenType) (ttl : Span) :
  0 < seconds ttl ->
  let token := generateToken env now jwtid uid mail purpose ttl in
  (now' / 1000 < now / 1000 + seconds ttl ->
     exists claims, verifyAs env purpose now' token = inr claims
                    /\ Jwt.userId claims = uid /\ Jwt.type claims = purpose)
  /\ (now / 1000 + seconds ttl <= now' / 1000 ->
        verifyAs env purpose now' token = inl Jwt.TokenExpiredError)
  /\ (now' - now <= (seconds ttl - 1) * 1000 ->
        exists claims, verifyAs env purpose now' token = inr claims
                       /\ Jwt.userId claims = uid /\ Jwt.type claims = purpose)
  /\ (seconds ttl * 1000 <= now' - now ->
        verifyAs env purpose now' token = inl Jwt.TokenExpiredError).
Proof.
  intros _ token. unfold token. rewrite verifyAs_generateToken.
  assert (now' - now <= (seconds ttl - 1) * 1000 -> now' / 1000 < now / 1000 + seconds ttl)
    as Hinside.
  { intros Hwall.
    pose proof (Z.div_mod now 1000 ltac:(lia)). pose proof (Z.mod_pos_bound now 1000).
    pose proof (Z.div_mod now' 1000 ltac:(lia)). pose proof (Z.mod_pos_bound now' 1000).
    lia. }
  assert (seconds ttl * 1000 <= now' - now -> now / 1000 + seconds ttl <= now' / 1000)
    as Hafter.
  { intros Hwall.
    pose proof (Z.div_mod now 1000 ltac:(lia)). pose proof (Z.mod_pos_bound now 1000).
    pose proof (Z.div_mod now' 1000 ltac:(lia)). pose proof (Z.mod_pos_bound now' 1000).
    lia. }
  split; [|split; [|split]]; intros Hclock.
  - apply Z.leb_gt in Hclock. rewrite Hclock. by eexists.
  - apply Z.leb_le in Hclock. by rewrite Hclock.
  - apply Hinside, Z.leb_gt in Hclock. rewrite Hclock. by eexists.
  - apply Hafter, Z.leb_le in Hclock. by rewrite Hclock.
Qed.

End Tokens.

(** ** The bearer-token middleware *)

Section Middleware.
Import AuthMiddleware.

Implicit Types (st : State) (w : World) (token : Jwt.Token).

Lemma has_true (s : TokenSet.t) token : token ∈ s -> TokenSet.has s token = true.
Proof. intros. by apply bool_decide_eq_true_2. Qed.

Lemma has_false (s : TokenSet.t) token : token ∉ s -> TokenSet.has s token = false.
Proof. intros. by apply bool_decide_eq_false_2. Qed.


(** A revoked token is answered at once, and nothing changes. *)
Lemma authenticate_revoked env now token st w :
  Jwt.truthy token = true -> token ∈ revokedTokens st ->
  authenticateToken env now (Some (Bearer token)) st w
  = (Respond Reply.REVOKED_TOKEN, st, w).
Proof.
  intros Ht Hin. unfold authenticateToken.
  by rewrite Ht, has_true.
Qed.

(** Whatever the user found, the first check throws: the answer is 500, and
    neither the caches nor the store change. *)
Lemma checkUser_run now token payload (o : Obj) st w :
  checkUser now token payload o st w = (Respond Reply.AUTH_INTERNAL_ERROR, st, w).
Proof. reflexivity. Qed.





(** C3 (as the code has it). The revoked-token set is consulted first: a
    bearer token found there is answered REVOKED_TOKEN whatever its
    signature, expiry or purpose. Only a token that is not in the set is
    verified, and is then reported expired, malformed or of the wrong type. *)
Theorem C3_revocation_checked_first env now token st w :
  Jwt.truthy token = true ->
  let checked :=
    Jwt.verify (now / 1000) token (JWT_CONFIG.SECRET env)
      (Some (Jwt.mkVerifyOptions JWT_CONFIG.ISSUER JWT_CONFIG.AUDIENCE)) in
  let answer := authenticateToken env now (Some (Bearer token)) st w in
  (token ∈ revokedTokens st -> answer = (Respond Reply.REVOKED_TOKEN, st, w))
  /\ (token ∉ revokedTokens st ->
      (checked = inl Jwt.TokenExpiredError ->
         answer = (Respond Reply.EXPIRED_TOKEN, st, w))
      /\ (checked = inl Jwt.JsonWebTokenError ->
            answer = (Respond Reply.MALFORMED_TOKEN, st, w))
      /\ (forall payload, checked = inr payload -> Jwt.type payload <> Jwt.access ->
            answer = (Respond Reply.WRONG_TOKEN_TYPE, st, w))).
Proof.
  intros Ht checked answer. split.
  - by apply authenticate_revoked.
  - intros Hout. unfold answer, authenticateToken.
    rewrite Ht, has_false by done. fold checked.
    repeat split.
    + by intros ->.
    + by intros ->.
    + intros payload -> Hty. by rewrite bool_decide_eq_false_2.
Qed.


Lemma cleanup_idle st :
  TokenSet.size (revokedTokens st) <= 10000 -> cleanupRevokedTokens st = st.
Proof.
  intros. unfold cleanupRevokedTokens. rewrite bool_decide_eq_false_2; [done|lia].
Qed.

(** A token that is not revoked and verifies as an access token, whatever
    the cache holds: a fresh entry of the cache is used as it is, otherwise
    the row of the store is looked for and, when found, cached. *)
Lemma authenticate_verified env now token payload st w :
  Jwt.truthy token = true ->
  token ∉ revokedTokens st ->
  Jwt.verify (now / 1000) token (JWT_CONFIG.SECRET env)
    (Some (Jwt.mkVerifyOptions JWT_CONFIG.ISSUER JWT_CONFIG.AUDIENCE)) = inr payload ->
  Jwt.type payload = Jwt.access ->
  authenticateToken env now (Some (Bearer token)) st w
  = let reload :=
      match List.find (fun u => bool_decide (User.id u = Jwt.userId payload)) (users w) with
      | None => (Respond Reply.USER_NOT_FOUND, revoke token (Jwt.userId payload) st, w)
      | Some row =>
          (Respond Reply.AUTH_INTERNAL_ERROR,
           mkState (revokedTokens st)
             (<[Jwt.userId payload := mkCacheEntry (select selected (userObject row)) now]>
                (userCache st)), w)
      end in
    match userCache st !! Jwt.userId payload with
    | Some userData =>
        if CACHE_DURATION <? now - timestamp userData
        then reload
        else (Respond Reply.AUTH_INTERNAL_ERROR, st, w)
    | None => reload
    end.
Proof.
  intros Ht Hout Hv Hty. unfold authenticateToken.
  rewrite Ht, has_false, Hv, Hty by done.
  by rewrite bool_decide_eq_true_2.
Qed.


End Middleware.

(** ** The store and the effects *)

Section Store.

Lemma bind_run {A B} (m : M A) (f : A -> M B) (w : World) :
  (m ≫= f) w = match m w with
               | (Ok a, w') => f a w'
               | (Throw e, w') => (Throw e, w')
               | (Pending, w') => (Pending, w')
               end.
Proof. reflexivity. Qed.

Lemma ret_run {A} (a : A) (w : World) : (mret a : M A) w = (Ok a, w).
Proof. reflexivity. Qed.

Lemma throw_run {A} (msg : string) (w : World) : (throw msg : M A) w = (Throw msg, w).
Proof. reflexivity. Qed.

Lemma tryCatch_rethrow {A} (m : M A) (w : World) : tryCatch m throw w = m w.
Proof. unfold tryCatch, throw. by destruct (m w) as [[]]. Qed.

(** A catch that throws one fixed message. *)
Lemma tryCatch_fixed {A} (m : M A) (msg : string) (w : World) :
  tryCatch m (fun _ => throw msg) w
  = match m w with
    | (Throw _, w') => (Throw msg, w')
    | r => r
    end.
Proof. reflexivity. Qed.

Lemma find_fmap {A} (p : A -> bool) (f : A -> A) (l : list A) :
  (forall x, p (f x) = p x) -> List.find p (f <$> l) = f <$> List.find p l.
Proof.
  intros Hp. induction l as [|x l IH]; simpl; [done|].
  rewrite Hp. by destruct (p x).
Qed.

Lemma find_unique {A K} `{EqDecision K} (key : A -> K) (l : list A) (x : A) :
  NoDup (key <$> l) -> x ∈ l ->
  List.find (fun y => bool_decide (key y = key x)) l = Some x.
Proof.
  induction l as [|y l IH]; simpl; [by intros _ ?%elem_of_nil|].
  intros [Hy Hnd]%NoDup_cons [->|Hx]%elem_of_cons.
  - by rewrite bool_decide_eq_true_2.
  - rewrite bool_decide_eq_false_2; [by apply IH|].
    intros Heq. apply Hy. rewrite Heq. by apply list_elem_of_fmap_2.
Qed.

Lemma find_elem {A} (p : A -> bool) (l : list A) (x : A) :
  List.find p l = Some x -> x ∈ l /\ p x = true.
Proof. intros [? ?]%find_some. split; [by apply list_elem_of_In|done]. Qed.

Lemma find_none_elem {A} (p : A -> bool) (l : list A) :
  (forall x, x ∈ l -> p x = false) -> List.find p l = None.
Proof.
  intros Hp. destruct (List.find p l) as [x|] eqn:Hf; [|done].
  apply find_elem in Hf as [Hx Hpx]. rewrite Hp in Hpx; done.
Qed.

Lemma hasUser_elem (u : User.t) (w : World) :
  u ∈ users w -> Prisma.hasUser (User.id u) w = true.
Proof.
  intros. apply bool_decide_eq_true_2. by apply list_elem_of_fmap_2.
Qed.

(** Updating rows in place keeps their keys. *)
Lemma ids_update (uid : Js.str) (f : User.t -> User.t) (us : list User.t) :
  (forall u, User.id (f u) = User.id u) ->
  User.id <$> ((fun u => if bool_decide (User.id u = uid) then f u else u) <$> us)
  = User.id <$> us.
Proof.
  intros Hf. rewrite <- list_fmap_compose. apply list_fmap_ext.
  intros i u _. simpl. by case_bool_decide.
Qed.

(** *** The writes keep the constraints of the schema *)

Lemma filter_sublist {A} (p : A -> bool) (l : list A) : List.filter p l `sublist_of` l.
Proof.
  induction l as [|x l IH]; simpl; [done|].
  destruct (p x); by constructor.
Qed.

Lemma user_create_integrity (row created : User.t) (w w' : World) :
  integrity w -> Prisma.user_create row w = (Ok created, w') -> integrity w'.
Proof.
  intros [] . unfold Prisma.user_create.
  destruct (bool_decide _) eqn:H1; [done|].
  destruct (bool_decide (User.email row ∈ _)) eqn:H2; [done|].
  destruct (bool_decide (User.phone row ∈ _)) eqn:H3; [done|].
  apply bool_decide_eq_false in H1, H2, H3.
  intros [= _ <-]. split; cbn [users refresh_tokens with_users];
    rewrite ?fmap_app; try done.
  - apply NoDup_app. split; [done|]. split; [|apply NoDup_singleton].
    by intros x Hx ->%list_elem_of_singleton.
  - apply NoDup_app. split; [done|]. split; [|apply NoDup_singleton].
    by intros x Hx ->%list_elem_of_singleton.
  - apply NoDup_app. split; [done|]. split; [|apply NoDup_singleton].
    by intros x Hx ->%list_elem_of_singleton.
  - intros r Hr. apply elem_of_app. left. auto.
Qed.

Lemma refreshToken_create_integrity (row created : RefreshToken.t) (w w' : World) :
  integrity w -> Prisma.refreshToken_create row w = (Ok created, w') -> integrity w'.
Proof.
  intros []. unfold Prisma.refreshToken_create, Prisma.hasUser.
  destruct (bool_decide _) eqn:H1; [done|].
  destruct (bool_decide (RefreshToken.token row ∈ _)) eqn:H2; [done|].
  destruct (bool_decide (RefreshToken.userId row ∈ _)) eqn:H3; [|done].
  apply bool_decide_eq_false in H1, H2. apply bool_decide_eq_true in H3.
  intros [= _ <-]. split; cbn [users refresh_tokens with_refresh_tokens];
    rewrite ?fmap_app; try done.
  - apply NoDup_app. split; [done|]. split; [|apply NoDup_singleton].
    by intros x Hx ->%list_elem_of_singleton.
  - apply NoDup_app. split; [done|]. split; [|apply NoDup_singleton].
    by intros x Hx ->%list_elem_of_singleton.
  - intros r [Hr| ->%list_elem_of_singleton]%elem_of_app; auto.
Qed.

Lemma refreshToken_filter_integrity (keep : RefreshToken.t -> bool) (w : World) :
  integrity w -> integrity (with_refresh_tokens (List.filter keep) w).
Proof.
  intros []. split; cbn [users refresh_tokens with_refresh_tokens]; try done.
  - eapply sublist_NoDup; [exact refresh_tokens_pkey0|].
    apply fmap_sublist, filter_sublist.
  - eapply sublist_NoDup; [exact refresh_tokens_token_key0|].
    apply fmap_sublist, filter_sublist.
  - intros r Hr. apply refresh_tokens_userId_fkey0.
    by apply list_elem_of_In, filter_In in Hr as [?%list_elem_of_In _].
Qed.

End Store.

(** Runs the effects whose outcome is known. *)
Ltac runM := repeat (rewrite ?bind_run, ?ret_run, ?throw_run; cbv beta iota).

(** ** The account guard *)

Section Guard.
Import AuthService.
Context `{Platform} (env : Env).

Implicit Types (w : World) (u : User.t).

Lemma findUser_run (mail phone : Js.str) w :
  findUserByEmailOrPhone mail phone w
  = (Ok (List.find (fun u =>
           bool_decide (User.email u = Js.trim (toLowerCase mail))
           || bool_decide (User.phone u = normalizePhoneNumber phone)) (users w)), w).
Proof. reflexivity. Qed.

Lemma findUser_found (mail phone : Js.str) w u :
  (findUserByEmailOrPhone mail phone w).1 = Ok (Some u) -> u ∈ users w.
Proof. rewrite findUser_run. intros [= Hf]. by apply find_elem in Hf as [? _]. Qed.

Lemma findUnique_id_run w u :
  NoDup (User.id <$> users w) -> u ∈ users w ->
  Prisma.user_findUnique_id (User.id u) w = (Ok (Some u), w).
Proof.
  intros Hnd Hu. unfold Prisma.user_findUnique_id, Prisma.user_findFirst, gets.
  by rewrite (find_unique User.id).
Qed.


Lemma lockout_open now w u :
  NoDup (User.id <$> users w) -> u ∈ users w -> lockedAt now u = false ->
  checkAccountLockout now (User.id u) w = (Ok tt, w).
Proof.
  intros Hnd Hu Hl. unfold checkAccountLockout.
  rewrite bind_run, findUnique_id_run by done. simpl.
  unfold lockedAt in Hl. destruct (User.blockedUntil u); [by rewrite Hl|done].
Qed.

Lemma lockout_closed now w u blockedUntil :
  NoDup (User.id <$> users w) -> u ∈ users w ->
  User.blockedUntil u = Some blockedUntil -> now < blockedUntil ->
  checkAccountLockout now (User.id u) w
  = (Throw (lockoutMessage (ceilDiv (blockedUntil - now) 60000)), w).
Proof.
  intros Hnd Hu Hb Hlt. unfold checkAccountLockout.
  rewrite bind_run, findUnique_id_run by done. simpl. rewrite Hb.
  by rewrite (proj2 (Z.ltb_lt _ _) Hlt).
Qed.

Lemma user_update_run now w (uid : Js.str) (data : User.t -> User.t) :
  uid ∈ User.id <$> users w ->
  Prisma.user_update now uid data w = (Ok tt, Prisma.updated now uid data w).
Proof.
  intros Hu. unfold Prisma.user_update, Prisma.hasUser.
  by rewrite bool_decide_eq_true_2.
Qed.

Lemma updated_ids now (uid : Js.str) (data : User.t -> User.t) w :
  (forall u, User.id (data u) = User.id u) ->
  User.id <$> users (Prisma.updated now uid data w) = User.id <$> users w.
Proof.
  intros Hd. unfold Prisma.updated; simpl.
  apply (ids_update uid (fun u => User.set_updatedAt now (data u))).
  intros u. simpl. apply Hd.
Qed.

Lemma updated_find now (uid : Js.str) (data : User.t -> User.t) (p : User.t -> bool) w :
  (forall u, p (User.set_updatedAt now (data u)) = p u) ->
  List.find p (users (Prisma.updated now uid data w))
  = (fun u => if bool_decide (User.id u = uid)
              then User.set_updatedAt now (data u) else u) <$> List.find p (users w).
Proof.
  intros Hp. unfold Prisma.updated; simpl. apply find_fmap.
  intros u. case_bool_decide; [apply Hp|done].
Qed.

Lemma updated_refresh_tokens now (uid : Js.str) (data : User.t -> User.t) w :
  refresh_tokens (Prisma.updated now uid data w) = refresh_tokens w.
Proof. reflexivity. Qed.

Lemma logActivity_run (action : string) (uid : Js.str) w :
  logActivity action uid w
  = (Ok tt, with_logs (fun l => l ++ [LogActivite.mk uid action "User" uid]) w).
Proof. reflexivity. Qed.

Lemma fresh_refresh_token (now : Z) (d : PairDraw) (uid mail : Js.str) (ttl : Span) w :
  ~ jtiStored (refreshJti d) w ->
  generateToken env now (refreshJti d) uid mail Jwt.refresh ttl
    ∉ RefreshToken.token <$> refresh_tokens w.
Proof.
  intros Hfresh (r & Hr & Hin)%list_elem_of_fmap. apply Hfresh.
  apply list_elem_of_fmap. exists r. by rewrite <- Hr.
Qed.

(** With fresh draws and an existing owner, a pair is issued and its refresh
    token stored. *)
Lemma generateTokenPair_run now (d : PairDraw) (uid mail : Js.str) (rm : bool) w :
  freshDraw d w -> uid ∈ User.id <$> users w ->
  let refreshToken_ :=
    generateToken env now (refreshJti d) uid mail Jwt.refresh
      (if rm then Days 30 else JWT_CONFIG.REFRESH_TOKEN_EXPIRES) in
  generateTokenPair env now d uid mail rm w
  = (Ok {| accessToken := generateToken env now (accessJti d) uid mail Jwt.access
                            JWT_CONFIG.ACCESS_TOKEN_EXPIRES;
           refreshToken := refreshToken_;
           expiresIn := if rm then 30 * 24 * 60 * 60 * 1000
                        else 7 * 24 * 60 * 60 * 1000 |},
     with_refresh_tokens (fun ts => ts ++
       [RefreshToken.mk (rowId d) refreshToken_ uid
          (addDays now (if rm then 30 else 7)) now]) w).
Proof.
  intros [Hrow Hjti] Hu refreshToken_.
  unfold generateTokenPair. rewrite bind_run.
  unfold Prisma.refreshToken_create, Prisma.hasUser.
  cbn [RefreshToken.id RefreshToken.token RefreshToken.userId].
  rewrite (bool_decide_eq_false_2 _ Hrow).
  rewrite (bool_decide_eq_false_2 _ (fresh_refresh_token now d uid mail _ w Hjti)).
  rewrite (bool_decide_eq_true_2 _ Hu).
  reflexivity.
Qed.

Lemma handleFailedLogin_run now w u :
  NoDup (User.id <$> users w) -> u ∈ users w ->
  handleFailedLogin now (User.id u) w
  = (Ok tt, Prisma.updated now (User.id u)
              (updateData now (User.loginAttempts u + 1)) w).
Proof.
  intros Hnd Hu. unfold handleFailedLogin.
  rewrite bind_run, findUnique_id_run by done.
  apply user_update_run. by apply list_elem_of_fmap_2.
Qed.

Lemma login_unknown now d data w :
  (findUserByEmailOrPhone (identifier data) (identifier data) w).1 = Ok None ->
  login env now d data w = (Throw badCredentials, w).
Proof.
  rewrite findUser_run. intros [= Hf].
  unfold login. rewrite tryCatch_rethrow, bind_run, findUser_run, Hf. done.
Qed.

Lemma login_locked now d data w u blockedUntil :
  NoDup (User.id <$> users w) ->
  (findUserByEmailOrPhone (identifier data) (identifier data) w).1 = Ok (Some u) ->
  User.blockedUntil u = Some blockedUntil -> now < blockedUntil ->
  login env now d data w
  = (Throw (lockoutMessage (ceilDiv (blockedUntil - now) 60000)), w).
Proof.
  intros Hnd Hfound Hb Hlt.
  pose proof (findUser_found _ _ _ _ Hfound) as Hu.
  rewrite findUser_run in Hfound. injection Hfound as Hf.
  unfold login. rewrite tryCatch_rethrow, bind_run, findUser_run, Hf.
  rewrite bind_run, (lockout_closed now w u blockedUntil) by done. done.
Qed.

Lemma login_wrong_password now d data w u :
  NoDup (User.id <$> users w) ->
  (findUserByEmailOrPhone (identifier data) (identifier data) w).1 = Ok (Some u) ->
  lockedAt now u = false ->
  bcrypt_compare (l_password data) (User.password u) = false ->
  login env now d data w
  = (Throw badCredentials,
     Prisma.updated now (User.id u) (updateData now (User.loginAttempts u + 1)) w).
Proof.
  intros Hnd Hfound Hl Hpw.
  pose proof (findUser_found _ _ _ _ Hfound) as Hu.
  rewrite findUser_run in Hfound. injection Hfound as Hf.
  unfold login. rewrite tryCatch_rethrow, bind_run, findUser_run, Hf.
  rewrite bind_run, lockout_open by done.
  rewrite Hpw. cbn [negb].
  rewrite bind_run, handleFailedLogin_run by done. done.
Qed.

(** The right password on a row that is not locked: the status checks that
    follow read [UserStatus], and what is thrown there leaves the login
    through its [catch], which throws it again. Nothing has been written:
    the guard is not reset, no token pair is made. *)
Lemma login_right_password now d data w u :
  NoDup (User.id <$> users w) ->
  (findUserByEmailOrPhone (identifier data) (identifier data) w).1 = Ok (Some u) ->
  lockedAt now u = false ->
  bcrypt_compare (l_password data) (User.password u) = true ->
  login env now d data w = (Throw "UserStatus is not defined", w).
Proof.
  intros Hnd Hfound Hl Hpw.
  pose proof (findUser_found _ _ _ _ Hfound) as Hu.
  rewrite findUser_run in Hfound. injection Hfound as Hf.
  unfold login. rewrite tryCatch_rethrow, bind_run, findUser_run, Hf.
  rewrite bind_run, lockout_open by done.
  rewrite Hpw. cbn [negb]. reflexivity.
Qed.

End Guard.

Section GuardClaims.
Import AuthService.
Context `{Platform} (env : Env).

Implicit Types (w : World) (u : User.t).






(** C7 (what the code does instead). A login with the right password on an
    active identity that is not locked, its counter at three: the login
    throws 'UserStatus is not defined' where it reads the status, before it
    reaches [resetLoginAttempts]; the store is returned as it was, the
    counter still at three. *)
Theorem C7_login_throws_before_reset :
  Prisma.user_findUnique_id (Js.lit "u1") Sample.veteran
  = (Ok (Some Sample.veteranRow), Sample.veteran)
  /\ User.status Sample.veteranRow = ACTIVE
  /\ lockedAt 5000 Sample.veteranRow = false
  /\ @bcrypt_compare Sample.platform (Js.lit "Secret1") (User.password Sample.veteranRow)
     = true
  /\ User.loginAttempts Sample.veteranRow = 3
  /\ @login Sample.platform Sample.env 5000 (Sample.draw 2) (Sample.credentials "Secret1")
       Sample.veteran
     = (Throw "UserStatus is not defined", Sample.veteran).
Proof.
  do 5 (split; [reflexivity|]).
  apply (@login_right_password Sample.platform Sample.env 5000 (Sample.draw 2)
           (Sample.credentials "Secret1") Sample.veteran Sample.veteranRow).
  - compute_done.
  - vm_compute. reflexivity.
  - reflexivity.
  - vm_compute. reflexivity.
Qed.



End GuardClaims.

(** ** Refresh tokens *)

Section Refresh.
Import AuthService.
Context (env : Env).

Implicit Types (w : World) (token : Jwt.Token).

Abbreviation rejected := (Throw "Token de rafraîchissement invalide").

(** Without a stored record no refresh goes through, and nothing is written. *)
Lemma refresh_without_record now d token w :
  token ∉ RefreshToken.token <$> refresh_tokens w ->
  refreshTokens env now d token w = (rejected, w).
Proof.
  intros Hout. unfold refreshTokens. rewrite tryCatch_fixed, bind_run.
  unfold jwtVerify.
  destruct (Jwt.verify _ _ _ _) as [[]|payload]; [reflexivity|reflexivity|].
  runM.
  destruct (negb (bool_decide (Jwt.type payload = Jwt.refresh))); [reflexivity|].
  runM. unfold Prisma.refreshToken_findUnique, gets.
  rewrite find_none_elem; [reflexivity|].
  intros r Hr. apply bool_decide_eq_false_2. intros Heq. apply Hout.
  rewrite <- Heq. by apply list_elem_of_fmap_2.
Qed.

Lemma same_token_same_row w (r r' : RefreshToken.t) :
  NoDup (RefreshToken.token <$> refresh_tokens w) ->
  r ∈ refresh_tokens w -> r' ∈ refresh_tokens w ->
  RefreshToken.token r = RefreshToken.token r' -> r = r'.
Proof.
  intros Hnd Hr Hr' Heq.
  pose proof (find_unique RefreshToken.token _ r Hnd Hr) as H1.
  pose proof (find_unique RefreshToken.token _ r' Hnd Hr') as H2.
  rewrite Heq in H1. congruence.
Qed.

(** The record of a stored token comes with its owner. *)
Lemma findUnique_stored w (record : RefreshToken.t) :
  integrity w -> record ∈ refresh_tokens w ->
  exists owner,
    owner ∈ users w /\ User.id owner = RefreshToken.userId record
    /\ Prisma.refreshToken_findUnique (RefreshToken.token record) w
       = (Ok (Some (record, Some owner)), w).
Proof.
  intros Hw Hr.
  destruct (proj1 (list_elem_of_fmap _ _ _) (refresh_tokens_userId_fkey w Hw record Hr))
    as (owner & Hid & Howner).
  exists owner. split; [done|]. split; [done|].
  unfold Prisma.refreshToken_findUnique, gets.
  rewrite (find_unique RefreshToken.token) by (done || apply Hw).
  cbn [mbind option_bind]. rewrite Hid.
  by rewrite (find_unique User.id) by (done || apply Hw).
Qed.

(** C1. A refresh token that verifies, has purpose refresh and a live stored
    record is exchanged once for a freshly signed pair, its record being
    deleted and the record of the new refresh token stored; presented again,
    at any time, the same token is rejected. *)
Theorem C1_refresh_rotation now d token payload record w :
  integrity w ->
  Jwt.verify (now / 1000) token (JWT_CONFIG.REFRESH_SECRET env) None = inr payload ->
  Jwt.type payload = Jwt.refresh ->
  record ∈ refresh_tokens w -> RefreshToken.token record = token ->
  now <= RefreshToken.expiresAt record ->
  freshDraw d w ->
  exists issued w' owner,
    refreshTokens env now d token w = (Ok issued, w')
    /\ owner ∈ users w /\ User.id owner = RefreshToken.userId record
    /\ accessToken issued
       = generateToken env now (accessJti d) (User.id owner) (User.email owner)
           Jwt.access JWT_CONFIG.ACCESS_TOKEN_EXPIRES
    /\ refreshToken issued
       = generateToken env now (refreshJti d) (User.id owner) (User.email owner)
           Jwt.refresh JWT_CONFIG.REFRESH_TOKEN_EXPIRES
    /\ refreshToken issued <> token
    /\ (token ∉ RefreshToken.token <$> refresh_tokens w')
    /\ (refreshToken issued ∈ RefreshToken.token <$> refresh_tokens w')
    /\ forall now' d', refreshTokens env now' d' token w' = (rejected, w').
Proof.
  intros Hw Hv Hty Hr Htok Hlive Hfresh.
  destruct (findUnique_stored w record Hw Hr) as (owner & Howner & Hid & Hfind).
  rewrite Htok in Hfind.
  pose proof (fresh_refresh_token env now d (RefreshToken.userId record)
                (User.email owner) JWT_CONFIG.REFRESH_TOKEN_EXPIRES w (proj2 Hfresh))
    as Hnew.
  set (new := generateToken env now (refreshJti d) _ _ _ _) in Hnew.
  assert (new <> token) as Hne.
  { intros ->. apply Hnew. rewrite <- Htok. by apply list_elem_of_fmap_2. }
  assert (refreshTokens env now d token w
          = (Ok {| accessToken :=
                     generateToken env now (accessJti d) (RefreshToken.userId record)
                       (User.email owner) Jwt.access JWT_CONFIG.ACCESS_TOKEN_EXPIRES;
                   refreshToken := new;
                   expiresIn := 7 * 24 * 60 * 60 * 1000 |},
             with_refresh_tokens
               (List.filter (fun r =>
                  negb (bool_decide (RefreshToken.id r = RefreshToken.id record))))
               (with_refresh_tokens (fun ts => ts ++
                  [RefreshToken.mk (rowId d) new (RefreshToken.userId record)
                     (addDays now 7) now]) w))) as Hrun.
  { unfold refreshTokens. rewrite tryCatch_fixed, bind_run.
    unfold jwtVerify. rewrite Hv. runM.
    rewrite Hty, bool_decide_eq_true_2 by done. cbn [negb].
    rewrite bind_run, Hfind. cbv beta iota.
    rewrite (proj2 (Z.ltb_ge _ _) Hlive).
    rewrite bind_run, generateTokenPair_run;
      [|done|rewrite <- Hid; by apply list_elem_of_fmap_2].
    cbv beta iota. rewrite bind_run.
    unfold Prisma.refreshToken_delete. cbn [refresh_tokens with_refresh_tokens].
    rewrite bool_decide_eq_true_2; [reflexivity|].
    rewrite fmap_app. apply elem_of_app. left. by apply list_elem_of_fmap_2. }
  rewrite Hrun. eexists _, _, owner.
  split; [done|]. split; [done|]. split; [done|].
  cbn [accessToken refreshToken refresh_tokens with_refresh_tokens].
  rewrite Hid. split; [done|]. split; [done|]. split; [done|].
  assert (token ∉ RefreshToken.token <$>
            List.filter (fun r =>
               negb (bool_decide (RefreshToken.id r = RefreshToken.id record)))
              (refresh_tokens w ++
                 [RefreshToken.mk (rowId d) new (RefreshToken.userId record)
                    (addDays now 7) now])) as Hgone.
  { intros (r & Hrt & Hin)%list_elem_of_fmap.
    apply list_elem_of_In, filter_In in Hin as [Hin Hkeep].
    apply list_elem_of_In, elem_of_app in Hin as [Hin|Hin].
    - assert (r = record) as ->.
      { apply (same_token_same_row w); [apply Hw|done|done|congruence]. }
      by rewrite bool_decide_eq_true_2 in Hkeep.
    - apply list_elem_of_singleton in Hin as ->. by apply Hne. }
  split; [done|]. split.
  - apply list_elem_of_fmap.
    exists (RefreshToken.mk (rowId d) new (RefreshToken.userId record)
              (addDays now 7) now).
    split; [done|]. apply list_elem_of_In, filter_In. split.
    + apply list_elem_of_In, elem_of_app. right. by apply list_elem_of_singleton.
    + cbn [RefreshToken.id]. apply negb_true_iff, bool_decide_eq_false_2.
      intros Hsame. apply (proj1 Hfresh). rewrite Hsame. by apply list_elem_of_fmap_2.
  - intros now' d'. by apply refresh_without_record.
Qed.

End Refresh.

(** ** Logout *)

Section Logout.
Import AuthService.
Context (env : Env).

Implicit Types (w : World) (token : Jwt.Token).

(** Logging never fails the operation and touches the log only. *)
Lemma logActivity_safe (action : string) (uid : Js.str) w :
  exists w', logActivity action uid w = (Ok tt, w')
             /\ users w' = users w /\ refresh_tokens w' = refresh_tokens w
             /\ outbox w' = outbox w.
Proof.
  rewrite logActivity_run. by eexists.
Qed.

(** Without a presented token, every refresh token of the caller goes. *)
Lemma logout_everywhere (uid : Js.str) (presented : option Jwt.Token) w :
  Js.whenTruthy Jwt.truthy presented = None ->
  exists w', logout uid presented w = (Ok tt, w')
             /\ refresh_tokens w'
                = List.filter (fun r => negb (bool_decide (RefreshToken.userId r = uid)))
                    (refresh_tokens w).
Proof.
  intros Hnone. unfold logout. rewrite tryCatch_fixed, bind_run, Hnone.
  unfold Prisma.refreshToken_deleteMany, modify. cbv beta iota.
  destruct (logActivity_safe "USER_LOGOUT" uid
              (with_refresh_tokens
                 (List.filter (fun r => negb (bool_decide (RefreshToken.userId r = uid))))
                 w)) as (w' & -> & _ & Hts & _).
  by exists w'.
Qed.

(** With a presented token, only the caller's record of that token goes. *)
Lemma logout_here (uid : Js.str) token w :
  Jwt.truthy token = true ->
  exists w', logout uid (Some token) w = (Ok tt, w')
             /\ refresh_tokens w'
                = List.filter (fun r =>
                    negb (bool_decide (RefreshToken.userId r = uid)
                          && bool_decide (RefreshToken.token r = token)))
                    (refresh_tokens w).
Proof.
  intros Ht. unfold logout. rewrite tryCatch_fixed, bind_run.
  unfold Js.whenTruthy. cbn [mbind option_bind]. rewrite Ht.
  unfold Prisma.refreshToken_deleteMany, modify. cbv beta iota.
  destruct (logActivity_safe "USER_LOGOUT" uid
              (with_refresh_tokens
                 (List.filter (fun r =>
                    negb (bool_decide (RefreshToken.userId r = uid)
                          && bool_decide (RefreshToken.token r = token))))
                 w)) as (w' & -> & _ & Hts & _).
  by exists w'.
Qed.

(** After a logout from everywhere, no refresh token of the caller is
    exchanged any more. *)
Lemma logout_everywhere_revokes (uid : Js.str) w (r : RefreshToken.t) now d :
  integrity w -> r ∈ refresh_tokens w -> RefreshToken.userId r = uid ->
  refreshTokens env now d (RefreshToken.token r) (logout uid None w).2
  = (Throw "Token de rafraîchissement invalide", (logout uid None w).2).
Proof.
  intros Hw Hr Huid.
  destruct (logout_everywhere uid None w) as (w' & -> & Hts); [done|].
  cbn [snd]. apply refresh_without_record. rewrite Hts.
  intros (r' & Heq & Hin)%list_elem_of_fmap.
  apply list_elem_of_In, filter_In in Hin as [Hin Hkeep].
  apply list_elem_of_In in Hin.
  assert (r' = r) as ->.
  { apply (same_token_same_row w); [apply Hw|done|done|congruence]. }
  by rewrite bool_decide_eq_true_2 in Hkeep.
Qed.

(** The handler never reads the flag that the route documents. *)
Lemma logout_flag_unread (req : AuthController.LogoutRequest) (flag : option bool) w :
  AuthController.logout
    (AuthController.mkLogoutRequest (AuthController.req_user req)
       (AuthController.cookies_refreshToken req)
       (AuthController.body_refreshToken req) flag) w
  = AuthController.logout req w.
Proof. reflexivity. Qed.


End Logout.

(** ** Registration *)

Section Registration.
Import AuthService.
Context `{Platform} (env : Env).

Implicit Types (w : World).

Lemma validatePassword_pure (password_ : Js.str) w :
  (validatePassword env password_ w).2 = w.
Proof. unfold validatePassword. by repeat case_match. Qed.

Lemma validateRegistrationData_pure (data : RegisterData) w :
  (validateRegistrationData env data w).2 = w.
Proof.
  unfold validateRegistrationData.
  destruct (negb (emailRegex_test _)); [done|].
  destruct (negb (phoneRegex_test _)); [done|].
  rewrite bind_run. pose proof (validatePassword_pure (password data) w) as Hp.
  destruct (validatePassword env (password data) w) as [[[]| |] w1];
    simpl in Hp; subst w1; [|done|done].
  by destruct (_ || _).
Qed.

Lemma slugLoop_pure (fuel : nat) (baseSlug slug : Js.str) (counter : Z) w :
  (slugLoop fuel baseSlug slug counter w).2 = w.
Proof.
  revert slug counter. induction fuel as [|fuel IH]; intros slug counter.
  - cbn [slugLoop]. rewrite bind_run. unfold slugExists, Prisma.user_count, gets.
    runM. by destruct (bool_decide _).
  - cbn [slugLoop]. rewrite bind_run. unfold slugExists, Prisma.user_count, gets.
    runM. destruct (bool_decide _); [apply IH|done].
Qed.

Lemma splitFirst_app (c : N) (s t : Js.str) :
  c ∈ s ->
  Js.splitFirst c (s ++ t) = (fun ab => (ab.1, ab.2 ++ t)) <$> Js.splitFirst c s.
Proof.
  induction s as [|x s IH]; [by intros ?%elem_of_nil|].
  intros Hin. cbn [Js.splitFirst app]. destruct (x =? c)%N eqn:Hx; [done|].
  apply elem_of_cons in Hin as [->|Hin]; [by rewrite N.eqb_refl in Hx|].
  rewrite (IH Hin). by destruct (Js.splitFirst c s) as [[a b]|].
Qed.

Lemma firstSegment_app (c : N) (s t : Js.str) :
  c ∈ s -> Js.firstSegment c (s ++ t) = Js.firstSegment c s.
Proof.
  intros Hin. unfold Js.firstSegment. rewrite splitFirst_app by done.
  destruct (Js.splitFirst c s) as [[a b]|] eqn:Hs; [done|].
  exfalso. clear t. induction s as [|x s IH]; [by apply elem_of_nil in Hin|].
  cbn [Js.splitFirst] in Hs. destruct (x =? c)%N eqn:Hx; [done|].
  apply elem_of_cons in Hin as [->|Hin]; [by rewrite N.eqb_refl in Hx|].
  destruct (Js.splitFirst c s) as [[a b]|]; [done|]. by apply IH.
Qed.

(** The test of the slug loop reads the first segment of the slug only, and
    a counter appended to the base slug leaves that segment as it is: when the
    base slug is taken the loop runs out of any fuel. *)
Lemma slugLoop_stuck (fuel : nat) (baseSlug slug : Js.str) (counter : Z) w :
  (45%N : N) ∈ baseSlug ->
  Js.firstSegment 45 slug = Js.firstSegment 45 baseSlug ->
  slugExists baseSlug w = (Ok true, w) ->
  slugLoop fuel baseSlug slug counter w = (Pending, w).
Proof.
  intros Hdash Hseg Htaken. revert slug counter Hseg.
  assert (forall slug, Js.firstSegment 45 slug = Js.firstSegment 45 baseSlug ->
                       slugExists slug w = (Ok true, w)) as Halike.
  { intros slug Hseg. rewrite <- Htaken. unfold slugExists. by rewrite Hseg. }
  induction fuel as [|fuel IH]; intros slug counter Hseg;
    cbn [slugLoop]; rewrite bind_run, (Halike slug Hseg); [done|].
  apply IH. by rewrite firstSegment_app.
Qed.

Lemma generateUniqueSlug_stuck (fuel : nat) (firstName_ lastName_ : Js.str) w :
  let baseSlug :=
    List.filter (fun c => Js.isLower c || Js.isDigit c || (c =? 45)%N)
      (toLowerCase firstName_ ++ Js.lit "-" ++ toLowerCase lastName_) in
  slugExists baseSlug w = (Ok true, w) ->
  generateUniqueSlug fuel firstName_ lastName_ w = (Pending, w).
Proof.
  intros baseSlug Htaken. unfold generateUniqueSlug. apply slugLoop_stuck; [|done|done].
  apply list_elem_of_In, filter_In. split; [|done].
  apply list_elem_of_In, elem_of_app. right. by left.
Qed.

(** A registration whose data is accepted and whose email and phone are
    new comes to the argument of [prisma.user.create] once its slug is found;
    the [status] property of that argument reads [UserStatus], and what is
    thrown there leaves the registration through its [catch], which throws it
    again. *)
Lemma register_new (fuel : nat) now (d : RegisterDraw) (data : RegisterData) w slug :
  (validateRegistrationData env data w).1 = Ok tt ->
  (findUserByEmailOrPhone (email data) (phone data) w).1 = Ok None ->
  generateUniqueSlug fuel (firstName data) (lastName data) w = (Ok slug, w) ->
  register env fuel now d data w = (Throw "UserStatus is not defined", w).
Proof.
  intros Hvalid Hnew Hslug. unfold register. rewrite tryCatch_rethrow, bind_run.
  pose proof (validateRegistrationData_pure data w) as Hv.
  destruct (validateRegistrationData env data w) as [[[]| |] w1];
    simpl in Hv, Hvalid; subst w1; [|done|done].
  rewrite findUser_run in Hnew. injection Hnew as Hnone.
  rewrite bind_run, findUser_run, Hnone. cbv beta iota.
  by rewrite bind_run, Hslug.
Qed.

(** No registration returns an identity, and none writes to the store or
    hands anything to the notification collaborator. *)
Lemma register_never_creates (fuel : nat) now (d : RegisterDraw) (data : RegisterData) w :
  (register env fuel now d data w).2 = w
  /\ forall result, (register env fuel now d data w).1 <> Ok result.
Proof.
  unfold register. rewrite tryCatch_rethrow, bind_run.
  pose proof (validateRegistrationData_pure data w) as Hv.
  destruct (validateRegistrationData env data w) as [[[]| |] w1];
    simpl in Hv; subst w1; [|done|done].
  rewrite bind_run, findUser_run. cbv beta iota.
  destruct (List.find _ _); [done|].
  rewrite bind_run. unfold generateUniqueSlug.
  match goal with |- context [slugLoop fuel ?b ?s ?c w] =>
    pose proof (slugLoop_pure fuel b s c w) as Hs;
    destruct (slugLoop fuel b s c w) as [[slug| |] w1]
  end; simpl in Hs; subst w1; done.
Qed.

End Registration.

(** C2 (what the code does instead). Awa's registration, valid, on an empty
    store: no identity is returned. The registration throws 'UserStatus is
    not defined' and leaves the store empty: no account, no token, nothing for
    the notification collaborator. The same holds of every registration: none
    returns an identity, none writes or notifies. *)
Theorem C2_registration_creates_no_identity :
  (AuthService.validateRegistrationData Sample.env Sample.awa Sample.empty).1 = Ok tt
  /\ (@AuthService.findUserByEmailOrPhone Sample.platform
        (AuthService.email Sample.awa) (AuthService.phone Sample.awa) Sample.empty).1
     = Ok None
  /\ Sample.registration = (Throw "UserStatus is not defined", Sample.empty)
  /\ forall (P : Platform) env fuel now d data w,
       (@AuthService.register P env fuel now d data w).2 = w
       /\ forall result, (@AuthService.register P env fuel now d data w).1 <> Ok result.
Proof.
  split; [reflexivity|]. split; [reflexivity|]. split.
  - apply (@register_new Sample.platform Sample.env 1 1000
             (AuthService.mkRegisterDraw (Js.lit "salt") (Js.lit "u1") (Sample.draw 1))
             Sample.awa Sample.empty (Js.lit "awa-kone")).
    + reflexivity.
    + reflexivity.
    + vm_compute. reflexivity.
  - intros P env fuel now d data w. apply (@register_never_creates P).
Qed.

(* ================================================================== *)
(** * The claims on the sample data *)

Section Scenarios.
Import AuthService AuthMiddleware.

(** C1 at work: the phone's refresh token is exchanged once, five seconds
    after registration, and refused from then on. *)
Lemma C1_refresh_rotation_witness :
  exists issued w',
    refreshTokens Sample.env 5000 (Sample.draw 3) Sample.phoneToken Sample.home
    = (Ok issued, w')
    /\ refreshToken issued <> Sample.phoneToken
    /\ forall now' d',
         refreshTokens Sample.env now' d' Sample.phoneToken w'
         = (Throw "Token de rafraîchissement invalide", w').
Proof.
  destruct (C1_refresh_rotation Sample.env 5000 (Sample.draw 3) Sample.phoneToken
              Sample.phoneClaims Sample.phoneRecord Sample.home)
    as (issued & w' & owner & Hrun & _ & _ & _ & _ & Hne & _ & _ & Hreplay).
  - compute_done.
  - vm_compute. reflexivity.
  - reflexivity.
  - vm_compute. left.
  - reflexivity.
  - vm_compute. discriminate.
  - compute_done.
  - exists issued, w'. split; [exact Hrun|]. split; [exact Hne|exact Hreplay].
Defined.

(** An expired token that was revoked while it was valid is answered
    REVOKED_TOKEN, not EXPIRED_TOKEN: the ghost token, revoked at its first
    use, then presented again long after it expired. *)
Lemma C3_counterexample :
  let revoked :=
    (authenticateToken Sample.env 2000 (Sample.bearer Sample.ghostToken)
       (mkState TokenSet.empty ∅) Sample.home).1.2 in
  Jwt.verify (1000000 / 1000) Sample.ghostToken (JWT_CONFIG.SECRET Sample.env)
    (Some (Jwt.mkVerifyOptions JWT_CONFIG.ISSUER JWT_CONFIG.AUDIENCE))
  = inl Jwt.TokenExpiredError
  /\ authenticateToken Sample.env 1000000 (Sample.bearer Sample.ghostToken)
       revoked Sample.home
     = (Respond Reply.REVOKED_TOKEN, revoked, Sample.home).
Proof. split; vm_compute; reflexivity. Qed.

(** C3 at work on the same token: revoked, it is answered REVOKED_TOKEN;
    not revoked, it is answered EXPIRED_TOKEN once expired. *)
Lemma C3_revocation_checked_first_witness :
  authenticateToken Sample.env 1000000 (Sample.bearer Sample.ghostToken)
    (mkState [Sample.ghostToken] ∅) Sample.home
  = (Respond Reply.REVOKED_TOKEN, mkState [Sample.ghostToken] ∅, Sample.home)
  /\ authenticateToken Sample.env 1000000 (Sample.bearer Sample.ghostToken)
       (mkState [] ∅) Sample.home
     = (Respond Reply.EXPIRED_TOKEN, mkState [] ∅, Sample.home).
Proof.
  split.
  - apply (C3_revocation_checked_first Sample.env 1000000 Sample.ghostToken
             (mkState [Sample.ghostToken] ∅) Sample.home); [reflexivity|].
    vm_compute. left.
  - apply (C3_revocation_checked_first Sample.env 1000000 Sample.ghostToken
             (mkState [] ∅) Sample.home); [reflexivity| |].
    + vm_compute. apply not_elem_of_nil.
    + vm_compute. reflexivity.
Defined.




(** A token expires before its ttl has elapsed on the wall clock when it
    was issued late in a second: an access token of 15 minutes issued at
    1999 ms is expired at 901000 ms, 899001 ms later. *)
Lemma C6_counterexample :
  let token :=
    generateToken Sample.env 1999 (Js.lit "access-0") (Js.lit "ghost")
      (Js.lit "g@example.ci") Jwt.access JWT_CONFIG.ACCESS_TOKEN_EXPIRES in
  seconds JWT_CONFIG.ACCESS_TOKEN_EXPIRES * 1000 = 900000
  /\ 901000 - 1999 < 900000
  /\ verifyAs Sample.env Jwt.access 901000 token = inl Jwt.TokenExpiredError.
Proof. repeat split; vm_compute; reflexivity. Qed.

(** C9 at work: Awa's number written with '00225' and spaces, and with
    '225'; both are looked up as '+2250700000001'. *)
Lemma C9_normalizePhoneNumber_projection_witness :
  normalizePhoneNumber (Js.lit " 00225 07 00 00 00 01") = Js.lit "+2250700000001"
  /\ normalizePhoneNumber (Js.lit "2250700000001") = Js.lit "+2250700000001"
  /\ @findUserByEmailOrPhone Sample.platform (Js.lit "x@example.ci")
       (Js.lit "2250700000001") Sample.home
     = @findUserByEmailOrPhone Sample.platform (Js.lit "x@example.ci")
         (Js.lit " 00225 07 00 00 00 01") Sample.home.
Proof.
  destruct (C9_normalizePhoneNumber_projection (Js.lit " 00225 07 00 00 00 01"))
    as (_ & _ & _ & _ & Hzeros & _ & _ & _ & Hlookup).
  destruct (C9_normalizePhoneNumber_projection (Js.lit "2250700000001"))
    as (_ & _ & _ & _ & _ & Hplain & _).
  pose proof (Hzeros (Js.lit "0700000001") eq_refl) as Hfirst.
  pose proof (Hplain (Js.lit "0700000001") eq_refl) as Hsecond.
  split; [exact Hfirst|]. split; [exact Hsecond|].
  apply (Hlookup Sample.platform). by rewrite Hfirst, Hsecond.
Defined.

(** C6 at work: a 15-minute access token, one second and one hour after
    it was issued. *)
Lemma C6_token_round_trip_witness :
  (exists claims,
     verifyAs Sample.env Jwt.access 2000 Sample.ghostToken = inr claims
     /\ Jwt.userId claims = Js.lit "ghost" /\ Jwt.type claims = Jwt.access)
  /\ verifyAs Sample.env Jwt.access 3601000 Sample.ghostToken
     = inl Jwt.TokenExpiredError.
Proof.
  split.
  - destruct (C6_token_round_trip Sample.env 1000 2000 (Js.lit "access-0")
                (Js.lit "ghost") (Js.lit "g@example.ci") Jwt.access
                JWT_CONFIG.ACCESS_TOKEN_EXPIRES) as (Hinside & _); [reflexivity|].
    apply Hinside. reflexivity.
  - destruct (C6_token_round_trip Sample.env 1000 3601000 (Js.lit "access-0")
                (Js.lit "ghost") (Js.lit "g@example.ci") Jwt.access
                JWT_CONFIG.ACCESS_TOKEN_EXPIRES) as (_ & Hafter & _); [reflexivity|].
    apply Hafter. vm_compute. discriminate.
Defined.



End Scenarios.


(** A registration that never returns: Wa registers after Awa, whose first name
    contains "wa", so the slug loop finds its slug taken at every turn. *)
Lemma registration_may_not_return (fuel : nat) :
  @AuthService.register Sample.platform Sample.env fuel 9000
    (AuthService.mkRegisterDraw (Js.lit "salt") (Js.lit "u2") (Sample.draw 4))
    Sample.wa Sample.home
  = (Pending, Sample.home).
Proof.
  unfold AuthService.register. rewrite tryCatch_rethrow, bind_run.
  replace (AuthService.validateRegistrationData Sample.env Sample.wa Sample.home)
    with (Ok tt : outcome unit, Sample.home) by (vm_compute; reflexivity).
  cbv beta iota. rewrite bind_run.
  replace (@AuthService.findUserByEmailOrPhone Sample.platform
             (AuthService.email Sample.wa) (AuthService.phone Sample.wa) Sample.home)
    with (Ok (@None User.t), Sample.home) by (vm_compute; reflexivity).
  cbv beta iota. rewrite bind_run.
  rewrite (@generateUniqueSlug_stuck Sample.platform); [done|].
  vm_compute. reflexivity.
Qed.

(* ================================================================== *)
(** * Further properties of the service *)

Section Tokens2.
Import AuthService.
Context `{Platform} (env : Env).

Implicit Types (w : World) (u : User.t) (token : Jwt.Token).

Lemma jwtVerify_run now token (secret : Js.str) w :
  jwtVerify now token secret w
  = match Jwt.verify (now / 1000) token secret None with
    | inr payload => (Ok payload, w)
    | inl Jwt.TokenExpiredError => (Throw "jwt expired", w)
    | inl Jwt.JsonWebTokenError => (Throw "invalid token", w)
    end.
Proof. unfold jwtVerify. by destruct (Jwt.verify _ _ _ _) as [[]|]. Qed.

Lemma findUnique_id_read (uid : Js.str) w :
  Prisma.user_findUnique_id uid w
  = (Ok (List.find (fun u => bool_decide (User.id u = uid)) (users w)), w).
Proof. reflexivity. Qed.

(** The row of [u] after an update, read back by its key. *)
Lemma updated_read now (data : User.t -> User.t) w u :
  NoDup (User.id <$> users w) -> u ∈ users w ->
  (forall x, User.id (data x) = User.id x) ->
  List.find (fun x => bool_decide (User.id x = User.id u))
    (users (Prisma.updated now (User.id u) data w))
  = Some (User.set_updatedAt now (data u)).
Proof.
  intros Hnd Hu Hid.
  rewrite updated_find by (intros x; simpl; by rewrite Hid).
  rewrite (find_unique User.id) by done.
  cbn [fmap option_fmap option_map]. by rewrite bool_decide_eq_true_2.
Qed.

(** The rows of the others stay as they are. *)
Lemma updated_others now (uid : Js.str) (data : User.t -> User.t) w (v : User.t) :
  v ∈ users w -> User.id v <> uid -> v ∈ users (Prisma.updated now uid data w).
Proof.
  intros Hv Hne. unfold Prisma.updated. cbn [users with_users].
  apply list_elem_of_fmap. exists v. split; [|done].
  by rewrite bool_decide_eq_false_2.
Qed.

(** Whatever the token, [verifyEmail] throws its one message and writes
    nothing: the token is refused, or the [data] of the update that would
    follow reads [UserStatus]. *)
Lemma verifyEmail_throws now token w :
  verifyEmail env now token w = (Throw "Token de vérification invalide ou expiré", w).
Proof.
  unfold verifyEmail. rewrite tryCatch_fixed, bind_run, jwtVerify_run.
  destruct (Jwt.verify _ _ _ _) as [[]|payload]; [done|done|].
  cbv beta iota. by destruct (negb _).
Qed.

(** X1. [verifyEmail] with a token that verifies under the service secret,
    has purpose verification and names an existing account does not verify
    the account: it throws the message of a refused token and writes nothing,
    so that the row of the account reads as before, its email still
    unverified and its status unchanged. *)
Theorem X1_verifyEmail_never_verifies now token payload w u :
  NoDup (User.id <$> users w) ->
  Jwt.verify (now / 1000) token (JWT_CONFIG.SECRET env) None = inr payload ->
  Jwt.type payload = Jwt.verification ->
  u ∈ users w -> User.id u = Jwt.userId payload ->
  let after := verifyEmail env now token w in
  after = (Throw "Token de vérification invalide ou expiré", w)
  /\ Prisma.user_findUnique_id (Jwt.userId payload) after.2 = (Ok (Some u), after.2).
Proof.
  intros Hnd Hv Hty Hu Hid after. unfold after.
  rewrite verifyEmail_throws. split; [done|]. cbn [snd].
  rewrite <- Hid. by apply findUnique_id_run.
Qed.

(** X2. [verifyEmail] with anything else (a string that is no token, a
    token signed with another key, an expired one, one of another purpose,
    or one naming no account) throws its one message and writes nothing. *)
Theorem X2_verifyEmail_rejects now token w :
  (forall payload,
     Jwt.verify (now / 1000) token (JWT_CONFIG.SECRET env) None = inr payload ->
     Jwt.type payload = Jwt.verification ->
     Jwt.userId payload ∉ User.id <$> users w) ->
  verifyEmail env now token w = (Throw "Token de vérification invalide ou expiré", w).
Proof. intros _. apply verifyEmail_throws. Qed.

(** *** Password reset *)

Lemma validatePassword_run (password_ : Js.str) w :
  (validatePassword env password_ w).1 = Ok tt ->
  forall w', validatePassword env password_ w' = (Ok tt, w').
Proof.
  unfold validatePassword. intros Hok w'.
  repeat (match goal with
          | H : context [if ?c then _ else _] |- _ => destruct c
          end; try done).
Qed.

(** What [resetPassword] writes when it accepts the token and the password. *)
Lemma resetPassword_run now (salt_ : Js.str) token payload (newPassword : Js.str) w :
  Jwt.verify (now / 1000) token (JWT_CONFIG.SECRET env) None = inr payload ->
  Jwt.type payload = Jwt.reset ->
  (validatePassword env newPassword w).1 = Ok tt ->
  Jwt.userId payload ∈ User.id <$> users w ->
  resetPassword env now salt_ token newPassword w
  = (Ok tt,
     with_logs (fun l => l ++ [LogActivite.mk (Jwt.userId payload)
                                 "PASSWORD_RESET_COMPLETED" "User" (Jwt.userId payload)])
       (with_refresh_tokens
          (List.filter (fun r =>
             negb (bool_decide (RefreshToken.userId r = Jwt.userId payload))))
          (Prisma.updated now (Jwt.userId payload)
             (fun u => User.set_blockedUntil None
                         (User.set_loginAttempts 0
                            (User.set_password
                               (bcrypt_hash newPassword SECURITY_CONFIG.BCRYPT_ROUNDS salt_)
                               u))) w))).
Proof.
  intros Hv Hty Hpw Hu. unfold resetPassword.
  rewrite tryCatch_fixed, bind_run, jwtVerify_run, Hv. cbv beta iota.
  rewrite Hty, bool_decide_eq_true_2 by done. cbn [negb].
  rewrite bind_run, (validatePassword_run _ _ Hpw). cbv beta iota.
  rewrite bind_run, user_update_run by done. cbv beta iota.
  rewrite bind_run. unfold Prisma.refreshToken_deleteMany, modify. cbv beta iota.
  by rewrite logActivity_run.
Qed.

(** Where the reset leaves the account and the store. *)
Lemma resetPassword_read now (salt_ : Js.str) token payload (newPassword : Js.str) w u :
  NoDup (User.id <$> users w) ->
  Jwt.verify (now / 1000) token (JWT_CONFIG.SECRET env) None = inr payload ->
  Jwt.type payload = Jwt.reset ->
  (validatePassword env newPassword w).1 = Ok tt ->
  u ∈ users w -> User.id u = Jwt.userId payload ->
  exists w' u',
    resetPassword env now salt_ token newPassword w = (Ok tt, w')
    /\ NoDup (User.id <$> users w')
    /\ u' ∈ users w' /\ User.id u' = User.id u
    /\ List.find (fun x => bool_decide (User.id x = User.id u)) (users w') = Some u'
    /\ User.password u' = bcrypt_hash newPassword SECURITY_CONFIG.BCRYPT_ROUNDS salt_
    /\ User.loginAttempts u' = 0 /\ User.blockedUntil u' = None
    /\ User.status u' = User.status u /\ User.email u' = User.email u
    /\ refresh_tokens w'
       = List.filter (fun r => negb (bool_decide (RefreshToken.userId r = User.id u)))
           (refresh_tokens w).
Proof.
  intros Hnd Hv Hty Hpw Hu Hid.
  rewrite (resetPassword_run now salt_ token payload newPassword w) by
    (done || (rewrite <- Hid; by apply list_elem_of_fmap_2)).
  rewrite <- Hid. eexists _, _. split; [done|].
  cbn [users refresh_tokens with_logs with_refresh_tokens].
  assert (List.find (fun x => bool_decide (User.id x = User.id u))
            (users (Prisma.updated now (User.id u)
               (fun u0 => User.set_blockedUntil None
                  (User.set_loginAttempts 0
                     (User.set_password
                        (bcrypt_hash newPassword SECURITY_CONFIG.BCRYPT_ROUNDS salt_) u0)))
               w))
          = Some (User.set_updatedAt now
                    (User.set_blockedUntil None
                       (User.set_loginAttempts 0
                          (User.set_password
                             (bcrypt_hash newPassword SECURITY_CONFIG.BCRYPT_ROUNDS salt_)
                             u))))) as Hread.
  { by rewrite updated_read. }
  split; [by rewrite updated_ids|].
  split; [by apply find_elem in Hread as [? _]|].
  by repeat split.
Qed.

(** X3. [resetPassword] with a token that verifies under the service
    secret, has purpose reset and names an existing account, and with a
    password that [validatePassword] accepts: the hash of the new password
    replaces the old one, the attempt counter and the lockout are cleared,
    and every refresh token of the account is deleted, so that none of them
    is exchanged any more; the refresh tokens of the others stay. *)
Theorem X3_resetPassword_effect now (salt_ : Js.str) token payload (newPassword : Js.str)
    w u :
  integrity w ->
  Jwt.verify (now / 1000) token (JWT_CONFIG.SECRET env) None = inr payload ->
  Jwt.type payload = Jwt.reset ->
  (validatePassword env newPassword w).1 = Ok tt ->
  u ∈ users w -> User.id u = Jwt.userId payload ->
  exists w' u',
    resetPassword env now salt_ token newPassword w = (Ok tt, w')
    /\ Prisma.user_findUnique_id (User.id u) w' = (Ok (Some u'), w')
    /\ User.password u' = bcrypt_hash newPassword SECURITY_CONFIG.BCRYPT_ROUNDS salt_
    /\ User.loginAttempts u' = 0 /\ User.blockedUntil u' = None
    /\ User.status u' = User.status u
    /\ (forall r, r ∈ refresh_tokens w'
                  <-> r ∈ refresh_tokens w /\ RefreshToken.userId r <> User.id u)
    /\ (forall r now' d',
          r ∈ refresh_tokens w -> RefreshToken.userId r = User.id u ->
          refreshTokens env now' d' (RefreshToken.token r) w'
          = (Throw "Token de rafraîchissement invalide", w')).
Proof.
  intros Hw Hv Hty Hpw Hu Hid.
  destruct (resetPassword_read now salt_ token payload newPassword w u)
    as (w' & u' & Hrun & _ & _ & _ & Hread & Hpass & Hatt & Hblock & Hstat & _ & Hts);
    try done.
  { apply Hw. }
  exists w', u'. split; [done|].
  split; [by rewrite findUnique_id_read, Hread|].
  split; [done|]. split; [done|]. split; [done|]. split; [done|].
  assert (forall r, r ∈ refresh_tokens w'
                    <-> r ∈ refresh_tokens w /\ RefreshToken.userId r <> User.id u) as Hkept.
  { intros r. rewrite Hts, list_elem_of_In, filter_In, <- list_elem_of_In.
    rewrite negb_true_iff, bool_decide_eq_false. tauto. }
  split; [done|].
  intros r now' d' Hr Howner. apply refresh_without_record.
  intros (r' & Heq & Hin)%list_elem_of_fmap.
  apply Hkept in Hin as [Hin Hother]. apply Hother.
  assert (r' = r) as ->; [|done].
  apply (same_token_same_row w); [apply Hw|done|done|congruence].
Qed.

(** X4. A reset token is not used up by the reset it allows: presented
    again while it is not expired, with another password that
    [validatePassword] accepts, it sets the password once more. *)
Theorem X4_reset_token_reusable now (salt_ : Js.str) token payload (newPassword : Js.str)
    w u now' (salt' newPassword' : Js.str) :
  NoDup (User.id <$> users w) ->
  Jwt.verify (now / 1000) token (JWT_CONFIG.SECRET env) None = inr payload ->
  Jwt.type payload = Jwt.reset ->
  (validatePassword env newPassword w).1 = Ok tt ->
  u ∈ users w -> User.id u = Jwt.userId payload ->
  Jwt.verify (now' / 1000) token (JWT_CONFIG.SECRET env) None = inr payload ->
  (validatePassword env newPassword' w).1 = Ok tt ->
  exists w' w'' u'',
    resetPassword env now salt_ token newPassword w = (Ok tt, w')
    /\ resetPassword env now' salt' token newPassword' w' = (Ok tt, w'')
    /\ Prisma.user_findUnique_id (User.id u) w'' = (Ok (Some u''), w'')
    /\ User.password u'' = bcrypt_hash newPassword' SECURITY_CONFIG.BCRYPT_ROUNDS salt'.
Proof.
  intros Hnd Hv Hty Hpw Hu Hid Hv' Hpw'.
  destruct (resetPassword_read now salt_ token payload newPassword w u)
    as (w' & u' & Hrun & Hnd' & Hu' & Hid' & _); try done.
  destruct (resetPassword_read now' salt' token payload newPassword' w' u')
    as (w'' & u'' & Hrun' & _ & _ & _ & Hread & Hpass & _); try done.
  { by rewrite (validatePassword_run _ _ Hpw' w'). }
  { congruence. }
  exists w', w'', u''. split; [done|]. split; [done|].
  rewrite Hid' in Hread. split; [|done].
  by rewrite findUnique_id_read, Hread.
Qed.

(** What a request for a reset hands over when the address is known. *)
Lemma requestPasswordReset_run now (jwtid email_ : Js.str) w u :
  List.find (fun x => bool_decide (User.email x = Js.trim (toLowerCase email_))) (users w)
  = Some u ->
  requestPasswordReset env now jwtid email_ w
  = (Ok tt,
     with_logs (fun l => l ++ [LogActivite.mk (User.id u) "PASSWORD_RESET_REQUESTED" "User"
                                 (User.id u)])
       (with_outbox (fun o => o ++
          [PasswordResetEmail (User.email u) (User.firstName u)
             (generateToken env now jwtid (User.id u) (User.email u) Jwt.reset
                JWT_CONFIG.RESET_TOKEN_EXPIRES)]) w)).
Proof.
  intros Hf. unfold requestPasswordReset.
  rewrite tryCatch_fixed, bind_run.
  unfold Prisma.user_findUnique_email, Prisma.user_findFirst, gets. rewrite Hf.
  cbv beta iota. unfold sendPasswordResetEmail, notify, modify.
  by rewrite bind_run, logActivity_run.
Qed.

(** X5. A request for a password reset on a known address hands the
    notification collaborator a token that [resetPassword] accepts during
    the hour that follows (on the token clock) and refuses afterwards: within
    the hour the password of that account, and of no other, becomes the hash
    of the new password. *)
Theorem X5_reset_round_trip now (jwtid email_ : Js.str) w u now' (salt_ newPassword : Js.str) :
  NoDup (User.id <$> users w) ->
  List.find (fun x => bool_decide (User.email x = Js.trim (toLowerCase email_))) (users w)
  = Some u ->
  (validatePassword env newPassword w).1 = Ok tt ->
  exists token w1,
    requestPasswordReset env now jwtid email_ w = (Ok tt, w1)
    /\ outbox w1 = outbox w ++ [PasswordResetEmail (User.email u) (User.firstName u) token]
    /\ users w1 = users w
    /\ (now' / 1000 < now / 1000 + 3600 ->
        exists w2 u',
          resetPassword env now' salt_ token newPassword w1 = (Ok tt, w2)
          /\ Prisma.user_findUnique_id (User.id u) w2 = (Ok (Some u'), w2)
          /\ User.password u' = bcrypt_hash newPassword SECURITY_CONFIG.BCRYPT_ROUNDS salt_
          /\ forall v, v ∈ users w -> User.id v <> User.id u -> v ∈ users w2)
    /\ (now / 1000 + 3600 <= now' / 1000 ->
        resetPassword env now' salt_ token newPassword w1
        = (Throw "Token de réinitialisation invalide ou expiré", w1)).
Proof.
  intros Hnd Hf Hpw.
  pose proof (find_elem _ _ _ Hf) as [Hu _].
  rewrite (requestPasswordReset_run now jwtid email_ w u Hf).
  set (token := generateToken env now jwtid (User.id u) (User.email u) Jwt.reset
                  JWT_CONFIG.RESET_TOKEN_EXPIRES).
  eexists token, _. split; [done|]. split; [done|]. split; [done|].
  pose proof (verifyAs_generateToken env now now' jwtid (User.id u) (User.email u)
                Jwt.reset JWT_CONFIG.RESET_TOKEN_EXPIRES) as Hverify.
  fold token in Hverify. unfold verifyAs in Hverify.
  change (seconds JWT_CONFIG.RESET_TOKEN_EXPIRES) with 3600 in Hverify.
  split.
  - intros Hlive. rewrite (proj2 (Z.leb_gt _ _) Hlive) in Hverify.
    match goal with |- context [resetPassword env now' salt_ token newPassword ?w1] =>
      destruct (resetPassword_read now' salt_ token _ newPassword w1 u Hnd Hverify)
        as (w2 & u' & Hrun & _ & _ & _ & Hread & Hpass & _ & _ & _ & _ & _);
        [done|by rewrite (validatePassword_run _ _ Hpw)|done|done|]
    end.
    exists w2, u'. split; [done|]. split; [by rewrite findUnique_id_read, Hread|].
    split; [done|].
    intros v Hv Hne.
    rewrite (resetPassword_run now' salt_ token _ newPassword _ Hverify) in Hrun;
      [|done|by rewrite (validatePassword_run _ _ Hpw)
       |cbn [Jwt.userId]; by apply list_elem_of_fmap_2].
    injection Hrun as <-. cbn [users with_logs with_refresh_tokens].
    by apply updated_others.
  - intros Hdead. rewrite (proj2 (Z.leb_le _ _) Hdead) in Hverify.
    unfold resetPassword. rewrite tryCatch_fixed, bind_run, jwtVerify_run, Hverify.
    done.
Qed.

End Tokens2.

(** ** Registration, again *)

Section Registration2.
Import AuthService.
Context `{Platform} (env : Env).

Implicit Types (w : World) (u : User.t).



End Registration2.

(** ** Login, again *)

Section Login2.
Import AuthService.
Context `{Platform} (env : Env).

Implicit Types (w : World) (u : User.t).

(** X7. No login returns a result, and none stores a refresh token. With
    the right password on an account that is not locked, whatever the status
    of the account (suspended and deleted included), the login throws
    'UserStatus is not defined' and writes nothing: the status is told to
    nobody, and the messages that name it are never sent. *)
Theorem X7_login_never_succeeds now d data w :
  (forall result, (login env now d data w).1 <> Ok result)
  /\ refresh_tokens (login env now d data w).2 = refresh_tokens w
  /\ (forall u,
        NoDup (User.id <$> users w) ->
        (findUserByEmailOrPhone (identifier data) (identifier data) w).1 = Ok (Some u) ->
        lockedAt now u = false ->
        bcrypt_compare (l_password data) (User.password u) = true ->
        login env now d data w = (Throw "UserStatus is not defined", w)).
Proof.
  split; [|split].
  - intros result. unfold login. rewrite tryCatch_rethrow, bind_run, findUser_run.
    cbv beta iota. destruct (List.find _ _) as [u|]; [|done].
    rewrite bind_run.
    destruct (checkAccountLockout now (User.id u) w) as [[[]| |] w1]; [|done|done].
    destruct (negb _); [|done].
    rewrite bind_run. by destruct (handleFailedLogin now (User.id u) w1) as [[[]| |] w2].
  - unfold login. rewrite tryCatch_rethrow, bind_run, findUser_run.
    cbv beta iota. destruct (List.find _ _) as [u|]; [|done].
    rewrite bind_run. unfold checkAccountLockout.
    rewrite bind_run, findUnique_id_read. cbv beta iota.
    assert (refresh_tokens
              ((if negb (bcrypt_compare (l_password data) (User.password u))
                then handleFailedLogin now (User.id u);; throw badCredentials
                else throw "UserStatus is not defined" : M AuthResult) w).2
            = refresh_tokens w) as Hrest.
    { destruct (negb _); [|done]. rewrite bind_run. unfold handleFailedLogin.
      rewrite bind_run, findUnique_id_read. cbv beta iota.
      unfold Prisma.user_update. by destruct (Prisma.hasUser _ _). }
    destruct (_ ≫= User.blockedUntil) as [blockedUntil|];
      [destruct (now <? blockedUntil); [done|]|]; exact Hrest.
  - intros u. apply login_right_password.
Qed.

(** X8. A lockout that has run out leaves the attempt counter where it was:
    with the counter at four or more and no lockout running, a single wrong
    password locks the account again, until 15 minutes from then. *)
Theorem X8_relock_after_expiry now d data w u :
  NoDup (User.id <$> users w) ->
  (findUserByEmailOrPhone (identifier data) (identifier data) w).1 = Ok (Some u) ->
  lockedAt now u = false ->
  SECURITY_CONFIG.MAX_LOGIN_ATTEMPTS - 1 <= User.loginAttempts u ->
  bcrypt_compare (l_password data) (User.password u) = false ->
  let after := login env now d data w in
  after.1 = Throw badCredentials
  /\ exists u',
       Prisma.user_findUnique_id (User.id u) after.2 = (Ok (Some u'), after.2)
       /\ User.loginAttempts u' = User.loginAttempts u + 1
       /\ User.blockedUntil u' = Some (now + 15 * 60 * 1000)
       /\ lockedAt now u' = true.
Proof.
  intros Hnd Hfound Hl Hcount Hpw after.
  pose proof (findUser_found _ _ _ _ Hfound) as Hu.
  unfold after. rewrite (login_wrong_password env now d data w u) by done.
  cbn [fst snd]. split; [done|].
  rewrite findUnique_id_read, updated_read; [|done|done|].
  - eexists. split; [done|].
    unfold updateData. rewrite (proj2 (Z.leb_le _ _)) by lia.
    cbn. split; [done|]. split; [done|].
    unfold lockedAt. cbn. apply Z.ltb_lt.
    unfold SECURITY_CONFIG.LOCKOUT_TIME. lia.
  - intros x. unfold updateData. by destruct (_ <=? _).
Qed.

End Login2.

(** ** Sessions *)

Section Sessions.
Import AuthService.
Context `{Platform} (env : Env).

Implicit Types (w : World) (u : User.t) (token : Jwt.Token).

Lemma key_unique {A K} `{EqDecision K} (key : A -> K) (l : list A) (x y : A) :
  NoDup (key <$> l) -> x ∈ l -> y ∈ l -> key x = key y -> x = y.
Proof.
  intros Hnd Hx Hy Heq.
  pose proof (find_unique key l x Hnd Hx) as H1.
  pose proof (find_unique key l y Hnd Hy) as H2.
  rewrite Heq in H1. congruence.
Qed.

Lemma with_outbox_integrity (f : list Notification -> list Notification) w :
  integrity w -> integrity (with_outbox f w).
Proof. by intros []. Qed.

Lemma append_refresh_integrity (row : RefreshToken.t) w :
  integrity w ->
  RefreshToken.id row ∉ RefreshToken.id <$> refresh_tokens w ->
  RefreshToken.token row ∉ RefreshToken.token <$> refresh_tokens w ->
  RefreshToken.userId row ∈ User.id <$> users w ->
  integrity (with_refresh_tokens (fun ts => ts ++ [row]) w).
Proof.
  intros Hw Hid Htok Hown.
  apply (refreshToken_create_integrity row row w); [done|].
  unfold Prisma.refreshToken_create, Prisma.hasUser.
  rewrite (bool_decide_eq_false_2 _ Hid), (bool_decide_eq_false_2 _ Htok).
  by rewrite (bool_decide_eq_true_2 _ Hown).
Qed.

(** A live refresh token exchanged: what is returned and what is written. *)
Lemma refreshTokens_run now d token payload (record : RefreshToken.t) w :
  integrity w ->
  Jwt.verify (now / 1000) token (JWT_CONFIG.REFRESH_SECRET env) None = inr payload ->
  Jwt.type payload = Jwt.refresh ->
  record ∈ refresh_tokens w -> RefreshToken.token record = token ->
  now <= RefreshToken.expiresAt record ->
  freshDraw d w ->
  exists owner,
    owner ∈ users w /\ User.id owner = RefreshToken.userId record
    /\ refreshTokens env now d token w
       = (Ok {| accessToken :=
                  generateToken env now (accessJti d) (RefreshToken.userId record)
                    (User.email owner) Jwt.access JWT_CONFIG.ACCESS_TOKEN_EXPIRES;
                refreshToken :=
                  generateToken env now (refreshJti d) (RefreshToken.userId record)
                    (User.email owner) Jwt.refresh JWT_CONFIG.REFRESH_TOKEN_EXPIRES;
                expiresIn := 7 * 24 * 60 * 60 * 1000 |},
          with_refresh_tokens
            (List.filter (fun r =>
               negb (bool_decide (RefreshToken.id r = RefreshToken.id record))))
            (with_refresh_tokens (fun ts => ts ++
               [RefreshToken.mk (rowId d)
                  (generateToken env now (refreshJti d) (RefreshToken.userId record)
                     (User.email owner) Jwt.refresh JWT_CONFIG.REFRESH_TOKEN_EXPIRES)
                  (RefreshToken.userId record) (addDays now 7) now]) w)).
Proof.
  intros Hw Hv Hty Hr Htok Hlive Hfresh.
  destruct (findUnique_stored w record Hw Hr) as (owner & Howner & Hid & Hfind).
  rewrite Htok in Hfind. exists owner. split; [done|]. split; [done|].
  unfold refreshTokens. rewrite tryCatch_fixed, bind_run, jwtVerify_run, Hv.
  cbv beta iota.
  rewrite Hty, bool_decide_eq_true_2 by done. cbn [negb].
  rewrite bind_run, Hfind. cbv beta iota.
  rewrite (proj2 (Z.ltb_ge _ _) Hlive).
  rewrite bind_run, generateTokenPair_run;
    [|done|rewrite <- Hid; by apply list_elem_of_fmap_2].
  cbv beta iota. rewrite bind_run.
  unfold Prisma.refreshToken_delete. cbn [refresh_tokens with_refresh_tokens].
  rewrite bool_decide_eq_true_2; [reflexivity|].
  rewrite fmap_app. apply elem_of_app. left. by apply list_elem_of_fmap_2.
Qed.

(** X9. The pair that [generateTokenPair] makes when it is asked to
    remember (as the login asks it to, for [rememberMe]) has a refresh token
    and a stored record that last 30 days, and says so. The pair that this
    token is exchanged for lasts 7 days again: the rotation does not carry
    the choice over. *)
Theorem X9_remember_me_lost_on_rotation now d w u now1 d1 :
  integrity w ->
  u ∈ users w ->
  freshDraw d w ->
  exists remembered w1,
    generateTokenPair env now d (User.id u) (User.email u) true w = (Ok remembered, w1)
    /\ expiresIn remembered = 30 * 24 * 60 * 60 * 1000
    /\ refreshToken remembered
       = generateToken env now (refreshJti d) (User.id u) (User.email u) Jwt.refresh
           (Days 30)
    /\ (exists record,
          record ∈ refresh_tokens w1
          /\ RefreshToken.token record = refreshToken remembered
          /\ RefreshToken.expiresAt record = now + 30 * 86400000)
    /\ (now1 / 1000 < now / 1000 + 30 * 86400 -> now1 <= now + 30 * 86400000 ->
        freshDraw d1 w1 ->
        exists issued w2,
          refreshTokens env now1 d1 (refreshToken remembered) w1 = (Ok issued, w2)
          /\ expiresIn issued = 7 * 24 * 60 * 60 * 1000
          /\ refreshToken issued
             = generateToken env now1 (refreshJti d1) (User.id u) (User.email u)
                 Jwt.refresh (Days 7)
          /\ exists record',
               record' ∈ refresh_tokens w2
               /\ RefreshToken.token record' = refreshToken issued
               /\ RefreshToken.expiresAt record' = now1 + 7 * 86400000).
Proof.
  intros Hw Hu Hfresh.
  pose proof (users_pkey w Hw) as Hnd.
  assert (User.id u ∈ User.id <$> users w) as Hid0 by by apply list_elem_of_fmap_2.
  pose proof (generateTokenPair_run env now d (User.id u) (User.email u) true w
                Hfresh Hid0) as Hpair.
  cbv zeta in Hpair. cbv iota in Hpair. rewrite Hpair. clear Hpair.
  set (token := generateToken env now (refreshJti d) (User.id u) (User.email u)
                  Jwt.refresh (Days 30)).
  set (record := RefreshToken.mk (rowId d) token (User.id u) (addDays now 30) now).
  eexists _, _. split; [reflexivity|]. cbn [expiresIn refreshToken].
  split; [done|]. split; [done|].
  assert (record ∈ refresh_tokens (with_refresh_tokens (fun ts => ts ++ [record]) w))
    as Hrec.
  { cbn [refresh_tokens with_refresh_tokens].
    apply elem_of_app. right. by apply list_elem_of_singleton. }
  split.
  { exists record. split; [done|]. split; [done|].
    unfold record, addDays. cbn [RefreshToken.expiresAt]. lia. }
  intros Hclock Hlive Hfresh1.
  assert (integrity (with_refresh_tokens (fun ts => ts ++ [record]) w)) as Hw1.
  { apply append_refresh_integrity; [done|..].
    - apply Hfresh.
    - apply (fresh_refresh_token env now d (User.id u) (User.email u) (Days 30) w).
      apply Hfresh.
    - done. }
  pose proof (verifyAs_generateToken env now now1 (refreshJti d) (User.id u) (User.email u)
                Jwt.refresh (Days 30)) as Hverify.
  fold token in Hverify. unfold verifyAs in Hverify.
  change (seconds (Days 30)) with (30 * 86400) in Hverify.
  rewrite (proj2 (Z.leb_gt _ _) Hclock) in Hverify.
  destruct (refreshTokens_run now1 d1 token _ record _ Hw1 Hverify)
    as (owner & Howner & Hid & Hrun); try done.
  assert (owner = u) as ->.
  { cbn [users with_refresh_tokens] in Howner.
    by apply (key_unique User.id (users w)). }
  rewrite Hrun. eexists _, _. split; [reflexivity|].
  cbn [expiresIn refreshToken RefreshToken.userId record].
  split; [done|]. split; [done|].
  exists (RefreshToken.mk (rowId d1)
            (generateToken env now1 (refreshJti d1) (User.id u) (User.email u)
               Jwt.refresh JWT_CONFIG.REFRESH_TOKEN_EXPIRES)
            (User.id u) (addDays now1 7) now1).
  split; [|split; [reflexivity|]].
  - cbn [refresh_tokens with_refresh_tokens].
    apply list_elem_of_In, filter_In. split.
    + apply list_elem_of_In, elem_of_app. right. by apply list_elem_of_singleton.
    + cbn [RefreshToken.id record]. apply negb_true_iff, bool_decide_eq_false_2.
      intros Hsame. apply (proj1 Hfresh1).
      cbn [refresh_tokens with_refresh_tokens].
      rewrite fmap_app, Hsame. apply elem_of_app. right. by left.
  - unfold addDays. cbn [RefreshToken.expiresAt]. lia.
Qed.

End Sessions.

(** ** Logout, again *)

Section Logout2.
Import AuthService.
Context (env : Env).

Implicit Types (w : World) (token : Jwt.Token).

(** X10. A logout that presents a refresh token of which the caller has no
    record (a token of somebody else, or a string that is no stored token)
    deletes nothing and still succeeds. *)
Theorem X10_logout_foreign_token (uid : Js.str) token w :
  Jwt.truthy token = true ->
  (forall r, r ∈ refresh_tokens w -> RefreshToken.token r = token ->
             RefreshToken.userId r <> uid) ->
  exists w',
    logout uid (Some token) w = (Ok tt, w')
    /\ refresh_tokens w' = refresh_tokens w
    /\ users w' = users w.
Proof.
  intros Ht Hforeign. unfold logout. rewrite tryCatch_fixed, bind_run.
  unfold Js.whenTruthy. cbn [mbind option_bind]. rewrite Ht.
  unfold Prisma.refreshToken_deleteMany, modify. cbv beta iota.
  rewrite logActivity_run. eexists. split; [reflexivity|].
  cbn [users refresh_tokens with_logs with_refresh_tokens]. split; [|done].
  apply forallb_filter_id, forallb_forall. intros r Hr%list_elem_of_In.
  apply negb_true_iff, andb_false_iff.
  destruct (decide (RefreshToken.token r = token)) as [Heq|Hne].
  - left. apply bool_decide_eq_false_2. by apply Hforeign.
  - right. by apply bool_decide_eq_false_2.
Qed.

(** X11. A logout that presents no refresh token (none, or the empty
    string) deletes every refresh token of the caller and no other: none of
    the caller's tokens is exchanged any more. *)
Theorem X11_logout_without_token (uid : Js.str) (presented : option Jwt.Token) w :
  integrity w ->
  Js.whenTruthy Jwt.truthy presented = None ->
  exists w',
    logout uid presented w = (Ok tt, w')
    /\ users w' = users w
    /\ (forall r, r ∈ refresh_tokens w'
                  <-> r ∈ refresh_tokens w /\ RefreshToken.userId r <> uid)
    /\ (forall r now d,
          r ∈ refresh_tokens w -> RefreshToken.userId r = uid ->
          refreshTokens env now d (RefreshToken.token r) w'
          = (Throw "Token de rafraîchissement invalide", w')).
Proof.
  intros Hw Hnone. unfold logout. rewrite tryCatch_fixed, bind_run, Hnone.
  unfold Prisma.refreshToken_deleteMany, modify. cbv beta iota.
  rewrite logActivity_run. eexists. split; [reflexivity|].
  cbn [users refresh_tokens with_logs with_refresh_tokens]. split; [done|].
  assert (forall r,
            r ∈ List.filter (fun r => negb (bool_decide (RefreshToken.userId r = uid)))
                  (refresh_tokens w)
            <-> r ∈ refresh_tokens w /\ RefreshToken.userId r <> uid) as Hkept.
  { intros r. rewrite list_elem_of_In, filter_In, <- list_elem_of_In.
    rewrite negb_true_iff, bool_decide_eq_false. tauto. }
  split; [done|].
  intros r now d Hr Howner. apply refresh_without_record.
  cbn [refresh_tokens with_logs with_refresh_tokens].
  intros (r' & Heq & Hin)%list_elem_of_fmap.
  apply Hkept in Hin as [Hin Hother]. apply Hother.
  assert (r' = r) as ->; [|done].
  apply (same_token_same_row w); [apply Hw|done|done|congruence].
Qed.

End Logout2.

(** ** Phone numbers and avatars *)

Section Phone2.
Import AuthService.

Lemma forallb_drop {A} (p : A -> bool) (n : nat) (l : list A) :
  forallb p l = true -> forallb p (drop n l) = true.
Proof.
  rewrite !forallb_forall. intros Hl x Hx. apply Hl.
  by apply list_elem_of_In, subseteq_drop, list_elem_of_In in Hx.
Qed.

Lemma stripSpaces_digits (s : Js.str) :
  forallb (fun c => Js.isDigit c || (c =? 43)%N) s = true -> Js.stripSpaces s = s.
Proof.
  intros Hs. unfold Js.stripSpaces. apply forallb_filter_id.
  rewrite forallb_forall in *. intros c Hc. specialize (Hs c Hc).
  unfold Js.isDigit, Js.inRange in Hs.
  rewrite orb_true_iff, andb_true_iff, !N.leb_le, N.eqb_eq in Hs.
  apply negb_true_iff. unfold Js.isSpace.
  rewrite !orb_false_iff, !andb_false_iff, !N.leb_gt, !N.eqb_neq. lia.
Qed.

Lemma digits_clean (s : Js.str) :
  forallb Js.isDigit s = true -> Js.stripSpaces s = s.
Proof.
  intros Hs. apply stripSpaces_digits.
  rewrite forallb_forall in *. intros c Hc. by rewrite (Hs c Hc).
Qed.

Lemma startsWith_digits (p s : Js.str) :
  Js.startsWith p s = true -> forallb Js.isDigit s = true -> forallb Js.isDigit p = true.
Proof.
  intros Hp%startsWith_inv Hs. rewrite Hp, forallb_app in Hs.
  by apply andb_true_iff in Hs as [? _].
Qed.

(** The shape of what [normalizePhoneNumber] makes of a number that
    [phoneRegex] accepts. *)
Lemma accepted_phone_shape (s : Js.str) :
  phoneRegex_test s = true ->
  exists r,
    normalizePhoneNumber s = plus225 ++ r
    /\ forallb Js.isDigit r = true
    /\ (3 <= length r <= 10)%nat
    /\ (Js.startsWith (Js.lit "225") s = false ->
        Js.startsWith (Js.lit "00225") s = false -> (8 <= length r)%nat).
Proof.
  unfold phoneRegex_test.
  set (digits := fun d : Js.str =>
         forallb Js.isDigit d && bool_decide (8 <= length d)%nat
         && bool_decide (length d <= 10)%nat).
  assert (forall d, digits d = true ->
            forallb Js.isDigit d = true /\ (8 <= length d <= 10)%nat) as Hdigits.
  { intros d. unfold digits.
    rewrite !andb_true_iff, !bool_decide_eq_true. tauto. }
  intros Hvalid.
  apply orb_true_iff in Hvalid as [Hvalid|[Hd Hr]%andb_true_iff];
    [apply orb_true_iff in Hvalid as [Hvalid|[Hc Hr]%andb_true_iff];
     [apply orb_true_iff in Hvalid as [Ha|[Hb Hr]%andb_true_iff]|]|].
  - (* eight to ten digits, without a prefix *)
    apply Hdigits in Ha as [Hall Hlen].
    unfold normalizePhoneNumber. rewrite (digits_clean s Hall).
    destruct (Js.startsWith (Js.lit "00225") s) eqn:H1.
    { exists (drop 5 s). split; [done|]. split; [by apply forallb_drop|].
      rewrite length_drop. split; [lia|done]. }
    destruct (Js.startsWith (Js.lit "225") s) eqn:H2.
    { exists (drop 3 s). split; [done|]. split; [by apply forallb_drop|].
      rewrite length_drop. split; [lia|done]. }
    destruct (Js.startsWith plus225 s) eqn:H3; cbn [negb].
    { by apply (startsWith_digits plus225 s) in H3. }
    exists s. split; [done|]. split; [done|]. split; lia.
  - (* '+225' and eight to ten digits *)
    apply Hdigits in Hr as [Hall Hlen].
    apply startsWith_inv in Hb. change (length plus225) with 4%nat in Hb.
    unfold normalizePhoneNumber.
    assert (Js.stripSpaces s = s) as ->.
    { rewrite Hb. change (Js.stripSpaces (plus225 ++ drop 4 s))
        with (plus225 ++ Js.stripSpaces (drop 4 s)).
      by rewrite (digits_clean _ Hall). }
    rewrite Hb.
    exists (drop 4 s). split; [reflexivity|]. split; [done|]. split; lia.
  - (* '00225' and eight to ten digits *)
    apply Hdigits in Hr as [Hall Hlen].
    apply startsWith_inv in Hc. change (length (Js.lit "00225")) with 5%nat in Hc.
    unfold normalizePhoneNumber.
    assert (Js.stripSpaces s = s) as ->.
    { rewrite Hc. change (Js.stripSpaces (Js.lit "00225" ++ drop 5 s))
        with (Js.lit "00225" ++ Js.stripSpaces (drop 5 s)).
      by rewrite (digits_clean _ Hall). }
    rewrite Hc.
    exists (drop 5 s). split; [reflexivity|]. split; [done|]. split; [lia|].
    intros _ Hno. exfalso. revert Hno. by rewrite startsWith_app.
  - (* '225' and eight to ten digits *)
    apply Hdigits in Hr as [Hall Hlen].
    apply startsWith_inv in Hd. change (length (Js.lit "225")) with 3%nat in Hd.
    unfold normalizePhoneNumber.
    assert (Js.stripSpaces s = s) as ->.
    { rewrite Hd. change (Js.stripSpaces (Js.lit "225" ++ drop 3 s))
        with (Js.lit "225" ++ Js.stripSpaces (drop 3 s)).
      by rewrite (digits_clean _ Hall). }
    rewrite Hd.
    exists (drop 3 s). split; [reflexivity|]. split; [done|]. split; [lia|].
    intros Hno. exfalso. revert Hno. by rewrite startsWith_app.
Qed.

(** A number spelled with one of the three prefixes before digits only is
    normalised to '+225' followed by these digits. *)
Lemma prefixed_phone_normalized (p d : Js.str) :
  p ∈ [plus225; Js.lit "00225"; Js.lit "225"] ->
  forallb Js.isDigit d = true ->
  normalizePhoneNumber (p ++ d) = plus225 ++ d.
Proof.
  intros Hp Hd. unfold normalizePhoneNumber.
  repeat (apply elem_of_cons in Hp as [->|Hp]); [..|by apply elem_of_nil in Hp].
  - change (Js.stripSpaces (plus225 ++ d)) with (plus225 ++ Js.stripSpaces d).
    by rewrite (digits_clean d Hd).
  - change (Js.stripSpaces (Js.lit "00225" ++ d))
      with (Js.lit "00225" ++ Js.stripSpaces d).
    by rewrite (digits_clean d Hd).
  - change (Js.stripSpaces (Js.lit "225" ++ d)) with (Js.lit "225" ++ Js.stripSpaces d).
    by rewrite (digits_clean d Hd).
Qed.

(** X12. A phone number that the registration accepts is normalised to
    '+225' followed by digits only, at least three and at most ten of them.
    When the number was given with one of the prefixes '+225', '00225' or
    '225' before its eight to ten digits, these eight to ten digits are what
    follows '+225'; a number given without prefix keeps its eight to ten
    digits unless it happens to begin with '225' or '00225', which are then
    taken for a prefix and cut off. *)
Theorem X12_accepted_phone_normalized (s : Js.str) :
  phoneRegex_test s = true ->
  exists r,
    normalizePhoneNumber s = plus225 ++ r
    /\ forallb Js.isDigit r = true
    /\ (3 <= length r <= 10)%nat
    /\ (Js.startsWith (Js.lit "225") s = false ->
        Js.startsWith (Js.lit "00225") s = false -> (8 <= length r)%nat)
    /\ (forall p d,
          p ∈ [plus225; Js.lit "00225"; Js.lit "225"] ->
          s = p ++ d ->
          forallb Js.isDigit d = true ->
          (8 <= length d <= 10)%nat ->
          r = d /\ (8 <= length r <= 10)%nat).
Proof.
  intros Hvalid.
  destruct (accepted_phone_shape s Hvalid) as (r & Hr & Hdigits & Hlen & Hplain).
  exists r. do 4 (split; [done|]).
  intros p d Hp -> Hd Hlength.
  rewrite (prefixed_phone_normalized p d Hp Hd) in Hr.
  apply app_inv_head in Hr. by subst r.
Qed.

End Phone2.

Section Avatar.
Import AuthService.
Context `{Platform}.

(** X13. The default avatar of non-empty names is the ui-avatars address
    with the two initials in upper case and, as background, one of the six
    colours of the palette: the index computed from the two first code units
    never falls outside the palette. *)
Theorem X13_default_avatar_colour (firstName_ lastName_ : Js.str) :
  firstName_ <> [] -> lastName_ <> [] ->
  exists colour,
    colour ∈ ["FF6B6B"; "4ECDC4"; "45B7D1"; "96CEB4"; "FFEAA7"; "DDA0DD"]
    /\ generateDefaultAvatar firstName_ lastName_
       = Js.lit "https://ui-avatars.com/api/?name="
         ++ toUpperCase (take 1 firstName_ ++ take 1 lastName_)
         ++ Js.lit "&background=" ++ Js.lit colour ++ Js.lit "&color=fff&size=200".
Proof.
  intros _ _. unfold generateDefaultAvatar.
  set (k := ((default 0 (head firstName_) + default 0 (head lastName_)) mod 6)%N).
  assert (k < 6)%N as Hk by (apply N.mod_lt; lia).
  assert (k = 0 \/ k = 1 \/ k = 2 \/ k = 3 \/ k = 4 \/ k = 5)%N
    as [->|[->|[->|[->|[->| ->]]]]] by lia;
    [exists "FF6B6B"|exists "4ECDC4"|exists "45B7D1"|exists "96CEB4"|exists "FFEAA7"
    |exists "DDA0DD"];
    (split; [|reflexivity]); set_solver.
Qed.

End Avatar.

(* ================================================================== *)
(** * Further properties of the middleware *)

Section Middleware2.
Import AuthMiddleware.

Implicit Types (st : State) (w : World) (token : Jwt.Token).

(** Every request is answered by the middleware itself. *)
Lemma authenticate_responds env now authorization st w :
  exists answer,
    (authenticateToken env now authorization st w).1.1 = Respond answer
    /\ answer ∈ [Reply.MISSING_TOKEN; Reply.REVOKED_TOKEN; Reply.EXPIRED_TOKEN;
                 Reply.MALFORMED_TOKEN; Reply.WRONG_TOKEN_TYPE; Reply.USER_NOT_FOUND;
                 Reply.AUTH_INTERNAL_ERROR]
    /\ (authenticateToken env now authorization st w).2 = w.
Proof.
  unfold authenticateToken.
  destruct authorization as [[token|v]|]; [destruct (Jwt.truthy token)|..];
    try (eexists; split; [reflexivity|]; split; [|reflexivity]; set_solver).
  destruct (TokenSet.has _ _);
    [eexists; split; [reflexivity|]; split; [|reflexivity]; set_solver|].
  destruct (Jwt.verify _ _ _ _) as [[]|payload];
    try (eexists; split; [reflexivity|]; split; [|reflexivity]; set_solver).
  destruct (negb _);
    [eexists; split; [reflexivity|]; split; [|reflexivity]; set_solver|].
  cbv zeta.
  destruct (userCache st !! _) as [userData|];
    [destruct (_ <? _)|]; try destruct (List.find _ _);
    rewrite ?checkUser_run;
    eexists; (split; [reflexivity|]); (split; [|reflexivity]); set_solver.
Qed.

(** A guard placed after [authenticateToken] is never run. *)
Lemma andThen_skipped env now authorization st w (guard : option Obj -> Passage) :
  andThen guard (authenticateToken env now authorization st w)
  = authenticateToken env now authorization st w.
Proof.
  destruct (authenticate_responds env now authorization st w) as (answer & Hanswer & _).
  unfold andThen. by rewrite Hanswer.
Qed.

(** X14. [authenticateToken] never calls [next()] and never writes to the
    store. Whatever the request, the caches and the store, it answers the
    request itself, with one of seven answers: MISSING_TOKEN, REVOKED_TOKEN,
    EXPIRED_TOKEN, MALFORMED_TOKEN, WRONG_TOKEN_TYPE and USER_NOT_FOUND (401)
    or AUTH_INTERNAL_ERROR (500). The answers ACCOUNT_SUSPENDED,
    ACCOUNT_DELETED and TOKEN_MISMATCH are never sent. *)
Theorem X14_authenticate_never_passes env now authorization st w :
  let result := authenticateToken env now authorization st w in
  (forall user_ info, result.1.1 <> Next user_ info)
  /\ result.2 = w
  /\ exists answer,
       result.1.1 = Respond answer
       /\ answer ∈ [Reply.MISSING_TOKEN; Reply.REVOKED_TOKEN; Reply.EXPIRED_TOKEN;
                    Reply.MALFORMED_TOKEN; Reply.WRONG_TOKEN_TYPE; Reply.USER_NOT_FOUND;
                    Reply.AUTH_INTERNAL_ERROR]
       /\ success answer = false /\ data answer = None
       /\ (statusCode answer = 401 \/ statusCode answer = 500)
       /\ answer <> Reply.ACCOUNT_SUSPENDED /\ answer <> Reply.ACCOUNT_DELETED
       /\ answer <> Reply.TOKEN_MISMATCH.
Proof.
  intros result. destruct (authenticate_responds env now authorization st w)
    as (answer & Hanswer & Hin & Hstore).
  fold result in Hanswer, Hstore.
  split; [intros user_ info; by rewrite Hanswer|]. split; [done|].
  exists answer. split; [done|]. split; [done|].
  repeat (apply elem_of_cons in Hin as [->|Hin]);
    [by repeat split; auto..|by apply elem_of_nil in Hin].
Qed.

Lemma checkUser_store_blind now token payload (o : Obj) st w w' :
  (checkUser now token payload o st w).1 = (checkUser now token payload o st w').1.
Proof. by rewrite !checkUser_run. Qed.

(** X15. While the cache holds an entry for the identity of the token that
    is at most five minutes old, [authenticateToken] does not read the store:
    its answer and the caches after it are the same whatever the store holds,
    for instance after the account has been suspended, deleted or given
    another email there. *)
Theorem X15_cached_identity_not_reread env now token payload (entry : CacheEntry)
    st w w' :
  Jwt.verify (now / 1000) token (JWT_CONFIG.SECRET env)
    (Some (Jwt.mkVerifyOptions JWT_CONFIG.ISSUER JWT_CONFIG.AUDIENCE)) = inr payload ->
  userCache st !! Jwt.userId payload = Some entry ->
  now - timestamp entry <= CACHE_DURATION ->
  (authenticateToken env now (Some (Bearer token)) st w).1
  = (authenticateToken env now (Some (Bearer token)) st w').1.
Proof.
  intros Hv Hcache Hage. unfold authenticateToken.
  destruct (Jwt.truthy token); [|done].
  destruct (TokenSet.has _ _); [done|].
  rewrite Hv. destruct (negb _); [done|].
  cbv zeta. rewrite Hcache, (proj2 (Z.ltb_ge _ _) Hage).
  apply checkUser_store_blind.
Qed.

Lemma selected_password (row : User.t) :
  select selected (userObject row) !! "password" = None.
Proof. by vm_compute. Qed.

Lemma selected_flags (row : User.t) :
  select selected (userObject row) !! "emailVerified" = Some (VBool (User.emailVerified row))
  /\ select selected (userObject row) !! "phoneVerified"
     = Some (VBool (User.phoneVerified row))
  /\ select selected (userObject row) !! "isProfessional"
     = Some (VBool (User.isProfessional row)).
Proof. by vm_compute. Qed.

(** X16. Once the cache holds no entry for the identity, or only one older
    than five minutes, the row of the store is read and cached, and the
    request is answered 500 AUTH_INTERNAL_ERROR, whatever the status and the
    email of the row: a suspended account is not answered 403
    ACCOUNT_SUSPENDED, and the token of a deleted account, or of an account
    under another email, is not revoked. The store is not written. *)
Theorem X16_found_account_internal_error env now token payload (row : User.t) st w :
  Jwt.truthy token = true ->
  token ∉ revokedTokens st ->
  Jwt.verify (now / 1000) token (JWT_CONFIG.SECRET env)
    (Some (Jwt.mkVerifyOptions JWT_CONFIG.ISSUER JWT_CONFIG.AUDIENCE)) = inr payload ->
  Jwt.type payload = Jwt.access ->
  (forall entry, userCache st !! Jwt.userId payload = Some entry ->
                 CACHE_DURATION < now - timestamp entry) ->
  List.find (fun u => bool_decide (User.id u = Jwt.userId payload)) (users w) = Some row ->
  authenticateToken env now (Some (Bearer token)) st w
  = (Respond Reply.AUTH_INTERNAL_ERROR,
     mkState (revokedTokens st)
       (<[Jwt.userId payload := mkCacheEntry (select selected (userObject row)) now]>
          (userCache st)),
     w)
  /\ statusCode Reply.AUTH_INTERNAL_ERROR = 500.
Proof.
  intros Ht Hout Hv Hty Hstale Hrow. split; [|done].
  rewrite (authenticate_verified env now token payload) by done.
  cbv zeta. rewrite Hrow.
  destruct (userCache st !! Jwt.userId payload) as [entry|]; [|done].
  by rewrite (proj2 (Z.ltb_lt _ _) (Hstale entry eq_refl)).
Qed.

(** X18. [revokeAllUserTokens] deletes the refresh tokens of the user, so
    that none of them is exchanged any more, and those of nobody else; it
    adds nothing to the revoked set: an access token of the user that
    verifies is not answered REVOKED_TOKEN afterwards but, its account being
    in the store, 500 AUTH_INTERNAL_ERROR as any account that is found. *)
Theorem X18_revokeAllUserTokens_effect env (uid : Js.str) st w :
  integrity w ->
  let after := revokeAllUserTokens uid st w in
  revokedTokens after.1 = revokedTokens st
  /\ users after.2 = users w
  /\ (forall r, r ∈ refresh_tokens after.2
                <-> r ∈ refresh_tokens w /\ RefreshToken.userId r <> uid)
  /\ (forall r now d,
        r ∈ refresh_tokens w -> RefreshToken.userId r = uid ->
        AuthService.refreshTokens env now d (RefreshToken.token r) after.2
        = (Throw "Token de rafraîchissement invalide", after.2))
  /\ (forall now token payload (row : User.t),
        Jwt.truthy token = true ->
        token ∉ revokedTokens st ->
        Jwt.verify (now / 1000) token (JWT_CONFIG.SECRET env)
          (Some (Jwt.mkVerifyOptions JWT_CONFIG.ISSUER JWT_CONFIG.AUDIENCE)) = inr payload ->
        Jwt.type payload = Jwt.access ->
        Jwt.userId payload = uid ->
        List.find (fun u => bool_decide (User.id u = uid)) (users w) = Some row ->
        (authenticateToken env now (Some (Bearer token)) after.1 after.2).1.1
        = Respond Reply.AUTH_INTERNAL_ERROR).
Proof.
  intros Hw after. unfold after, revokeAllUserTokens.
  unfold Prisma.refreshToken_deleteMany, modify.
  cbn [fst snd revokedTokens userCache users refresh_tokens with_refresh_tokens].
  split; [done|]. split; [done|].
  assert (forall r,
            r ∈ List.filter (fun r => negb (bool_decide (RefreshToken.userId r = uid)))
                  (refresh_tokens w)
            <-> r ∈ refresh_tokens w /\ RefreshToken.userId r <> uid) as Hkept.
  { intros r. rewrite list_elem_of_In, filter_In, <- list_elem_of_In.
    rewrite negb_true_iff, bool_decide_eq_false. tauto. }
  split; [done|]. split.
  - intros r now d Hr Howner. apply refresh_without_record.
    cbn [refresh_tokens with_refresh_tokens].
    intros (r' & Heq & Hin)%list_elem_of_fmap.
    apply Hkept in Hin as [Hin Hother]. apply Hother.
    assert (r' = r) as ->; [|done].
    apply (same_token_same_row w); [apply Hw|done|done|congruence].
  - intros now token payload row Ht Hout Hv Hty Huid Hrow.
    rewrite (authenticate_verified env now token payload) by done.
    cbv zeta. cbn [users with_refresh_tokens userCache].
    rewrite Huid, Hrow. by rewrite lookup_delete_eq.
Qed.

(** X19. On a route with optional authentication, a request without a
    bearer token goes on without a user, and neither the caches nor the
    store are touched. A request that carries a token is judged as on a
    protected route: the access token of the service, once its fifteen
    minutes are over, is answered 401 EXPIRED_TOKEN, not served as
    anonymous. *)
Theorem X19_optionalAuth_judges_tokens env now now' (jwtid uid mail : Js.str) st w :
  (forall authorization,
     match authorization with
     | Some (Bearer t) => Jwt.truthy t = false
     | _ => True
     end ->
     optionalAuth env now' authorization st w = (Anonymous, st, w))
  /\ (let token :=
        AuthService.generateToken env now jwtid uid mail Jwt.access
          AuthService.JWT_CONFIG.ACCESS_TOKEN_EXPIRES in
      token ∉ revokedTokens st ->
      now / 1000 + 15 * 60 <= now' / 1000 ->
      optionalAuth env now' (Some (Bearer token)) st w
      = (Judged (Respond Reply.EXPIRED_TOKEN), st, w)
      /\ statusCode Reply.EXPIRED_TOKEN = 401).
Proof.
  split.
  - intros [[t|v]|] Hnone; unfold optionalAuth; [by rewrite Hnone|done|done].
  - intros token Hout Hlate.
    pose proof (verifyAs_generateToken env now now' jwtid uid mail Jwt.access
                  AuthService.JWT_CONFIG.ACCESS_TOKEN_EXPIRES) as Hverify.
    fold token in Hverify. unfold verifyAs in Hverify.
    change (AuthService.seconds AuthService.JWT_CONFIG.ACCESS_TOKEN_EXPIRES)
      with (15 * 60) in Hverify.
    rewrite (proj2 (Z.leb_le _ _) Hlate) in Hverify.
    unfold optionalAuth, authenticateToken.
    change (Jwt.truthy token) with true. cbv iota.
    by rewrite has_false, Hverify.
Qed.

End Middleware2.

(** ** From the issuer to a request *)

Section IssuerToRequest.
Import AuthService AuthMiddleware.
Context `{Platform} (env : Env).

Implicit Types (st : State) (w : World) (u : User.t).

(** X17. The access token of a pair that [generateTokenPair] makes for an
    account of the store is accepted at no time by [authenticateToken]:
    during its fifteen minutes (on the token clock) it is answered 500
    AUTH_INTERNAL_ERROR, the account being found, and from then on 401
    EXPIRED_TOKEN. *)
Theorem X17_issued_token_never_accepted now d (rememberMe_ : bool) w u :
  u ∈ users w ->
  freshDraw d w ->
  exists issued w1,
    generateTokenPair env now d (User.id u) (User.email u) rememberMe_ w = (Ok issued, w1)
    /\ (forall now' st,
          now' / 1000 < now / 1000 + 15 * 60 ->
          accessToken issued ∉ revokedTokens st ->
          (authenticateToken env now' (Some (Bearer (accessToken issued))) st w1).1.1
          = Respond Reply.AUTH_INTERNAL_ERROR)
    /\ (forall now' st,
          now / 1000 + 15 * 60 <= now' / 1000 ->
          accessToken issued ∉ revokedTokens st ->
          authenticateToken env now' (Some (Bearer (accessToken issued))) st w1
          = (Respond Reply.EXPIRED_TOKEN, st, w1)).
Proof.
  intros Hu Hfresh.
  assert (User.id u ∈ User.id <$> users w) as Hid by by apply list_elem_of_fmap_2.
  pose proof (generateTokenPair_run env now d (User.id u) (User.email u) rememberMe_ w
                Hfresh Hid) as Hpair.
  cbv zeta in Hpair. rewrite Hpair. clear Hpair.
  eexists _, _. split; [reflexivity|]. cbn [accessToken].
  set (token := generateToken env now (accessJti d) (User.id u) (User.email u)
                  Jwt.access JWT_CONFIG.ACCESS_TOKEN_EXPIRES).
  assert (forall now',
            Jwt.verify (now' / 1000) token (AuthMiddleware.JWT_CONFIG.SECRET env)
              (Some (Jwt.mkVerifyOptions AuthMiddleware.JWT_CONFIG.ISSUER
                       AuthMiddleware.JWT_CONFIG.AUDIENCE))
            = if now / 1000 + 15 * 60 <=? now' / 1000 then inl Jwt.TokenExpiredError
              else inr (Jwt.mkClaims (User.id u) (User.email u) Jwt.access (now / 1000)
                          (now / 1000 + 15 * 60) JWT_CONFIG.ISSUER JWT_CONFIG.AUDIENCE
                          (accessJti d))) as Hverify.
  { intros now'.
    apply (verifyAs_generateToken env now now' (accessJti d) (User.id u) (User.email u)
             Jwt.access JWT_CONFIG.ACCESS_TOKEN_EXPIRES). }
  split.
  - intros now' st Hlive Hout.
    specialize (Hverify now'). rewrite (proj2 (Z.leb_gt _ _) Hlive) in Hverify.
    rewrite (authenticate_verified env now' token _ st _ eq_refl Hout Hverify eq_refl).
    cbv zeta. cbn [Jwt.userId users with_refresh_tokens].
    destruct (List.find (fun x => bool_decide (User.id x = User.id u)) (users w))
      as [row|] eqn:Hrow.
    + destruct (userCache st !! User.id u) as [entry|]; [|done].
      by destruct (_ <? _).
    + exfalso. apply list_elem_of_In in Hu.
      apply (find_none _ _ Hrow) in Hu. by rewrite bool_decide_eq_true_2 in Hu.
  - intros now' st Hlate Hout.
    specialize (Hverify now'). rewrite (proj2 (Z.leb_le _ _) Hlate) in Hverify.
    unfold authenticateToken. change (Jwt.truthy token) with true. cbv iota.
    by rewrite has_false, Hverify.
Qed.

(** X20. The guards that follow [authenticateToken] in the combined chains
    never run: each chain answers what [authenticateToken] answers, and
    leaves the caches and the store as it does. On their own the guards
    refuse a request without user with 401 AUTHENTICATION_REQUIRED, refuse
    the user selected from a row with 403 when the flag they read is not set
    on the row, and let the request through otherwise. *)
Theorem X20_guards_never_run now authorization st w (row : User.t) :
  requireAuthAndEmailVerified env now authorization st w
  = authenticateToken env now authorization st w
  /\ requireAuthAndProfessional env now authorization st w
     = authenticateToken env now authorization st w
  /\ requireFullVerification env now authorization st w
     = authenticateToken env now authorization st w
  /\ requireEmailVerified None = Refuse Reply.AUTHENTICATION_REQUIRED
  /\ requireProfessional None = Refuse Reply.AUTHENTICATION_REQUIRED
  /\ requirePhoneVerified None = Refuse Reply.AUTHENTICATION_REQUIRED
  /\ requireEmailVerified (Some (select selected (userObject row)))
     = (if User.emailVerified row then Pass
        else Refuse Reply.EMAIL_VERIFICATION_REQUIRED)
  /\ requireProfessional (Some (select selected (userObject row)))
     = (if User.isProfessional row then Pass
        else Refuse Reply.PROFESSIONAL_REQUIRED)
  /\ requirePhoneVerified (Some (select selected (userObject row)))
     = (if User.phoneVerified row then Pass
        else Refuse Reply.PHONE_VERIFICATION_REQUIRED).
Proof.
  split; [apply andThen_skipped|]. split; [apply andThen_skipped|].
  split; [unfold requireFullVerification; by rewrite !andThen_skipped|].
  do 3 (split; [reflexivity|]).
  destruct (selected_flags row) as (Hmailed & Hphoned & Hpro).
  generalize dependent (select selected (userObject row)). intros o Hmailed Hphoned Hpro.
  unfold requireEmailVerified, requireProfessional, requirePhoneVerified, truthyAt.
  rewrite Hmailed, Hphoned, Hpro.
  by destruct (User.emailVerified row), (User.isProfessional row), (User.phoneVerified row).
Qed.

End IssuerToRequest.

(* ================================================================== *)
(** * What holds along the life of the whole *)

Section Keeps.

Context (P : World -> Prop).

Lemma keeps_ret {A} (a : A) : keeps P (mret a).
Proof. by intros w. Qed.

Lemma keeps_throw {A} (msg : string) : keeps P (throw msg : M A).
Proof. by intros w. Qed.

Lemma keeps_pending {A} : keeps P (pending : M A).
Proof. by intros w. Qed.

Lemma keeps_gets {A} (f : World -> A) : keeps P (gets f).
Proof. by intros w. Qed.

Lemma keeps_bind {A B} (m : M A) (f : A -> M B) :
  keeps P m -> (forall a, keeps P (f a)) -> keeps P (m ≫= f).
Proof.
  intros Hm Hf w Hw. rewrite bind_run. specialize (Hm w Hw).
  destruct (m w) as [[a| |] w1]; [by apply Hf|done|done].
Qed.

Lemma keeps_tryCatch {A} (m : M A) (h : string -> M A) :
  keeps P m -> (forall e, keeps P (h e)) -> keeps P (tryCatch m h).
Proof.
  intros Hm Hh w Hw. unfold tryCatch. specialize (Hm w Hw).
  destruct (m w) as [[a|e|] w1]; [done|by apply Hh|done].
Qed.



End Keeps.

(** One step of a proof that a computation keeps a property. *)
Ltac keeps_step :=
  first
    [ apply keeps_ret | apply keeps_throw | apply keeps_pending | apply keeps_gets
    | apply keeps_bind; [|intros ?]
    | apply keeps_tryCatch; [|intros ?]
    | match goal with
      | |- keeps _ (if ?c then _ else _) => destruct c
      | |- keeps _ (match ?x with _ => _ end) => destruct x
      end ].

Section Unverified.
Import AuthService.
Context `{Platform} (env : Env).

Implicit Types (w : World) (u : User.t).


















End Unverified.

(** ** The caches along the way *)

Section Along.
Import AuthMiddleware.
Context `{Platform} (env : Env).

(** [R] is a property of user objects that the rows of every store
    satisfying [W] have once selected, and [W] is kept by what happens. *)
Context (R : Obj -> Prop) (W : World -> Prop).
Hypothesis W_rows :
  forall w (row : User.t), W w -> row ∈ users w -> R (select selected (userObject row)).
Hypothesis W_perform : forall c w, W w -> W (perform env c w).
Hypothesis W_deleteMany :
  forall (keep : RefreshToken.t -> bool) w,
    W w -> W (with_refresh_tokens (List.filter keep) w).

Implicit Types (st : State) (w : World).

Lemma revoke_holds (token : Jwt.Token) (uid : Js.str) st :
  cacheHolds R st -> cacheHolds R (revoke token uid st).
Proof. unfold cacheHolds, revoke. cbn [userCache]. apply map_Forall_delete. Qed.

Lemma authenticate_holds now authorization st w :
  W w -> cacheHolds R st ->
  W (authenticateToken env now authorization st w).2
  /\ cacheHolds R (authenticateToken env now authorization st w).1.2.
Proof.
  intros Hw Hst. split.
  { destruct (authenticate_responds env now authorization st w) as (? & _ & _ & ->).
    done. }
  unfold authenticateToken.
  destruct authorization as [[token|v]|]; [|exact Hst..].
  destruct (Jwt.truthy token); [|exact Hst].
  destruct (TokenSet.has _ _); [exact Hst|].
  destruct (Jwt.verify _ _ _ _) as [[]|payload]; [exact Hst..|].
  destruct (negb _); [exact Hst|]. cbv zeta.
  assert (cacheHolds R
            (match List.find (fun u => bool_decide (User.id u = Jwt.userId payload))
                     (users w) with
             | Some row =>
                 checkUser now token payload
                   (user (mkCacheEntry (select selected (userObject row)) now))
                   (mkState (revokedTokens st)
                      (<[Jwt.userId payload :=
                           mkCacheEntry (select selected (userObject row)) now]>
                         (userCache st))) w
             | None =>
                 (Respond Reply.USER_NOT_FOUND, revoke token (Jwt.userId payload) st, w)
             end).1.2) as Hreload.
  { destruct (List.find _ _) as [row|] eqn:Hrow.
    - rewrite checkUser_run. apply find_elem in Hrow as [Hrow _].
      pose proof (W_rows w row Hw Hrow) as Hobj.
      unfold cacheHolds. cbn [fst snd userCache]. by apply map_Forall_insert_2.
    - by apply revoke_holds. }
  destruct (userCache st !! Jwt.userId payload) as [entry|] eqn:Hcache; [|exact Hreload].
  destruct (_ <? _); [exact Hreload|]. rewrite checkUser_run. exact Hst.
Qed.

Lemma step_holds (e : Event) st w :
  W w -> cacheHolds R st ->
  W (step env e (st, w)).2 /\ cacheHolds R (step env e (st, w)).1.
Proof.
  intros Hw Hst. destruct e; cbn [step fst snd].
  - by apply authenticate_holds.
  - by split.
  - unfold revokeAllUserTokens. cbn [fst snd]. split.
    + by apply W_deleteMany.
    + unfold cacheHolds. cbn [userCache]. by apply map_Forall_delete.
  - split; [done|]. unfold clearUserCache.
    destruct (Js.whenTruthy _ _); unfold cacheHolds; cbn [userCache].
    + by apply map_Forall_delete.
    + apply map_Forall_empty.
  - split; [done|]. unfold cleanupRevokedTokens. by destruct (bool_decide _).
  - split; [done|]. unfold maintenance, cacheHolds. cbn [userCache].
    unfold cleanupRevokedTokens.
    destruct (bool_decide _); cbn [userCache]; intros k entry Hk;
      apply map_lookup_filter_Some_1_1 in Hk; by apply (Hst k).
Qed.

Lemma history_holds (hs : list Happening) st w :
  W w -> cacheHolds R st ->
  W (history env hs (st, w)).2 /\ cacheHolds R (history env hs (st, w)).1.
Proof.
  revert st w. induction hs as [|h hs IH]; intros st w Hw Hst; [done|].
  cbn [history foldl]. destruct h as [c|e]; cbn [happen fst snd].
  - apply IH; [by apply W_perform|done].
  - destruct (step_holds e st w Hw Hst) as [Hw' Hst'].
    destruct (step env e (st, w)) as [st' w']. by apply IH.
Qed.

End Along.

Section Never.
Import AuthMiddleware.
Context `{Platform} (env : Env).


(** X22. The route [/me] never serves a profile: whatever the request, the
    caches and the store, [authenticateToken] answers in its place, a
    failure (401 or 500) without data, and [getCurrentUser] is not reached.
    And starting from empty caches and any store, whatever calls are made on
    the service and whatever happens in the middleware, no user object that
    the cache holds has a [password] property. *)
Theorem X22_profile_never_served w0 (hs : list Happening) now authorization st w :
  (exists r,
     AuthController.me env now authorization st w
     = (AuthController.ByMiddleware r,
        (authenticateToken env now authorization st w).1.2, w)
     /\ success r = false /\ data r = None
     /\ (statusCode r = 401 \/ statusCode r = 500))
  /\ cacheHolds (fun o => o !! "password" = None)
       (history env hs (mkState TokenSet.empty ∅, w0)).1.
Proof.
  split.
  - destruct (authenticate_responds env now authorization st w)
      as (answer & Hanswer & Hin & Hstore).
    unfold AuthController.me.
    destruct (authenticateToken env now authorization st w) as [[verdict st'] w'].
    cbn [fst snd] in *. subst verdict w'. exists answer. split; [done|].
    repeat (apply elem_of_cons in Hin as [->|Hin]);
      [by repeat split; auto..|by apply elem_of_nil in Hin].
  - destruct (history_holds env (fun o => o !! "password" = None) (fun _ => True))
      with (hs := hs) (st := mkState TokenSet.empty ∅) (w := w0) as [_ Hst];
      try done; try apply map_Forall_empty;
      try (intros w1 row _ _; apply selected_password).
Qed.

End Never.

(* ================================================================== *)
(** * The validation middleware *)

Section Validation.
Import AuthService ValidationMiddleware.

Lemma cleaned_unspaced (s : Js.str) : Js.stripSpaces (cleaned s) = cleaned s.
Proof.
  unfold Js.stripSpaces, cleaned.
  apply forallb_filter_id, forallb_forall.
  intros c Hc. apply filter_In in Hc as [_ Hc].
  apply negb_true_iff in Hc. apply negb_true_iff.
  by do 4 (apply orb_false_iff in Hc as [Hc _]).
Qed.

Lemma cleaned_idem (s : Js.str) : cleaned (cleaned s) = cleaned s.
Proof.
  unfold cleaned. apply forallb_filter_id, forallb_forall.
  intros c Hc. by apply filter_In in Hc as [_ Hc].
Qed.

Lemma cleaned_digits (s : Js.str) :
  forallb (fun c => Js.isDigit c || (c =? 43)%N) s = true -> cleaned s = s.
Proof.
  intros Hs. unfold cleaned. apply forallb_filter_id.
  rewrite forallb_forall in *. intros c Hc. specialize (Hs c Hc).
  unfold Js.isDigit, Js.inRange in Hs.
  rewrite orb_true_iff, andb_true_iff, !N.leb_le, N.eqb_eq in Hs.
  apply negb_true_iff. unfold Js.isSpace.
  rewrite !orb_false_iff, !andb_false_iff, !N.leb_gt, !N.eqb_neq. lia.
Qed.

Lemma cleaned_drop (n : nat) (s : Js.str) : cleaned (drop n (cleaned s)) = drop n (cleaned s).
Proof.
  unfold cleaned. apply forallb_filter_id, forallb_forall.
  intros c Hc. apply list_elem_of_In, subseteq_drop, list_elem_of_In in Hc.
  apply filter_In in Hc. tauto.
Qed.

(** The three prefixes exclude one another. *)
Lemma prefixes_apart (s : Js.str) :
  (Js.startsWith plus225 s = true ->
   Js.startsWith (Js.lit "00225") s = false /\ Js.startsWith (Js.lit "225") s = false)
  /\ (Js.startsWith (Js.lit "00225") s = true -> Js.startsWith (Js.lit "225") s = false).
Proof.
  destruct s as [|c s]; [done|].
  change plus225 with [43; 50; 50; 53]%N.
  change (Js.lit "00225") with [48; 48; 50; 50; 53]%N.
  change (Js.lit "225") with [50; 50; 53]%N.
  cbn [Js.startsWith]. by repeat case_decide; subst.
Qed.

Lemma transform_normalize (val : Js.str) :
  telephone_transform val = normalizePhoneNumber (cleaned val).
Proof.
  unfold telephone_transform, normalizePhoneNumber, Js.substring.
  rewrite cleaned_unspaced. cbv zeta.
  destruct (prefixes_apart (cleaned val)) as [Hplus Hzero].
  fold plus225.
  destruct (Js.startsWith plus225 (cleaned val)) eqn:H1.
  { destruct (Hplus eq_refl) as [-> ->]. done. }
  cbn [negb].
  by destruct (Js.startsWith (Js.lit "00225") (cleaned val)),
    (Js.startsWith (Js.lit "225") (cleaned val)).
Qed.

Lemma validate_phoneRegex (val : Js.str) :
  validateIvoirianPhone val = phoneRegex_test (cleaned val).
Proof.
  unfold validateIvoirianPhone, phoneRegex_test, digits8to10. cbv zeta.
  cbn [existsb]. fold plus225.
  repeat match goal with
         | |- context [forallb Js.isDigit ?s && ?b && ?c] =>
             generalize (forallb Js.isDigit s && b && c); intros ?
         | |- context [Js.startsWith ?p ?s] => generalize (Js.startsWith p s); intros ?
         end.
  repeat match goal with b : bool |- _ => destruct b end; reflexivity.
Qed.

(** X23. The validation middleware and the service agree on phone numbers:
    once the separators that the middleware removes are removed,
    [validateIvoirianPhone] accepts what the regular expression of the
    service accepts, and the [transform] of the schema returns what
    [normalizePhoneNumber] returns; the transform, applied to its own
    result, changes nothing. *)
Theorem X23_phone_validation_agrees (val : Js.str) :
  validateIvoirianPhone val = phoneRegex_test (cleaned val)
  /\ telephone_transform val = normalizePhoneNumber (cleaned val)
  /\ telephone_transform (telephone_transform val) = telephone_transform val.
Proof.
  split; [apply validate_phoneRegex|]. split; [apply transform_normalize|].
  rewrite (transform_normalize (telephone_transform val)).
  assert (cleaned (telephone_transform val) = telephone_transform val) as ->.
  { unfold telephone_transform. cbv zeta.
    destruct (Js.startsWith (Js.lit "+225") (cleaned val)); [apply cleaned_idem|].
    assert (forall r, cleaned (Js.lit "+225" ++ r) = Js.lit "+225" ++ cleaned r) as Happ
      by reflexivity.
    destruct (Js.startsWith (Js.lit "00225") (cleaned val));
      [by rewrite Happ, cleaned_drop|].
    destruct (Js.startsWith (Js.lit "225") (cleaned val));
      [by rewrite Happ, cleaned_drop|].
    by rewrite Happ, cleaned_idem. }
  rewrite transform_normalize.
  destruct (normalizePhoneNumber_shape (cleaned val)) as (rest & Hshape & Hrest).
  rewrite Hshape. unfold normalizePhoneNumber.
  rewrite stripSpaces_plus225, Hrest.
  change (Js.startsWith (Js.lit "00225") (plus225 ++ rest)) with false.
  change (Js.startsWith (Js.lit "225") (plus225 ++ rest)) with false.
  by rewrite startsWith_app.
Qed.

(** X24. The validation does not hold for what the transform returns. A
    number of eight to ten digits that begins with 225 is accepted as a
    number without prefix; the transform takes its three first digits for the
    prefix and returns '+225' followed by the five to seven that remain,
    which [validateIvoirianPhone] and the regular expression of the service
    both refuse. *)
Theorem X24_cut_number_refused (d : Js.str) :
  forallb Js.isDigit d = true -> (5 <= length d <= 7)%nat ->
  let val := Js.lit "225" ++ d in
  validateIvoirianPhone val = true
  /\ telephone_transform val = plus225 ++ d
  /\ validateIvoirianPhone (telephone_transform val) = false
  /\ phoneRegex_test (telephone_transform val) = false.
Proof.
  intros Hd Hlen val.
  assert (forallb Js.isDigit val = true) as Hval.
  { unfold val. by rewrite forallb_app, Hd. }
  assert (cleaned val = val) as Hclean.
  { apply cleaned_digits. rewrite forallb_forall in *.
    intros c Hc. by rewrite (Hval c Hc). }
  assert (cleaned d = d) as Hcleand.
  { apply cleaned_digits. rewrite forallb_forall in *.
    intros c Hc. by rewrite (Hd c Hc). }
  assert (length val = (3 + length d)%nat) as Hlenval.
  { unfold val. by rewrite length_app. }
  assert (telephone_transform val = plus225 ++ d) as Htransform.
  { unfold telephone_transform. cbv zeta. rewrite Hclean. by unfold val. }
  assert (phoneRegex_test (plus225 ++ d) = false) as Hregex.
  { unfold phoneRegex_test. cbv zeta.
    change (Js.startsWith (Js.lit "00225") (plus225 ++ d)) with false.
    change (Js.startsWith (Js.lit "225") (plus225 ++ d)) with false.
    change (forallb Js.isDigit (plus225 ++ d)) with false.
    rewrite startsWith_app. change (drop 4 (plus225 ++ d)) with d.
    rewrite Hd. cbn [andb orb].
    by rewrite (bool_decide_eq_false_2 (8 <= length d)%nat) by lia. }
  split.
  { rewrite validate_phoneRegex, Hclean. unfold phoneRegex_test. cbv zeta.
    rewrite Hval. rewrite !bool_decide_eq_true_2 by lia. done. }
  split; [done|]. rewrite Htransform. split; [|done].
  rewrite validate_phoneRegex.
  change (cleaned (plus225 ++ d)) with (plus225 ++ cleaned d). by rewrite Hcleand.
Qed.

End Validation.

(** ** Duplicate content *)

Section Duplicates.
Import ValidationMiddleware.

Implicit Types (m : gmap string HashEntry) (hash : string).

(** A content seen for the first time is let through and recorded. *)
Lemma detect_first now hash m :
  hash <> EmptyString -> m !! hash = None ->
  exists m',
    detectDuplicateContent now (Some hash) m = (Next, m')
    /\ m' !! hash = Some (mkHashEntry now 1).
Proof.
  intros Hne Hm. unfold detectDuplicateContent.
  rewrite bool_decide_eq_false_2 by done. cbv zeta. rewrite Hm.
  eexists. split; [done|]. by rewrite lookup_insert_eq.
Qed.

(** A content recorded within the window, fewer than three times, is let
    through and counted. *)
Lemma detect_again now hash m entry :
  hash <> EmptyString -> m !! hash = Some entry ->
  now - timestamp entry <= WINDOW_TIME -> count entry < MAX_DUPLICATES ->
  exists m',
    detectDuplicateContent now (Some hash) m = (Next, m')
    /\ m' !! hash = Some (mkHashEntry now (count entry + 1)).
Proof.
  intros Hne Hm Hfresh Hcount. unfold detectDuplicateContent.
  rewrite bool_decide_eq_false_2 by done. cbv zeta. rewrite Hm.
  destruct (MAX_DUPLICATES <=? count entry) eqn:Hmax; [apply Z.leb_le in Hmax; lia|].
  assert (filter (fun kv : string * HashEntry =>
                    negb (WINDOW_TIME <? now - timestamp kv.2)) m !! hash
          = Some entry) as ->.
  { apply map_lookup_filter_Some. split; [done|]. cbn [snd].
    apply Is_true_true, negb_true_iff, Z.ltb_ge. lia. }
  eexists. split; [done|]. by rewrite lookup_insert_eq.
Qed.

(** X25. The same content posted four times, each time at most fifteen
    minutes after the time before, is let through three times and refused
    the fourth time with 'publié 3 fois'. The window is counted from the
    last post let through, not from the first: the four posts may be spread
    over 45 minutes. *)
Theorem X25_fourth_identical_refused hash (t1 t2 t3 t4 : Z) m :
  hash <> EmptyString -> m !! hash = None ->
  t2 - t1 <= WINDOW_TIME -> t3 - t2 <= WINDOW_TIME -> t4 - t3 <= WINDOW_TIME ->
  let r1 := detectDuplicateContent t1 (Some hash) m in
  let r2 := detectDuplicateContent t2 (Some hash) r1.2 in
  let r3 := detectDuplicateContent t3 (Some hash) r2.2 in
  let r4 := detectDuplicateContent t4 (Some hash) r3.2 in
  r1.1 = Next /\ r2.1 = Next /\ r3.1 = Next /\ r4.1 = Duplicate 3
  /\ r4.2 !! hash = Some (mkHashEntry t3 3).
Proof.
  intros Hne Hm H12 H23 H34. cbv zeta.
  destruct (detect_first t1 hash m Hne Hm) as (m1 & -> & Hm1). cbn [fst snd].
  destruct (detect_again t2 hash m1 _ Hne Hm1) as (m2 & -> & Hm2); [done|done|].
  cbn [fst snd count timestamp] in *.
  destruct (detect_again t3 hash m2 _ Hne Hm2) as (m3 & -> & Hm3); [done|done|].
  cbn [fst snd count timestamp] in *.
  do 3 (split; [done|]).
  unfold detectDuplicateContent.
  rewrite bool_decide_eq_false_2 by done. cbv zeta. rewrite Hm3.
  cbn [count fst snd]. split; [done|].
  apply map_lookup_filter_Some. split; [done|]. cbn [snd timestamp].
  apply Is_true_true, negb_true_iff, Z.ltb_ge. lia.
Qed.

(** X26. The entry of a content is read before the old entries are swept
    away, and judged although it is out of date. When the last post let
    through is more than fifteen minutes old, a content recorded three times
    is refused once more, and a content recorded fewer times is let through
    without being recorded; in both cases the map holds no entry for the
    content afterwards, so that the count starts again at the next post. *)
Theorem X26_stale_entry_judged now hash m entry :
  hash <> EmptyString -> m !! hash = Some entry ->
  WINDOW_TIME < now - timestamp entry ->
  let r := detectDuplicateContent now (Some hash) m in
  r.1 = (if MAX_DUPLICATES <=? count entry then Duplicate (count entry) else Next)
  /\ r.2 !! hash = None
  /\ forall now',
       detectDuplicateContent now' (Some hash) r.2
       = (Next, <[hash := mkHashEntry now' 1]>
                  (filter (fun kv => negb (WINDOW_TIME <? now' - timestamp kv.2)) r.2)).
Proof.
  intros Hne Hm Hstale r.
  assert (filter (fun kv : string * HashEntry =>
                    negb (WINDOW_TIME <? now - timestamp kv.2)) m !! hash = None) as Hswept.
  { apply map_lookup_filter_None. right. intros entry' Hentry'.
    assert (entry' = entry) as -> by congruence. cbn [snd].
    intros Hkept. apply Is_true_true, negb_true_iff, Z.ltb_ge in Hkept. lia. }
  assert (r = (if MAX_DUPLICATES <=? count entry then Duplicate (count entry) else Next,
               filter (fun kv : string * HashEntry =>
                         negb (WINDOW_TIME <? now - timestamp kv.2)) m)) as ->.
  { unfold r, detectDuplicateContent.
    rewrite bool_decide_eq_false_2 by done. cbv zeta. rewrite Hm, Hswept.
    by destruct (MAX_DUPLICATES <=? count entry). }
  cbn [fst snd]. split; [done|]. split; [done|].
  intros now'. unfold detectDuplicateContent.
  rewrite bool_decide_eq_false_2 by done. cbv zeta. by rewrite Hswept.
Qed.

End Duplicates.

(* ================================================================== *)
(** * The buffers of the request analytics *)

Section Analytics.
Import RequestAnalytics.
Context {RequestMetrics SecurityEvent : Type}.

Implicit Types (a : t RequestMetrics SecurityEvent).

(** [push] then [shift] on a buffer within its bound keeps the last [n]. *)
Lemma push_shift {A} (n : nat) (l : list A) (x : A) :
  (length l <= n)%nat ->
  (if bool_decide (n < length (l ++ [x]))%nat then tail (l ++ [x]) else l ++ [x])
  = drop (length (l ++ [x]) - n) (l ++ [x]).
Proof.
  intros Hl. rewrite length_app. cbn [length].
  case_bool_decide.
  - replace (length l + 1 - n)%nat with 1%nat by lia. by destruct (l ++ [x]).
  - by replace (length l + 1 - n)%nat with 0%nat by lia.
Qed.

Lemma last_snoc {A} (n : nat) (l : list A) (x : A) :
  drop (length (drop (length l - n) l ++ [x]) - n) (drop (length l - n) l ++ [x])
  = drop (length (l ++ [x]) - n) (l ++ [x]).
Proof.
  rewrite <- (drop_app_le l [x] (length l - n)) by lia.
  rewrite drop_drop. f_equal. rewrite length_drop, !length_app. cbn [length]. lia.
Qed.

Lemma last_bound {A} (n : nat) (l : list A) : (length (drop (length l - n) l) <= n)%nat.
Proof. rewrite length_drop. lia. Qed.

(** X27. The buffer of security events holds the last 1000 events pushed,
    the oldest first: as long as it starts within its bound, it never holds
    more, and what it drops is the oldest. The metrics are not touched. *)
Theorem X27_security_events_window (events : list SecurityEvent) a :
  (length (securityEvents a) <= MAX_SECURITY_EVENTS)%nat ->
  let a' := foldl (fun acc event => addSecurityEvent event acc) a events in
  let pushed := securityEvents a ++ events in
  securityEvents a' = drop (length pushed - MAX_SECURITY_EVENTS) pushed
  /\ (length (securityEvents a') <= MAX_SECURITY_EVENTS)%nat
  /\ metrics a' = metrics a.
Proof.
  intros Ha. cbv zeta.
  induction events as [|event events IH] using rev_ind.
  { cbn [foldl]. rewrite app_nil_r.
    replace (length (securityEvents a) - MAX_SECURITY_EVENTS)%nat with 0%nat by lia.
    done. }
  rewrite foldl_snoc. destruct IH as (IH & Hbound & Hmetrics).
  set (before := foldl _ a events) in *.
  unfold addSecurityEvent. cbn [securityEvents metrics].
  rewrite push_shift by done. rewrite IH, last_snoc, <- app_assoc.
  split; [done|]. split; [apply last_bound|done].
Qed.

(** X28. For every route, the buffer of metrics holds the last 100 metrics
    pushed for that route, the oldest first, whatever is pushed for the other
    routes in between. *)
Theorem X28_route_metrics_window (pushes : list (Js.str * RequestMetrics)) a
    (route : Js.str) :
  (length (default [] (metrics a !! route)) <= MAX_METRICS_PER_ROUTE)%nat ->
  let a' := foldl (fun acc push => addMetric push.1 push.2 acc) a pushes in
  let pushed :=
    default [] (metrics a !! route)
    ++ (snd <$> filter (fun push => push.1 = route) pushes) in
  default [] (metrics a' !! route) = drop (length pushed - MAX_METRICS_PER_ROUTE) pushed
  /\ (length (default [] (metrics a' !! route)) <= MAX_METRICS_PER_ROUTE)%nat
  /\ securityEvents a' = securityEvents a.
Proof.
  intros Ha. cbv zeta.
  induction pushes as [|[route' metric] pushes IH] using rev_ind.
  { cbn [foldl filter list_filter fmap list_fmap]. rewrite app_nil_r.
    replace (length (default [] (metrics a !! route)) - MAX_METRICS_PER_ROUTE)%nat
      with 0%nat by lia.
    done. }
  rewrite foldl_snoc, filter_app, fmap_app. destruct IH as (IH & Hbound & Hevents).
  set (before := foldl _ a pushes) in *.
  unfold addMetric. cbn [securityEvents metrics fst snd]. cbv zeta.
  split; [|split; [|done]].
  - destruct (decide (route' = route)) as [->|Hother].
    + rewrite lookup_insert_eq. cbn [default].
      rewrite push_shift by done. rewrite IH, last_snoc.
      rewrite filter_cons_True by done. rewrite filter_nil. cbn [fmap list_fmap].
      by rewrite <- app_assoc.
    + rewrite lookup_insert_ne by done.
      rewrite filter_cons_False by done. rewrite filter_nil. cbn [fmap list_fmap].
      by rewrite app_nil_r.
  - destruct (decide (route' = route)) as [->|Hother].
    + rewrite lookup_insert_eq. cbn [default].
      rewrite push_shift by done. rewrite IH, last_snoc. apply last_bound.
    + by rewrite lookup_insert_ne.
Qed.

End Analytics.

(* ================================================================== *)
(** * The handlers of the controller *)

(** ** The messages the login handler searches *)

Section Messages.
Import AuthService.

Lemma lit_append (s t : string) : Js.lit (s +:+ t) = Js.lit s ++ Js.lit t.
Proof.
  unfold Js.lit. induction s as [|a s IH]; [done|].
  simpl. f_equal. apply IH.
Qed.

(** The code units of a printed integer: digits, and the minus sign. *)
Lemma pretty_N_go_numeric (x : N) (s : string) :
  forallb (fun c => Js.isDigit c || (c =? 45)%N) (Js.lit s) = true ->
  forallb (fun c => Js.isDigit c || (c =? 45)%N) (Js.lit (pretty_N_go x s)) = true.
Proof.
  revert s. induction (N.lt_wf_0 x) as [x _ IH]; intros s Hs.
  assert (x = 0 \/ 0 < x)%N as [->|Hx] by lia.
  - by rewrite pretty_N_go_0.
  - rewrite pretty_N_go_step by done. apply IH; [by apply N.div_lt|].
    change (Js.lit (String ?a s)) with (N_of_ascii a :: Js.lit s).
    cbn [forallb]. rewrite Hs, andb_true_r.
    unfold pretty_N_char. by repeat case_match.
Qed.

Lemma pretty_Z_numeric (n : Z) :
  forallb (fun c => Js.isDigit c || (c =? 45)%N) (Js.lit (pretty n)) = true.
Proof.
  assert (forall p : positive,
            forallb (fun c => Js.isDigit c || (c =? 45)%N) (Js.lit (pretty p)) = true)
    as Hpos.
  { intros p. unfold pretty, pretty_positive, pretty, pretty_N.
    case_decide; [done|]. by apply pretty_N_go_numeric. }
  destruct n as [|p|p]; [done|apply Hpos|].
  change (pretty (Z.neg p)) with ("-" +:+ pretty p).
  rewrite lit_append, forallb_app, Hpos. done.
Qed.

(** A needle whose first code unit does not occur in [ds] is found in
    [ds ++ rest] where it is found in [rest]. *)
Lemma includes_skip (a : N) (needle ds rest : Js.str) :
  forallb (fun c => negb (c =? a)%N) ds = true ->
  Js.includes (a :: needle) (ds ++ rest) = Js.includes (a :: needle) rest.
Proof.
  induction ds as [|c ds IH]; [done|].
  cbn [forallb]. intros [Hc Hds]%andb_true_iff.
  cbn [app Js.includes Js.startsWith].
  apply negb_true_iff, N.eqb_neq in Hc.
  rewrite decide_False by done. by apply IH.
Qed.

Lemma includes_app_l (needle p x : Js.str) :
  Js.includes needle p = true -> Js.includes needle (p ++ x) = true.
Proof.
  assert (forall n s, Js.startsWith n s = true -> Js.startsWith n (s ++ x) = true) as Hsw.
  { induction n as [|a n IH]; intros [|b s]; try done.
    cbn [Js.startsWith app]. case_decide; [apply IH|done]. }
  induction p as [|c p IH].
  { cbn [Js.includes]. rewrite orb_false_r. intros Hn.
    destruct needle; [by destruct x|done]. }
  cbn [app Js.includes]. intros [Hhere|Hlater]%orb_true_iff.
  - apply Hsw in Hhere. cbn [app] in Hhere. by rewrite Hhere.
  - rewrite (IH Hlater). apply orb_true_r.
Qed.

Lemma numeric_without (a : N) (ds : Js.str) :
  Js.isDigit a || (a =? 45)%N = false ->
  forallb (fun c => Js.isDigit c || (c =? 45)%N) ds = true ->
  forallb (fun c => negb (c =? a)%N) ds = true.
Proof.
  intros Ha Hds. rewrite forallb_forall in *. intros c Hc. specialize (Hds c Hc).
  apply negb_true_iff, N.eqb_neq. intros ->. by rewrite Ha in Hds.
Qed.

(** The message of a lockout holds neither 'incorrect' nor 'invalide',
    whatever the number of minutes, and holds 'bloqué'. *)
Lemma lockoutMessage_status (remainingTime : Z) :
  AuthController.loginStatusCode (lockoutMessage remainingTime) = 403.
Proof.
  assert (forall needle : string,
            match Js.lit needle with
            | a :: _ => negb (Js.isDigit a || (a =? 45)%N)
            | [] => false
            end = true ->
            (forall x, Js.includes (Js.lit needle)
                         (Js.lit "Compte temporairement bloqué. Réessayez dans " ++ x)
                       = Js.includes (Js.lit needle) x) ->
            Js.includes (Js.lit needle) (Js.lit " minutes.") = false ->
            AuthController.includes needle (lockoutMessage remainingTime) = false)
    as Hwithout.
  { intros needle Hhead Hbefore Hafter.
    unfold AuthController.includes, lockoutMessage.
    rewrite !lit_append, Hbefore.
    destruct (Js.lit needle) as [|a needle'] eqn:Hneedle; [done|].
    apply negb_true_iff in Hhead.
    rewrite includes_skip; [done|].
    apply numeric_without; [done|apply pretty_Z_numeric]. }
  unfold AuthController.loginStatusCode.
  rewrite (Hwithout "incorrect"), (Hwithout "invalide") by done.
  cbn [orb]. unfold AuthController.includes at 2, lockoutMessage.
  rewrite lit_append, includes_app_l by done. by rewrite orb_true_r.
Qed.

End Messages.

(** ** The login handler *)

Section LoginHandler.
Import AuthService.
Context `{Platform} (env : Env).

Implicit Types (w : World) (u : User.t).

(** X29. What the login handler answers to a body that the schema accepts,
    read off the account that the identifier finds: 401 when there is none or
    the password is wrong, 403 while the account is locked (before the
    password is looked at), and 400 with the message 'UserStatus is not
    defined' for the right password on an account that is not locked,
    whatever the status of the account. It never answers 200, and never
    sets the cookie. *)
Theorem X29_login_handler_answers now d (body : AuthController.LoginBody) parsed w :
  NoDup (User.id <$> users w) ->
  AuthController.loginSchema body = Some parsed ->
  exists answer w',
    AuthController.login env now d body w
    = (Some (AuthController.LoginReplied answer AuthController.Untouched), w')
    /\ success answer = false /\ data answer = None /\ statusCode answer <> 200
    /\ match List.find (fun u =>
               bool_decide (User.email u = Js.trim (toLowerCase (identifier parsed)))
               || bool_decide (User.phone u = normalizePhoneNumber (identifier parsed)))
               (users w) with
       | None => statusCode answer = 401 /\ w' = w
       | Some u =>
           if lockedAt now u
           then statusCode answer = 403 /\ w' = w
           else if negb (bcrypt_compare (l_password parsed) (User.password u))
           then statusCode answer = 401
           else answer = failure 400 "UserStatus is not defined"
                           "UserStatus is not defined" "LOGIN_ERROR"
                /\ w' = w
       end.
Proof.
  intros Hnd Hbody. unfold AuthController.login. rewrite Hbody.
  pose proof (findUser_run (identifier parsed) (identifier parsed) w) as Hrun.
  destruct (List.find _ (users w)) as [u|] eqn:Hfind.
  2:{ rewrite (login_unknown env now d parsed w) by (by rewrite Hrun).
      by eexists _, _. }
  assert ((findUserByEmailOrPhone (identifier parsed) (identifier parsed) w).1 = Ok (Some u))
    as Hfound by (by rewrite Hrun).
  destruct (lockedAt now u) eqn:Hlocked.
  { unfold lockedAt in Hlocked.
    destruct (User.blockedUntil u) as [blockedUntil|] eqn:Hb; [|done].
    apply Z.ltb_lt in Hlocked.
    rewrite (login_locked env now d parsed w u blockedUntil) by done.
    eexists _, _. split; [done|]. cbn [statusCode failure success data].
    by rewrite lockoutMessage_status. }
  destruct (bcrypt_compare (l_password parsed) (User.password u)) eqn:Hpw; cbn [negb].
  2:{ rewrite (login_wrong_password env now d parsed w u) by done.
      by eexists _, _. }
  rewrite (login_right_password env now d parsed w u) by done.
  by eexists _, _.
Qed.

End LoginHandler.

(** ** The refresh route *)

Section RefreshRoute.
Import AuthService.
Context `{Platform} (env : Env).

Implicit Types (w : World).

(** X30. The refresh route takes the token of the cookie before the one of
    the body. Without any token it answers 401 MISSING_REFRESH_TOKEN and
    leaves the cookie. With a cookie whose token has no stored record it
    answers 401 INVALID_REFRESH_TOKEN, clears the cookie and writes nothing,
    whatever token the body carries, a live one included. With no cookie and
    a live token in the body it answers 200 and sets the cookie to the new
    refresh token, for 7 days. *)
Theorem X30_refresh_route_cookie_first now d w :
  integrity w -> freshDraw d w ->
  (forall req,
     Js.whenTruthy Jwt.truthy (AuthController.rr_cookies_refreshToken req) = None ->
     Js.whenTruthy Jwt.truthy (AuthController.rr_body_refreshToken req) = None ->
     AuthController.refreshTokens env now d req w
     = (Some (failure 401 "Refresh token manquant" "Refresh token requis"
                "MISSING_REFRESH_TOKEN", AuthController.Untouched), w))
  /\ (forall (inCookie : Jwt.Token) inBody,
        Jwt.truthy inCookie = true ->
        inCookie ∉ RefreshToken.token <$> refresh_tokens w ->
        AuthController.refreshTokens env now d
          (AuthController.mkRefreshRequest (Some inCookie) inBody) w
        = (Some (failure 401 "Token de rafraîchissement invalide"
                   "Veuillez vous reconnecter" "INVALID_REFRESH_TOKEN",
                 AuthController.Cleared), w))
  /\ (forall inCookie (inBody : Jwt.Token) payload (record : RefreshToken.t),
        Js.whenTruthy Jwt.truthy inCookie = None ->
        Jwt.verify (now / 1000) inBody (JWT_CONFIG.REFRESH_SECRET env) None = inr payload ->
        Jwt.type payload = Jwt.refresh ->
        record ∈ refresh_tokens w -> RefreshToken.token record = inBody ->
        now <= RefreshToken.expiresAt record ->
        exists issued w',
          AuthController.refreshTokens env now d
            (AuthController.mkRefreshRequest inCookie (Some inBody)) w
          = (Some (mkResponse 200 true "Tokens rafraîchis avec succès" (Some issued) [],
                   AuthController.SetRefreshToken (refreshToken issued)
                     (7 * 24 * 60 * 60 * 1000)
                     (bool_decide (NODE_ENV env = Some (Js.lit "production")))), w')
          /\ refreshToken issued ∈ RefreshToken.token <$> refresh_tokens w'
          /\ (inBody ∉ RefreshToken.token <$> refresh_tokens w')).
Proof.
  intros Hw Hfresh. split; [|split].
  - intros [inCookie inBody] Hc Hb. cbn [AuthController.rr_cookies_refreshToken
      AuthController.rr_body_refreshToken] in *.
    unfold AuthController.refreshTokens.
    cbn [AuthController.rr_cookies_refreshToken AuthController.rr_body_refreshToken].
    assert (Js.whenTruthy Jwt.truthy (Js.or Jwt.truthy inCookie inBody) = None) as ->;
      [|done].
    destruct inCookie as [c|]; [|done]. cbn [Js.or Js.whenTruthy mbind option_bind] in *.
    by destruct (Jwt.truthy c).
  - intros inCookie inBody Htruthy Hnone.
    unfold AuthController.refreshTokens.
    cbn [AuthController.rr_cookies_refreshToken AuthController.rr_body_refreshToken
         Js.or]. rewrite Htruthy.
    cbn [Js.whenTruthy mbind option_bind]. rewrite Htruthy.
    by rewrite (refresh_without_record env now d inCookie w Hnone).
  - intros inCookie inBody payload record Hc Hv Hty Hr Htok Hlive.
    assert (Jwt.truthy inBody = true) as Htruthy.
    { destruct inBody as [[|]|]; try done. }
    destruct (refreshTokens_run env now d inBody payload record w)
      as (owner & Howner & Hid & Hrun); try done.
    unfold AuthController.refreshTokens.
    cbn [AuthController.rr_cookies_refreshToken AuthController.rr_body_refreshToken].
    assert (Js.whenTruthy Jwt.truthy (Js.or Jwt.truthy inCookie (Some inBody))
            = Some inBody) as ->.
    { destruct inCookie as [c|]; cbn [Js.or Js.whenTruthy mbind option_bind] in *.
      - destruct (Jwt.truthy c); [done|].
        cbn [Js.whenTruthy mbind option_bind]. by rewrite Htruthy.
      - by rewrite Htruthy. }
    rewrite Hrun. eexists _, _. split; [done|].
    cbn [refreshToken refresh_tokens with_refresh_tokens].
    set (issued := generateToken env now (refreshJti d) (RefreshToken.userId record)
                     (User.email owner) Jwt.refresh JWT_CONFIG.REFRESH_TOKEN_EXPIRES).
    assert (issued ∉ RefreshToken.token <$> refresh_tokens w) as Hnew.
    { apply fresh_refresh_token. apply Hfresh. }
    assert (RefreshToken.id record <> rowId d) as Hrow.
    { intros Heq. destruct Hfresh as [Hrowfresh _]. apply Hrowfresh.
      rewrite <- Heq. by apply list_elem_of_fmap_2. }
    split.
    + apply list_elem_of_fmap.
      exists (RefreshToken.mk (rowId d) issued (RefreshToken.userId record)
                (addDays now 7) now).
      split; [done|]. apply list_elem_of_In, filter_In. split.
      * apply list_elem_of_In, elem_of_app. right. apply list_elem_of_singleton.
        done.
      * cbn [RefreshToken.id]. apply negb_true_iff, bool_decide_eq_false. congruence.
    + intros (r & Heq & Hin)%list_elem_of_fmap.
      apply list_elem_of_In, filter_In in Hin as [Hin Hkept].
      apply negb_true_iff, bool_decide_eq_false in Hkept.
      apply list_elem_of_In, elem_of_app in Hin as [Hin|Hin].
      * apply Hkept. f_equal.
        apply (same_token_same_row w); [apply Hw|done|done|congruence].
      * apply list_elem_of_singleton in Hin. subst r. cbn [RefreshToken.token] in Heq.
        apply Hnew. rewrite <- Heq, <- Htok. by apply list_elem_of_fmap_2.
Qed.

End RefreshRoute.

(* ================================================================== *)
(** * The further properties on the sample data *)

Section Scenarios2.
Import AuthService AuthMiddleware.

(** X1 at work: the link of the verification email is refused, and Awa's
    account stays as it was, pending verification. *)
Lemma X1_verifyEmail_never_verifies_witness :
  verifyEmail Sample.env 2000 Sample.verificationToken Sample.home
  = (Throw "Token de vérification invalide ou expiré", Sample.home)
  /\ Prisma.user_findUnique_id (Js.lit "u1") Sample.home
     = (Ok (Some Sample.awaRow), Sample.home)
  /\ User.emailVerified Sample.awaRow = false
  /\ User.status Sample.awaRow = PENDING_VERIFICATION.
Proof.
  pose proof (X1_verifyEmail_never_verifies Sample.env 2000 Sample.verificationToken
                (Sample.claimsOf Sample.verificationToken)
                Sample.home Sample.awaRow) as Hrefused.
  cbv zeta in Hrefused. destruct Hrefused as [Hrun Hread].
  - compute_done.
  - vm_compute. reflexivity.
  - reflexivity.
  - vm_compute. left.
  - reflexivity.
  - split; [exact Hrun|]. rewrite Hrun in Hread.
    split; [exact Hread|]. split; reflexivity.
Defined.

(** X2 at work: the link of a password reset is refused as a verification
    link. *)
Lemma X2_verifyEmail_rejects_witness :
  verifyEmail Sample.env 2000 Sample.resetToken Sample.home
  = (Throw "Token de vérification invalide ou expiré", Sample.home).
Proof.
  apply (X2_verifyEmail_rejects Sample.env 2000 Sample.resetToken Sample.home).
  intros payload Hverify Htype. vm_compute in Hverify.
  injection Hverify as <-. discriminate Htype.
Defined.

(** X3 at work: Awa resets her password; her session of the phone is over. *)
Lemma X3_resetPassword_effect_witness :
  exists w' u',
    @resetPassword Sample.platform Sample.env 2000 (Js.lit "salt2") Sample.resetToken
      (Js.lit "Secret2") Sample.home = (Ok tt, w')
    /\ Prisma.user_findUnique_id (Js.lit "u1") w' = (Ok (Some u'), w')
    /\ User.password u' = Js.lit "salt2$Secret2"
    /\ forall now' d',
         refreshTokens Sample.env now' d' Sample.phoneToken w'
         = (Throw "Token de rafraîchissement invalide", w').
Proof.
  destruct (@X3_resetPassword_effect Sample.platform Sample.env 2000 (Js.lit "salt2")
              Sample.resetToken (Sample.claimsOf Sample.resetToken) (Js.lit "Secret2")
              Sample.home Sample.awaRow)
    as (w' & u' & Hrun & Hread & Hpassword & _ & _ & _ & _ & Hover).
  - compute_done.
  - vm_compute. reflexivity.
  - reflexivity.
  - reflexivity.
  - vm_compute. left.
  - reflexivity.
  - exists w', u'. split; [exact Hrun|]. split; [exact Hread|]. split; [exact Hpassword|].
    intros now' d'. apply (Hover Sample.phoneRecord now' d').
    + vm_compute. left.
    + reflexivity.
Defined.

(** X4 at work: the same link sets a second password one second later. *)
Lemma X4_reset_token_reusable_witness :
  exists w' w'' u'',
    @resetPassword Sample.platform Sample.env 2000 (Js.lit "salt2") Sample.resetToken
      (Js.lit "Secret2") Sample.home = (Ok tt, w')
    /\ @resetPassword Sample.platform Sample.env 3000 (Js.lit "salt3") Sample.resetToken
         (Js.lit "Secret3") w' = (Ok tt, w'')
    /\ Prisma.user_findUnique_id (Js.lit "u1") w'' = (Ok (Some u''), w'')
    /\ User.password u'' = Js.lit "salt3$Secret3".
Proof.
  destruct (@X4_reset_token_reusable Sample.platform Sample.env 2000 (Js.lit "salt2")
              Sample.resetToken (Sample.claimsOf Sample.resetToken) (Js.lit "Secret2")
              Sample.home Sample.awaRow 3000 (Js.lit "salt3") (Js.lit "Secret3"))
    as (w' & w'' & u'' & Hfirst & Hsecond & Hread & Hpassword).
  - compute_done.
  - vm_compute. reflexivity.
  - reflexivity.
  - reflexivity.
  - vm_compute. left.
  - reflexivity.
  - vm_compute. reflexivity.
  - reflexivity.
  - exists w', w'', u''. split; [exact Hfirst|]. split; [exact Hsecond|].
    split; [exact Hread|exact Hpassword].
Defined.

(** X5 at work: Awa asks for a reset; the link she is sent sets her
    password half an hour later. *)
Lemma X5_reset_round_trip_witness :
  exists token w1 w2,
    @requestPasswordReset Sample.platform Sample.env 5000 (Js.lit "reset-2")
      (Js.lit "A@Example.ci ") Sample.home = (Ok tt, w1)
    /\ outbox w1 = [VerificationEmail (Js.lit "a@example.ci") (Js.lit "Awa");
                    PasswordResetEmail (Js.lit "a@example.ci") (Js.lit "Awa") token]
    /\ @resetPassword Sample.platform Sample.env 1805000 (Js.lit "salt2") token
         (Js.lit "Secret2") w1 = (Ok tt, w2).
Proof.
  destruct (@X5_reset_round_trip Sample.platform Sample.env 5000 (Js.lit "reset-2")
              (Js.lit "A@Example.ci ") Sample.home Sample.awaRow 1805000
              (Js.lit "salt2") (Js.lit "Secret2"))
    as (token & w1 & Hrequest & Hsent & _ & Hinside & _).
  - compute_done.
  - vm_compute. reflexivity.
  - reflexivity.
  - destruct Hinside as (w2 & u' & Hreset & _); [vm_compute; reflexivity|].
    exists token, w1, w2. split; [exact Hrequest|]. split; [exact Hsent|exact Hreset].
Defined.


(** X7 at work: on the suspended account, the right password is not told
    of the suspension. *)
Lemma X7_login_never_succeeds_witness :
  @login Sample.platform Sample.env 5000 (Sample.draw 2) (Sample.credentials "Secret1")
    Sample.suspended
  = (Throw "UserStatus is not defined", Sample.suspended).
Proof.
  destruct (@X7_login_never_succeeds Sample.platform Sample.env 5000 (Sample.draw 2)
              (Sample.credentials "Secret1") Sample.suspended) as (_ & _ & Hright).
  apply (Hright Sample.suspendedRow).
  - compute_done.
  - vm_compute. reflexivity.
  - reflexivity.
  - reflexivity.
Defined.

(** X8 at work: long after her lockout has run out, one wrong password
    locks Awa's account again. *)
Lemma X8_relock_after_expiry_witness :
  exists u',
    Prisma.user_findUnique_id (Js.lit "u1")
      (@login Sample.platform Sample.env 5000000 (Sample.draw 30)
         (Sample.credentials "guess") Sample.locked).2
    = (Ok (Some u'),
       (@login Sample.platform Sample.env 5000000 (Sample.draw 30)
          (Sample.credentials "guess") Sample.locked).2)
    /\ User.loginAttempts u' = 6
    /\ User.blockedUntil u' = Some 5900000.
Proof.
  destruct (@X8_relock_after_expiry Sample.platform Sample.env 5000000 (Sample.draw 30)
              (Sample.credentials "guess") Sample.locked Sample.lockedRow)
    as (_ & u' & Hread & Hcount & Hlock & _).
  - compute_done.
  - vm_compute. reflexivity.
  - reflexivity.
  - vm_compute. discriminate.
  - vm_compute. reflexivity.
  - exists u'. split; [exact Hread|]. split; [exact Hcount|exact Hlock].
Defined.

(** X9 at work: a pair made for Awa with [rememberMe] lasts thirty days;
    the pair she gets a day later in exchange lasts seven days. *)
Lemma X9_remember_me_lost_on_rotation_witness :
  exists remembered w1 issued w2,
    generateTokenPair Sample.env 2000 (Sample.draw 2) (Js.lit "u1")
      (Js.lit "a@example.ci") true Sample.home = (Ok remembered, w1)
    /\ expiresIn remembered = 30 * 24 * 60 * 60 * 1000
    /\ refreshTokens Sample.env 86402000 (Sample.draw 3) (refreshToken remembered) w1
       = (Ok issued, w2)
    /\ expiresIn issued = 7 * 24 * 60 * 60 * 1000.
Proof.
  destruct (X9_remember_me_lost_on_rotation Sample.env 2000
              (Sample.draw 2) Sample.home Sample.awaRow 86402000 (Sample.draw 3))
    as (remembered & w1 & Hpair & Hlong & _ & _ & Hexchange).
  - compute_done.
  - vm_compute. left.
  - compute_done.
  - destruct Hexchange as (issued & w2 & Hrun & Hshort & _).
    + vm_compute. reflexivity.
    + vm_compute. discriminate.
    + replace w1 with
        (generateTokenPair Sample.env 2000 (Sample.draw 2)
           (User.id Sample.awaRow) (User.email Sample.awaRow) true Sample.home).2
        by (by rewrite Hpair).
      compute_done.
    + exists remembered, w1, issued, w2.
      split; [exact Hpair|]. split; [exact Hlong|]. split; [exact Hrun|exact Hshort].
Defined.

(** X10 at work: somebody else presents Awa's refresh token at logout. *)
Lemma X10_logout_foreign_token_witness :
  exists w',
    logout (Js.lit "u2") (Some Sample.phoneToken) Sample.home = (Ok tt, w')
    /\ refresh_tokens w' = refresh_tokens Sample.home.
Proof.
  destruct (X10_logout_foreign_token (Js.lit "u2") Sample.phoneToken Sample.home)
    as (w' & Hrun & Hkept & _).
  - reflexivity.
  - apply (proj1 (Forall_forall
                    (fun r => RefreshToken.token r = Sample.phoneToken ->
                              RefreshToken.userId r <> Js.lit "u2")
                    (refresh_tokens Sample.home))).
    compute_done.
  - exists w'. split; [exact Hrun|exact Hkept].
Defined.

(** X11 at work: Awa logs out without presenting a token; both of her
    devices are signed out. *)
Lemma X11_logout_without_token_witness :
  exists w',
    logout (Js.lit "u1") None Sample.twoDevices = (Ok tt, w')
    /\ (forall now d,
          refreshTokens Sample.env now d Sample.phoneToken w'
          = (Throw "Token de rafraîchissement invalide", w')).
Proof.
  destruct (X11_logout_without_token Sample.env (Js.lit "u1") None Sample.twoDevices)
    as (w' & Hrun & _ & _ & Hover).
  - compute_done.
  - reflexivity.
  - exists w'. split; [exact Hrun|].
    intros now d. apply (Hover Sample.phoneRecord now d).
    + vm_compute. left.
    + reflexivity.
Defined.

(** X12 at work: a number given with '00225' before its ten digits. *)
Lemma X12_accepted_phone_normalized_witness :
  normalizePhoneNumber (Js.lit "002250700000001") = plus225 ++ Js.lit "0700000001".
Proof.
  destruct (X12_accepted_phone_normalized (Js.lit "002250700000001"))
    as (r & Hshape & _ & _ & _ & Hprefixed).
  - reflexivity.
  - destruct (Hprefixed (Js.lit "00225") (Js.lit "0700000001")) as [-> _].
    + right. left.
    + reflexivity.
    + reflexivity.
    + vm_compute. lia.
    + exact Hshape.
Defined.

(** X13 at work: Awa's avatar. *)
Lemma X13_default_avatar_colour_witness :
  exists colour,
    colour ∈ ["FF6B6B"; "4ECDC4"; "45B7D1"; "96CEB4"; "FFEAA7"; "DDA0DD"]
    /\ @generateDefaultAvatar Sample.platform (Js.lit "Awa") (Js.lit "Kone")
       = Js.lit "https://ui-avatars.com/api/?name="
         ++ @toUpperCase Sample.platform (take 1 (Js.lit "Awa") ++ take 1 (Js.lit "Kone"))
         ++ Js.lit "&background=" ++ Js.lit colour ++ Js.lit "&color=fff&size=200".
Proof.
  apply (@X13_default_avatar_colour Sample.platform (Js.lit "Awa") (Js.lit "Kone"));
    discriminate.
Defined.

(** X15 at work: once the phone has made a request, the suspension of the
    account changes nothing to the answer, one minute later. *)
Lemma X15_cached_identity_not_reread_witness :
  (authenticateToken Sample.env 62000 (Sample.bearer Sample.accessToken_) Sample.warm
     Sample.home).1
  = (authenticateToken Sample.env 62000 (Sample.bearer Sample.accessToken_) Sample.warm
       Sample.suspended).1.
Proof.
  apply (X15_cached_identity_not_reread Sample.env 62000 Sample.accessToken_
           (Sample.claimsOf Sample.accessToken_)
           (mkCacheEntry (select selected (userObject Sample.awaRow)) 2000)
           Sample.warm Sample.home Sample.suspended).
  - vm_compute. reflexivity.
  - vm_compute. reflexivity.
  - vm_compute. discriminate.
Defined.

(** X16 at work: without an entry in the cache, the suspended account is
    answered 500. *)
Lemma X16_found_account_internal_error_witness :
  (authenticateToken Sample.env 62000 (Sample.bearer Sample.accessToken_)
     (mkState TokenSet.empty ∅) Sample.suspended).1.1
  = Respond Reply.AUTH_INTERNAL_ERROR.
Proof.
  destruct (X16_found_account_internal_error Sample.env 62000 Sample.accessToken_
              (Sample.claimsOf Sample.accessToken_) Sample.suspendedRow
              (mkState TokenSet.empty ∅) Sample.suspended) as [Hanswer _].
  - reflexivity.
  - vm_compute. apply not_elem_of_nil.
  - vm_compute. reflexivity.
  - reflexivity.
  - intros entry Hentry. vm_compute in Hentry. discriminate Hentry.
  - vm_compute. reflexivity.
  - unfold Sample.bearer. by rewrite Hanswer.
Defined.

(** X17 at work: the access token of a pair made for Awa is answered 500
    a second later, and 401 a quarter of an hour later. *)
Lemma X17_issued_token_never_accepted_witness :
  exists issued w1,
    generateTokenPair Sample.env 2000 (Sample.draw 2) (Js.lit "u1")
      (Js.lit "a@example.ci") false Sample.home = (Ok issued, w1)
    /\ (authenticateToken Sample.env 3000 (Some (Bearer (accessToken issued)))
          (mkState TokenSet.empty ∅) w1).1.1 = Respond Reply.AUTH_INTERNAL_ERROR
    /\ authenticateToken Sample.env 902000 (Some (Bearer (accessToken issued)))
         (mkState TokenSet.empty ∅) w1
       = (Respond Reply.EXPIRED_TOKEN, mkState TokenSet.empty ∅, w1).
Proof.
  destruct (X17_issued_token_never_accepted Sample.env 2000
              (Sample.draw 2) false Sample.home Sample.awaRow)
    as (issued & w1 & Hpair & Hinside & Hafter).
  - vm_compute. left.
  - compute_done.
  - exists issued, w1. split; [exact Hpair|]. split.
    + apply Hinside; [vm_compute; reflexivity|apply not_elem_of_nil].
    + apply Hafter; [vm_compute; discriminate|apply not_elem_of_nil].
Defined.

(** X18 at work: all of Awa's refresh tokens are revoked; her access token
    of the phone is not reported as revoked. *)
Lemma X18_revokeAllUserTokens_effect_witness :
  refresh_tokens
    (revokeAllUserTokens (Js.lit "u1") (mkState TokenSet.empty ∅) Sample.twoDevices).2 = []
  /\ (authenticateToken Sample.env 3000 (Sample.bearer Sample.accessToken_)
        (revokeAllUserTokens (Js.lit "u1") (mkState TokenSet.empty ∅)
           Sample.twoDevices).1
        (revokeAllUserTokens (Js.lit "u1") (mkState TokenSet.empty ∅)
           Sample.twoDevices).2).1.1 = Respond Reply.AUTH_INTERNAL_ERROR.
Proof.
  destruct (X18_revokeAllUserTokens_effect Sample.env (Js.lit "u1")
              (mkState TokenSet.empty ∅) Sample.twoDevices)
    as (_ & _ & _ & _ & Hanswer).
  - compute_done.
  - split; [reflexivity|].
    apply (Hanswer 3000 Sample.accessToken_ (Sample.claimsOf Sample.accessToken_)
             (User.set_updatedAt 2000 (User.set_lastLoginAt (Some 2000) Sample.awaRow))).
    + reflexivity.
    + apply not_elem_of_nil.
    + vm_compute. reflexivity.
    + reflexivity.
    + reflexivity.
    + vm_compute. reflexivity.
Defined.

(** X19 at work: on a route with optional authentication, a request
    without header is anonymous, and the phone's access token, presented half
    an hour after it was signed, is answered 401. *)
Lemma X19_optionalAuth_judges_tokens_witness :
  optionalAuth Sample.env 1801000 None (mkState TokenSet.empty ∅) Sample.home
  = (Anonymous, mkState TokenSet.empty ∅, Sample.home)
  /\ optionalAuth Sample.env 1801000 (Sample.bearer Sample.accessToken_)
       (mkState TokenSet.empty ∅) Sample.home
     = (Judged (Respond Reply.EXPIRED_TOKEN), mkState TokenSet.empty ∅, Sample.home).
Proof.
  destruct (X19_optionalAuth_judges_tokens Sample.env 1000 1801000
              (accessJti (Sample.draw 1)) (Js.lit "u1") (Js.lit "a@example.ci")
              (mkState TokenSet.empty ∅) Sample.home) as [Hnone Hexpired].
  split.
  - apply (Hnone None). exact I.
  - apply Hexpired.
    + apply not_elem_of_nil.
    + vm_compute. discriminate.
Defined.

(** X24 at work: 22512345 is accepted, and stored as +22512345 if it is
    not validated again. *)
Lemma X24_cut_number_refused_witness :
  ValidationMiddleware.validateIvoirianPhone (Js.lit "22512345") = true
  /\ ValidationMiddleware.telephone_transform (Js.lit "22512345") = Js.lit "+22512345"
  /\ ValidationMiddleware.validateIvoirianPhone (Js.lit "+22512345") = false.
Proof.
  destruct (X24_cut_number_refused (Js.lit "12345")) as (Haccepted & Hcut & Hrefused & _).
  - reflexivity.
  - vm_compute. lia.
  - split; [exact Haccepted|]. split; [exact Hcut|].
    change (Js.lit "+22512345")
      with (ValidationMiddleware.telephone_transform (Js.lit "225" ++ Js.lit "12345")).
    exact Hrefused.
Defined.

(** X25 at work: the same content every ten minutes; the fourth post, half
    an hour after the first, is refused. *)
Lemma X25_fourth_identical_refused_witness :
  let post now m := ValidationMiddleware.detectDuplicateContent now (Some "h") m in
  (post 1800000 (post 1200000 (post 600000 (post 0 ∅).2).2).2).1
  = ValidationMiddleware.Duplicate 3.
Proof.
  destruct (X25_fourth_identical_refused "h" 0 600000 1200000 1800000 ∅)
    as (_ & _ & _ & Hfourth & _).
  - discriminate.
  - reflexivity.
  - vm_compute. discriminate.
  - vm_compute. discriminate.
  - vm_compute. discriminate.
  - exact Hfourth.
Defined.

(** X26 at work: a content recorded three times is refused once more an
    hour later, and let through at the next post. *)
Lemma X26_stale_entry_judged_witness :
  let m : gmap string ValidationMiddleware.HashEntry :=
    {[ "h" := ValidationMiddleware.mkHashEntry 0 3 ]} in
  (ValidationMiddleware.detectDuplicateContent 3600000 (Some "h") m).1
  = ValidationMiddleware.Duplicate 3
  /\ (ValidationMiddleware.detectDuplicateContent 3600001 (Some "h")
        (ValidationMiddleware.detectDuplicateContent 3600000 (Some "h") m).2).1
     = ValidationMiddleware.Next.
Proof.
  intros m.
  destruct (X26_stale_entry_judged 3600000 "h" m (ValidationMiddleware.mkHashEntry 0 3))
    as (Hrefused & _ & Hnext).
  - discriminate.
  - reflexivity.
  - vm_compute. reflexivity.
  - split; [exact Hrefused|]. by rewrite Hnext.
Defined.

(** X27 at work: three events pushed on an empty buffer. *)
Lemma X27_security_events_window_witness :
  RequestAnalytics.securityEvents
    (foldl (fun acc event => RequestAnalytics.addSecurityEvent event acc)
       (RequestAnalytics.mk (∅ : gmap Js.str (list unit)) ([] : list nat))
       [1; 2; 3]%nat)
  = [1; 2; 3]%nat.
Proof.
  destruct (X27_security_events_window [1; 2; 3]%nat
              (RequestAnalytics.mk (∅ : gmap Js.str (list unit)) ([] : list nat)))
    as (Hheld & _).
  - vm_compute. lia.
  - rewrite Hheld. reflexivity.
Defined.

(** X28 at work: metrics pushed for two routes in turn. *)
Lemma X28_route_metrics_window_witness :
  default []
    (RequestAnalytics.metrics
       (foldl (fun acc push => RequestAnalytics.addMetric push.1 push.2 acc)
          (RequestAnalytics.mk (∅ : gmap Js.str (list nat)) ([] : list unit))
          [(Js.lit "/a", 1); (Js.lit "/b", 2); (Js.lit "/a", 3)]%nat)
     !! Js.lit "/a")
  = [1; 3]%nat.
Proof.
  destruct (X28_route_metrics_window
              [(Js.lit "/a", 1); (Js.lit "/b", 2); (Js.lit "/a", 3)]%nat
              (RequestAnalytics.mk (∅ : gmap Js.str (list nat)) ([] : list unit))
              (Js.lit "/a"))
    as (Hheld & _).
  - vm_compute. lia.
  - rewrite Hheld. reflexivity.
Defined.

(** X29 at work: Awa logs in through the handler, with her password. *)
Lemma X29_login_handler_answers_witness :
  @AuthController.login Sample.platform Sample.env 2000 (Sample.draw 2)
    (AuthController.mkLoginBody (Some (VStr (Js.lit "a@example.ci")))
       (Some (VStr (Js.lit "Secret1"))) None) Sample.home
  = (Some (AuthController.LoginReplied
             (failure 400 "UserStatus is not defined" "UserStatus is not defined"
                "LOGIN_ERROR")
             AuthController.Untouched), Sample.home).
Proof.
  destruct (@X29_login_handler_answers Sample.platform Sample.env 2000 (Sample.draw 2)
              (AuthController.mkLoginBody (Some (VStr (Js.lit "a@example.ci")))
                 (Some (VStr (Js.lit "Secret1"))) None)
              (Sample.credentials "Secret1") Sample.home)
    as (answer & w' & Hrun & _ & _ & _ & Htable).
  - compute_done.
  - reflexivity.
  - vm_compute in Htable. destruct Htable as [-> ->]. exact Hrun.
Defined.

(** X30 at work: a stale cookie beside a live token in the body. *)
Lemma X30_refresh_route_cookie_first_witness :
  AuthController.refreshTokens Sample.env 5000 (Sample.draw 3)
    (AuthController.mkRefreshRequest (Some (Jwt.Opaque (Js.lit "stale")))
       (Some Sample.phoneToken)) Sample.home
  = (Some (failure 401 "Token de rafraîchissement invalide" "Veuillez vous reconnecter"
             "INVALID_REFRESH_TOKEN", AuthController.Cleared), Sample.home).
Proof.
  destruct (X30_refresh_route_cookie_first Sample.env 5000 (Sample.draw 3) Sample.home)
    as (_ & Hcookie & _).
  - compute_done.
  - compute_done.
  - apply Hcookie; [reflexivity|]. compute_done.
Defined.

End Scenarios2.
